(** * Contact book of [bot.py]: fields, records, the address book and the
      upcoming-birthday query

    A shallow embedding of the core classes of [src/bot.py] ([Field],
    [Name], [Phone], [Birthday], [Record], [AddressBook]) together with the
    parts of the Python runtime they call: [str.isdigit], [len],
    [datetime.strptime] with the format [%d.%m.%Y], [date.replace],
    [date.weekday], date subtraction, [date + timedelta],
    [date.strftime], [list.remove] and the insertion-ordered [dict]. *)

From Stdlib Require Import ZArith NArith List Bool String Ascii Lia.
From Stdlib Require Import DecimalString.
Import ListNotations.

Local Open Scope string_scope.
Local Open Scope list_scope.
Local Open Scope Z_scope.

(** ** Python strings

    A Python 3 [str] is a sequence of Unicode code points.  Literals of the
    program are ASCII and are injected with [py]. *)

Definition codepoint : Type := N.
Definition py_str : Type := list codepoint.

Definition py (s : string) : py_str :=
  map N_of_ascii (list_ascii_of_string s).

Definition len (s : py_str) : Z := Z.of_nat (List.length s).

Fixpoint str_eqb (a b : py_str) : bool :=
  match a, b with
  | [], [] => true
  | x :: a', y :: b' => N.eqb x y && str_eqb a' b'
  | _, _ => false
  end.

(** Membership of a code point in a table of closed intervals. *)
Definition in_ranges (table : list (N * N)) (c : codepoint) : bool :=
  existsb (fun r => (fst r <=? c)%N && (c <=? snd r)%N) table.

(** Code points whose Numeric_Type is Digit or Decimal (Unicode 14.0, the
    tables of CPython 3.11): the characters [str.isdigit] accepts.  Besides
    the decimal digits of every script the table holds superscripts and
    subscripts, circled and parenthesised digits and the like. *)
Definition digit_ranges : list (N * N) :=
  [(48, 57); (178, 179); (185, 185); (1632, 1641); (1776, 1785); (1984, 1993);
   (2406, 2415); (2534, 2543); (2662, 2671); (2790, 2799); (2918, 2927); (3046, 3055);
   (3174, 3183); (3302, 3311); (3430, 3439); (3558, 3567); (3664, 3673); (3792, 3801);
   (3872, 3881); (4160, 4169); (4240, 4249); (4969, 4977); (6112, 6121); (6160, 6169);
   (6470, 6479); (6608, 6618); (6784, 6793); (6800, 6809); (6992, 7001); (7088, 7097);
   (7232, 7241); (7248, 7257); (8304, 8304); (8308, 8313); (8320, 8329); (9312, 9320);
   (9332, 9340); (9352, 9360); (9450, 9450); (9461, 9469); (9471, 9471); (10102, 10110);
   (10112, 10120); (10122, 10130); (42528, 42537); (43216, 43225); (43264, 43273); (43472, 43481);
   (43504, 43513); (43600, 43609); (44016, 44025); (65296, 65305); (66720, 66729); (68160, 68163);
   (68912, 68921); (69216, 69224); (69714, 69722); (69734, 69743); (69872, 69881); (69942, 69951);
   (70096, 70105); (70384, 70393); (70736, 70745); (70864, 70873); (71248, 71257); (71360, 71369);
   (71472, 71481); (71904, 71913); (72016, 72025); (72784, 72793); (73040, 73049); (73120, 73129);
   (92768, 92777); (92864, 92873); (93008, 93017); (120782, 120831); (123200, 123209); (123632, 123641);
   (125264, 125273); (127232, 127242); (130032, 130041)]%N.

(** Code points of the digit zero of every run of ten decimal digits
    (general category Nd, Numeric_Type Decimal): the characters a regular
    expression's [\d] matches on a [str] and [int] converts. *)
Definition decimal_zeros : list N :=
  [48; 1632; 1776; 1984; 2406; 2534; 2662; 2790; 2918; 3046;
   3174; 3302; 3430; 3558; 3664; 3792; 3872; 4160; 4240; 6112;
   6160; 6470; 6608; 6784; 6800; 6992; 7088; 7232; 7248; 42528;
   43216; 43264; 43472; 43504; 43600; 44016; 65296; 66720; 68912; 69734;
   69872; 69942; 70096; 70384; 70736; 70864; 71248; 71360; 71472; 71904;
   72016; 72784; 73040; 73120; 92768; 92864; 93008; 120782; 120792; 120802;
   120812; 120822; 123200; 123632; 125264; 130032]%N.

Definition char_isdigit (c : codepoint) : bool := in_ranges digit_ranges c.

(** The value of a decimal digit, [None] for every other character. *)
Definition decimal_value (c : codepoint) : option Z :=
  match find (fun z => (z <=? c)%N && (c <=? z + 9)%N) decimal_zeros with
  | Some z => Some (Z.of_N (c - z))
  | None => None
  end.

Definition char_isdecimal (c : codepoint) : bool :=
  match decimal_value c with Some _ => true | None => false end.

(** The ten ASCII digits, what the specification calls a decimal digit. *)
Definition ascii_digit (c : codepoint) : bool :=
  (48 <=? c)%N && (c <=? 57)%N.

(** [str.isdigit]: at least one character, and every character a digit. *)
Definition str_isdigit (s : py_str) : bool :=
  match s with
  | [] => false
  | _ => forallb char_isdigit s
  end.

(** ** Exceptions

    The program raises [ValueError] and [KeyError] with an explanatory
    text; the date library adds [OverflowError], and a method called on
    [None] gives [AttributeError].  Two library texts quote an argument
    with [repr], which is kept symbolic. *)

Inductive message : Type :=
| Text (text : py_str)
| TimeDataMismatch (data fmt : py_str)
    (* time data %r does not match format %r *)
| InvalidLiteral (text : py_str).
    (* invalid literal for int() with base 10: %r *)

Inductive exn : Type :=
| ValueError (msg : message)
| KeyError (msg : message)
| OverflowError (msg : message)
| AttributeError (msg : message).

Inductive result (A : Type) : Type :=
| Ok (a : A)
| Raise (e : exn).

Arguments Ok {A} a.
Arguments Raise {A} e.

(** A method runs on its receiver: it returns or raises, and leaves the
    receiver in the state reached at that point. *)
Definition method (S A : Type) : Type := S -> result A * S.

Class Monad (m : Type -> Type) : Type := {
  ret : forall {A}, A -> m A;
  bind : forall {A B}, m A -> (A -> m B) -> m B
}.

#[export] Instance result_monad : Monad result := {
  ret := fun _ a => Ok a;
  bind := fun _ _ c k => match c with Ok a => k a | Raise e => Raise e end
}.

#[export] Instance method_monad (S : Type) : Monad (method S) := {
  ret := fun _ a s => (Ok a, s);
  bind := fun _ _ c k s =>
    match c s with
    | (Ok a, s') => k a s'
    | (Raise e, s') => (Raise e, s')
    end
}.

Notation "x <- c ;; k" := (bind c (fun x => k))
  (at level 61, c at next level, right associativity).
Notation "c ;;; k" := (bind c (fun _ => k))
  (at level 61, right associativity).

Definition raise {S A : Type} (e : exn) : method S A := fun s => (Raise e, s).
Definition get {S : Type} : method S S := fun s => (Ok s, s).
Definition put {S : Type} (s : S) : method S unit := fun _ => (Ok tt, s).
Definition lift {S A : Type} (r : result A) : method S A := fun s => (r, s).

(** ** Calendar dates: [datetime.date]

    The proleptic Gregorian calendar of the [datetime] module, after its
    reference implementation: day 1 is 01.01.0001. *)

Record date : Type := Date { year : Z; month : Z; day : Z }.

Definition MINYEAR : Z := 1.
Definition MAXYEAR : Z := 9999.
Definition MAXORDINAL : Z := 3652059.

Definition DAYS_IN_MONTH : list Z :=
  [-1; 31; 28; 31; 30; 31; 30; 31; 31; 30; 31; 30; 31].
Definition DAYS_BEFORE_MONTH : list Z :=
  [-1; 0; 31; 59; 90; 120; 151; 181; 212; 243; 273; 304; 334].

Definition DI400Y : Z := 146097.
Definition DI100Y : Z := 36524.
Definition DI4Y : Z := 1461.

Definition index (table : list Z) (i : Z) : Z := nth (Z.to_nat i) table 0.

Definition is_leap (year : Z) : bool :=
  (year mod 4 =? 0) && (negb (year mod 100 =? 0) || (year mod 400 =? 0)).

Definition days_before_year (year : Z) : Z :=
  let y := year - 1 in
  y * 365 + y / 4 - y / 100 + y / 400.

Definition days_in_month (year month : Z) : Z :=
  if (month =? 2) && is_leap year then 29 else index DAYS_IN_MONTH month.

Definition days_before_month (year month : Z) : Z :=
  index DAYS_BEFORE_MONTH month
  + (if (month >? 2) && is_leap year then 1 else 0).

Definition ymd2ord (year month day : Z) : Z :=
  days_before_year year + days_before_month year month + day.

(** The month and the day of the month of the day numbered [n] (from 0)
    within its year: an estimate of the month that is at most one too
    large, and its correction. *)
Definition month_day (leapyear : bool) (n : Z) : Z * Z :=
  let month := Z.shiftr (n + 50) 5 in
  let preceding :=
    index DAYS_BEFORE_MONTH month
    + (if (month >? 2) && leapyear then 1 else 0) in
  if preceding >? n
  then
    let month := month - 1 in
    let preceding :=
      preceding - (index DAYS_IN_MONTH month
                   + (if (month =? 2) && leapyear then 1 else 0)) in
    (month, n - preceding + 1)
  else (month, n - preceding + 1).

Definition ord2ymd (ordinal : Z) : Z * Z * Z :=
  let n := ordinal - 1 in
  let n400 := n / DI400Y in
  let n := n mod DI400Y in
  let year := n400 * 400 + 1 in
  let n100 := n / DI100Y in
  let n := n mod DI100Y in
  let n4 := n / DI4Y in
  let n := n mod DI4Y in
  let n1 := n / 365 in
  let n := n mod 365 in
  let year := year + n100 * 100 + n4 * 4 + n1 in
  if (n1 =? 4) || (n100 =? 4) then (year - 1, 12, 31)
  else
    let leapyear := (n1 =? 3) && (negb (n4 =? 24) || (n100 =? 3)) in
    let '(month, day) := month_day leapyear n in
    (year, month, day).

(** Decimal rendering of an integer, as [%i] does. *)
Definition render_int (z : Z) : py_str :=
  py (NilZero.string_of_int (Z.to_int z)).

(** The argument check of the [date] constructor. *)
Definition date_new (year month day : Z) : result date :=
  if (year <? MINYEAR) || (year >? MAXYEAR)
  then Raise (ValueError (Text (py "year " ++ render_int year ++ py " is out of range")))
  else if (month <? 1) || (month >? 12)
  then Raise (ValueError (Text (py "month must be in 1..12")))
  else if (day <? 1) || (day >? days_in_month year month)
  then Raise (ValueError (Text (py "day is out of range for month")))
  else Ok (Date year month day).

(** [d.replace(year=y)] builds a new date from the changed fields. *)
Definition replace_year (d : date) (y : Z) : result date :=
  date_new y (month d) (day d).

Definition toordinal (d : date) : Z := ymd2ord (year d) (month d) (day d).

Definition fromordinal (n : Z) : result date :=
  let '(y, m, d) := ord2ymd n in date_new y m d.

(** [a < b] compares the triples (year, month, day). *)
Definition date_ltb (a b : date) : bool :=
  (year a <? year b)
  || ((year a =? year b)
      && ((month a <? month b)
          || ((month a =? month b) && (day a <? day b)))).

(** [(a - b).days] *)
Definition days_between (a b : date) : Z := toordinal a - toordinal b.

(** [d + timedelta(days=n)] *)
Definition add_days (d : date) (n : Z) : result date :=
  let o := toordinal d + n in
  if (0 <? o) && (o <=? MAXORDINAL) then fromordinal o
  else Raise (OverflowError (Text (py "date value out of range"))).

(** Monday is 0 and Sunday is 6. *)
Definition weekday (d : date) : Z := (toordinal d + 6) mod 7.

Definition digit_char (v : Z) : codepoint := (48 + Z.to_N v)%N.

Definition two_digits (n : Z) : py_str :=
  [digit_char (n / 10 mod 10); digit_char (n mod 10)].

Definition four_digits (n : Z) : py_str :=
  [digit_char (n / 1000 mod 10); digit_char (n / 100 mod 10);
   digit_char (n / 10 mod 10); digit_char (n mod 10)].

(** The decimal digits of a number from 0 to 9999, with no zeros before
    them. *)
Definition decimal (n : Z) : py_str :=
  if n <? 10 then [digit_char n]
  else if n <? 100 then two_digits n
  else if n <? 1000
  then [digit_char (n / 100 mod 10); digit_char (n / 10 mod 10);
        digit_char (n mod 10)]
  else four_digits n.

(** [d.strftime("%d.%m.%Y")] for the fields of a date.  The library hands
    the format to the [strftime] of the C library, which writes the day
    and the month zero-padded to two digits and the year as its decimal
    number without padding: a year below 1000 has fewer than four
    digits, as in [12.06.999]. *)
Definition strftime_dmY (d : date) : py_str :=
  two_digits (day d) ++ py "." ++ two_digits (month d) ++ py "."
  ++ decimal (year d).

(** ** [datetime.strptime(data, "%d.%m.%Y")]

    The library turns the format into the regular expression
    [(?P<d>3[0-1]|[1-2]\d|0[1-9]|[1-9]| [1-9])\.(?P<m>1[0-2]|0[1-9]|[1-9])\.(?P<Y>\d\d\d\d)],
    matches it at the start of the data with a backtracking matcher,
    refuses data that goes on after the match, converts the three groups
    with [int] and builds the date. *)

Inductive cclass : Type :=
| Lit (c : codepoint)          (* one given character *)
| Range (lo hi : codepoint)    (* [lo-hi] *)
| AnyDecimal.                  (* \d *)

Definition cclass_matches (k : cclass) (c : codepoint) : bool :=
  match k with
  | Lit x => N.eqb c x
  | Range lo hi => (lo <=? c)%N && (c <=? hi)%N
  | AnyDecimal => char_isdecimal c
  end.

(** A sequence of one-character classes against the start of [s]: the
    matched text and what follows it. *)
Fixpoint match_seq (ks : list cclass) (s : py_str) : option (py_str * py_str) :=
  match ks with
  | [] => Some ([], s)
  | k :: ks' =>
      match s with
      | [] => None
      | c :: s' =>
          if cclass_matches k c
          then match match_seq ks' s' with
               | Some (txt, rest) => Some (c :: txt, rest)
               | None => None
               end
          else None
      end
  end.

(** A group of alternatives followed by the rest of the expression [k]:
    the alternatives are tried from left to right, and the next one is
    tried when the rest fails after the current one. *)
Fixpoint match_group {A : Type} (alts : list (list cclass)) (s : py_str)
    (k : py_str -> py_str -> option A) : option A :=
  match alts with
  | [] => None
  | alt :: alts' =>
      match match_seq alt s with
      | Some (txt, rest) =>
          match k txt rest with
          | Some r => Some r
          | None => match_group alts' s k
          end
      | None => match_group alts' s k
      end
  end.

Definition chr (a : ascii) : codepoint := N_of_ascii a.

Definition group_d : list (list cclass) :=
  [[Lit (chr "3"); Range (chr "0") (chr "1")];
   [Range (chr "1") (chr "2"); AnyDecimal];
   [Lit (chr "0"); Range (chr "1") (chr "9")];
   [Range (chr "1") (chr "9")];
   [Lit (chr " "); Range (chr "1") (chr "9")]].

Definition group_m : list (list cclass) :=
  [[Lit (chr "1"); Range (chr "0") (chr "2")];
   [Lit (chr "0"); Range (chr "1") (chr "9")];
   [Range (chr "1") (chr "9")]].

Definition group_Y : list (list cclass) :=
  [[AnyDecimal; AnyDecimal; AnyDecimal; AnyDecimal]].

Definition dot : list (list cclass) := [[Lit (chr ".")]].

(** The groups [d], [m], [Y] of the first match and the unmatched rest. *)
Definition regex_match (data : py_str) : option (py_str * py_str * py_str * py_str) :=
  match_group group_d data (fun d rest =>
  match_group dot rest (fun _ rest =>
  match_group group_m rest (fun m rest =>
  match_group dot rest (fun _ rest =>
  match_group group_Y rest (fun y rest =>
  Some (d, m, y, rest)))))).

(** [int] of the text of a group: leading blanks are skipped, then every
    character is a decimal digit of some script. *)
Fixpoint digits_value (acc : Z) (s : py_str) : option Z :=
  match s with
  | [] => Some acc
  | c :: s' =>
      match decimal_value c with
      | Some v => digits_value (10 * acc + v) s'
      | None => None
      end
  end.

Fixpoint lstrip (s : py_str) : py_str :=
  match s with
  | c :: s' => if N.eqb c (chr " ") then lstrip s' else s
  | [] => []
  end.

Definition py_int (s : py_str) : result Z :=
  match lstrip s with
  | [] => Raise (ValueError (InvalidLiteral s))
  | t => match digits_value 0 t with
         | Some v => Ok v
         | None => Raise (ValueError (InvalidLiteral s))
         end
  end.

Definition strptime (data : py_str) : result date :=
  match regex_match data with
  | None => Raise (ValueError (TimeDataMismatch data (py "%d.%m.%Y")))
  | Some (d, m, y, rest) =>
      match rest with
      | _ :: _ => Raise (ValueError (Text (py "unconverted data remains: " ++ rest)))
      | [] =>
          day <- py_int d ;;
          month <- py_int m ;;
          year <- py_int y ;;
          date_new year month day
      end
  end.

(** ** Fields *)

Module Name.
Record t : Type := Build { value : py_str }.
Definition init (value : py_str) : t := Build value.
End Name.

Module Phone.
Record t : Type := Build { value : py_str }.

Definition validate (value : py_str) : bool :=
  str_isdigit value && (len value =? 10).

Definition init (value : py_str) : result t :=
  if negb (validate value)
  then Raise (ValueError (Text (py "Phone number must contain exactly 10 digits")))
  else Ok (Build value).
End Phone.

Module Birthday.
Record t : Type := Build { value : py_str }.

Definition init (value : py_str) : result t :=
  match strptime value with
  | Ok _ => Ok (Build value)
  | Raise (ValueError _) =>
      Raise (ValueError (Text (py "Invalid date format. Use DD.MM.YYYY")))
  | Raise e => Raise e
  end.
End Birthday.

(** ** Python lists and dictionaries *)

(** [l.remove(x)]: drops the first item equal to [x] and raises when there
    is none. *)
Fixpoint list_remove {A : Type} (eqb : A -> A -> bool) (x : A) (l : list A)
    : result (list A) :=
  match l with
  | [] => Raise (ValueError (Text (py "list.remove(x): x not in list")))
  | y :: l' =>
      if eqb y x then Ok l'
      else l'' <- list_remove eqb x l' ;; Ok (y :: l'')
  end.

(** A [dict] with [str] keys keeps its entries in insertion order; a key
    occurs once. *)
Definition dict (V : Type) : Type := list (py_str * V).

Fixpoint dict_get {V : Type} (k : py_str) (d : dict V) : option V :=
  match d with
  | [] => None
  | (k', v) :: d' => if str_eqb k' k then Some v else dict_get k d'
  end.

Definition dict_contains {V : Type} (k : py_str) (d : dict V) : bool :=
  match dict_get k d with Some _ => true | None => false end.

(** [d[k] = v]: an existing key keeps its place and takes the new value, a
    new key goes to the end. *)
Fixpoint dict_set {V : Type} (k : py_str) (v : V) (d : dict V) : dict V :=
  match d with
  | [] => [(k, v)]
  | (k', v') :: d' =>
      if str_eqb k' k then (k', v) :: d' else (k', v') :: dict_set k v d'
  end.

(** [del d[k]] for a key that is present. *)
Fixpoint dict_del {V : Type} (k : py_str) (d : dict V) : dict V :=
  match d with
  | [] => []
  | (k', v) :: d' => if str_eqb k' k then d' else (k', v) :: dict_del k d'
  end.

Definition dict_keys {V : Type} (d : dict V) : list py_str := map fst d.
Definition dict_values {V : Type} (d : dict V) : list V := map snd d.

(** The body of a [for] loop run over a list, stopped by an exception. *)
Fixpoint for_each {A B : Type} (body : B -> A -> result B) (acc : B)
    (l : list A) : result B :=
  match l with
  | [] => Ok acc
  | x :: l' => acc' <- body acc x ;; for_each body acc' l'
  end.

(** ** Record *)

Module Record_.
Record t : Type := Build {
  name : Name.t;
  phones : list Phone.t;
  birthday : option Birthday.t
}.

Definition init (name : py_str) : t := Build (Name.init name) [] None.

Definition set_phones (self : t) (ps : list Phone.t) : t :=
  Build (name self) ps (birthday self).

Definition set_birthday (self : t) (b : option Birthday.t) : t :=
  Build (name self) (phones self) b.

(** Two phones of a record are distinct objects, and the object handed to
    [list.remove] is the first one holding its value: comparing the held
    values finds the same item as comparing the objects. *)
Definition phone_eqb (p q : Phone.t) : bool :=
  str_eqb (Phone.value p) (Phone.value q).

Definition find_phone (phone : py_str) : method t (option Phone.t) :=
  self <- get ;;
  ret (find (fun p => str_eqb (Phone.value p) phone) (phones self)).

Definition phones_append (p : Phone.t) : method t unit :=
  self <- get ;; put (set_phones self (phones self ++ [p])).

Definition phones_remove (p : Phone.t) : method t unit :=
  self <- get ;;
  ps <- lift (list_remove phone_eqb p (phones self)) ;;
  put (set_phones self ps).

Definition add_phone (phone : py_str) : method t unit :=
  p <- lift (Phone.init phone) ;;
  phones_append p.

Definition remove_phone (phone : py_str) : method t unit :=
  phone_obj <- find_phone phone ;;
  match phone_obj with
  | Some p => phones_remove p
  | None => raise (ValueError (Text (py "Phone " ++ phone ++ py " not found")))
  end.

Definition edit_phone (old_phone new_phone : py_str) : method t unit :=
  phone_obj <- find_phone old_phone ;;
  match phone_obj with
  | None => raise (ValueError (Text (py "Phone " ++ old_phone ++ py " not found")))
  | Some p =>
      if negb (Phone.validate new_phone)
      then raise (ValueError (Text (py "New phone number must contain exactly 10 digits")))
      else
        phones_remove p ;;;
        q <- lift (Phone.init new_phone) ;;
        phones_append q
  end.

Definition add_birthday (birthday : py_str) : method t unit :=
  b <- lift (Birthday.init birthday) ;;
  self <- get ;; put (set_birthday self (Some b)).
End Record_.

(** ** AddressBook *)

Module AddressBook.
Record t : Type := Build { data : dict Record_.t }.

Definition empty : t := Build [].

Definition add_record (record : Record_.t) : method t unit :=
  self <- get ;;
  put (Build (dict_set (Name.value (Record_.name record)) record (data self))).

Definition find (name : py_str) : method t (option Record_.t) :=
  self <- get ;; ret (dict_get name (data self)).

Definition delete (name : py_str) : method t unit :=
  self <- get ;;
  if dict_contains name (data self)
  then put (Build (dict_del name (data self)))
  else raise (KeyError (Text (py "Contact " ++ name ++ py " not found"))).

(** One item of the list the query returns: the dictionary with the keys
    [name] and [birthday]. *)
Record upcoming : Type := Upcoming { u_name : py_str; u_birthday : py_str }.

(** The birthday moved into the year of [today], or into the next year
    when that day is over. *)
Definition birthday_this_year (today birthday_date : date) : result date :=
  this_year <- replace_year birthday_date (year today) ;;
  if date_ltb this_year today
  then replace_year birthday_date (year today + 1)
  else Ok this_year.

(** The day of congratulation: Saturday (5) and Sunday (6) move to the
    Monday after. *)
Definition congratulation_date (birthday_this_year : date) : result date :=
  if weekday birthday_this_year =? 5 then add_days birthday_this_year 2
  else if weekday birthday_this_year =? 6 then add_days birthday_this_year 1
  else Ok birthday_this_year.

(** The body of the loop over the records. *)
Definition upcoming_step (today : date) (upcoming_list : list upcoming)
    (record : Record_.t) : result (list upcoming) :=
  match Record_.birthday record with
  | None => Ok upcoming_list
  | Some b =>
      birthday_date <- strptime (Birthday.value b) ;;
      this_year <- birthday_this_year today birthday_date ;;
      let days_until_birthday := days_between this_year today in
      if (0 <=? days_until_birthday) && (days_until_birthday <=? 7)
      then
        congratulation <- congratulation_date this_year ;;
        Ok (upcoming_list
            ++ [Upcoming (Name.value (Record_.name record))
                         (strftime_dmY congratulation)])
      else Ok upcoming_list
  end.

(** The source reads [today] from the clock; here it is an argument.  The
    query changes neither the book nor its records. *)
Definition get_upcoming_birthdays (today : date) (self : t)
    : result (list upcoming) :=
  for_each (upcoming_step today) [] (dict_values (data self)).
End AddressBook.

(** ** What the statements are about *)

(** The dates the [date] type holds. *)
Definition valid_date (d : date) : Prop :=
  1 <= year d <= 9999 /\ 1 <= month d <= 12
  /\ 1 <= day d <= days_in_month (year d) (month d).

(** A phone is accepted exactly when it has ten characters, each of them
    one of the characters [decimal] admits. *)
Definition phone_claim (decimal : codepoint -> bool) (s : py_str) : Prop :=
  (exists p, Phone.init s = Ok p)
  <-> (len s = 10 /\ forallb decimal s = true).

Definition phone_error : exn :=
  ValueError (Text (py "Phone number must contain exactly 10 digits")).

Definition phone_not_found (phone : py_str) : exn :=
  ValueError (Text (py "Phone " ++ phone ++ py " not found")).

Definition new_phone_error : exn :=
  ValueError (Text (py "New phone number must contain exactly 10 digits")).

Definition birthday_error : exn :=
  ValueError (Text (py "Invalid date format. Use DD.MM.YYYY")).

Definition contact_not_found (name : py_str) : exn :=
  KeyError (Text (py "Contact " ++ name ++ py " not found")).

(** The values of the phones of a record, in order. *)
Definition phone_values (r : Record_.t) : list py_str :=
  map Phone.value (Record_.phones r).

(** A dictionary holds a key once. *)
Definition dict_wf {V : Type} (d : dict V) : Prop := NoDup (dict_keys d).

(** The invariant of the book: every key is the name of its record. *)
Definition keys_are_names (b : AddressBook.t) : Prop :=
  Forall (fun kv => fst kv = Name.value (Record_.name (snd kv)))
    (AddressBook.data b).

(** The four methods that change a record. *)
Inductive record_op : Type :=
| AddPhone (raw : py_str)
| RemovePhone (raw : py_str)
| EditPhone (old_raw new_raw : py_str)
| SetBirthday (raw : py_str).

Definition run_record_op (o : record_op) : method Record_.t unit :=
  match o with
  | AddPhone raw => Record_.add_phone raw
  | RemovePhone raw => Record_.remove_phone raw
  | EditPhone old_raw new_raw => Record_.edit_phone old_raw new_raw
  | SetBirthday raw => Record_.add_birthday raw
  end.

Definition method_name (o : record_op) : py_str :=
  match o with
  | AddPhone _ => py "add_phone"
  | RemovePhone _ => py "remove_phone"
  | EditPhone _ _ => py "edit_phone"
  | SetBirthday _ => py "add_birthday"
  end.

(** A method of [Record] called on what [find] returns, as the command
    handlers do: the record is the object the book holds, so the book
    shows what the method did to it; for a missing name [find] returns
    [None], which has no methods. *)
Definition call_on_found (name : py_str) (o : record_op)
    : method AddressBook.t unit :=
  fun book =>
    match dict_get name (AddressBook.data book) with
    | Some record =>
        let '(res, record') := run_record_op o record in
        (res, AddressBook.Build (dict_set name record' (AddressBook.data book)))
    | None =>
        (Raise (AttributeError
                  (Text (py "'NoneType' object has no attribute '"
                         ++ method_name o ++ py "'"))),
         book)
    end.

(** The two operations that change which records a book holds, and the
    book left by a run of them; a [delete] that raises leaves the book it
    found. *)
Inductive book_op : Type :=
| AddRecord (record : Record_.t)
| Delete (name : py_str).

Definition run_op (b : AddressBook.t) (o : book_op) : AddressBook.t :=
  match o with
  | AddRecord record => snd (AddressBook.add_record record b)
  | Delete name => snd (AddressBook.delete name b)
  end.

Definition run_ops (ops : list book_op) (b : AddressBook.t) : AddressBook.t :=
  fold_left run_op ops b.

Definition ann_contact : Record_.t := Record_.init (py "ann").

Definition two_contacts : AddressBook.t :=
  AddressBook.Build
    [(py "ann", ann_contact); (py "bob", Record_.init (py "bob"))].

(** *** The strings [strptime] reads *)

Definition in_class (lo hi : ascii) (c : codepoint) : Prop :=
  (chr lo <= c <= chr hi)%N.

(** The text of a day: 30 or 31; a 1 or a 2 and a decimal digit of any
    script; a 0 and a digit from 1 to 9; one digit from 1 to 9; a blank and
    a digit from 1 to 9. *)
Inductive day_text : py_str -> Prop :=
| day_thirty c : in_class "0" "1" c -> day_text [chr "3"; c]
| day_tens c1 c2 :
    in_class "1" "2" c1 -> char_isdecimal c2 = true -> day_text [c1; c2]
| day_padded c : in_class "1" "9" c -> day_text [chr "0"; c]
| day_single c : in_class "1" "9" c -> day_text [c]
| day_blank c : in_class "1" "9" c -> day_text [chr " "; c].

(** The text of a month: 10, 11 or 12; a 0 and a digit from 1 to 9; one
    digit from 1 to 9. *)
Inductive month_text : py_str -> Prop :=
| month_ten c : in_class "0" "2" c -> month_text [chr "1"; c]
| month_padded c : in_class "1" "9" c -> month_text [chr "0"; c]
| month_single c : in_class "1" "9" c -> month_text [c].

(** The text of a year: four decimal digits of any script. *)
Inductive year_text : py_str -> Prop :=
| year_four c1 c2 c3 c4 :
    char_isdecimal c1 = true -> char_isdecimal c2 = true ->
    char_isdecimal c3 = true -> char_isdecimal c4 = true ->
    year_text [c1; c2; c3; c4].

(** [reads s d]: [s] is a day, a month and a year with dots between them,
    and their numbers are the date [d] of the calendar. *)
Inductive reads : py_str -> date -> Prop :=
| reads_intro dt mt yt d m y :
    day_text dt -> month_text mt -> year_text yt ->
    py_int dt = Ok d -> py_int mt = Ok m -> py_int yt = Ok y ->
    valid_date (Date y m d) ->
    reads (dt ++ py "." ++ mt ++ py "." ++ yt) (Date y m d).

(** The text DD.MM.YYYY of a date, in the words of the specification: a
    day of two digits, a month of two digits and a year of four digits,
    joined by dots. *)
Definition dd_mm_yyyy (d : date) : py_str :=
  two_digits (day d) ++ py "." ++ two_digits (month d) ++ py "."
  ++ four_digits (year d).

(** C6 in the words of the specification: a birthday is accepted exactly
    when it is a day of two digits, a month of two digits and a year of
    four digits, joined by dots, that name a date of the calendar, which
    is to say when it is the text DD.MM.YYYY of such a date. *)
Definition birthday_claim (s : py_str) : Prop :=
  (exists b, Birthday.init s = Ok b)
  <-> (exists d, valid_date d /\ s = dd_mm_yyyy d).

(** Some alternative of a group takes the whole of [t]. *)
Definition fits (alts : list (list cclass)) (t : py_str) : bool :=
  existsb (fun alt => match match_seq alt t with
                      | Some (_, []) => true
                      | _ => false
                      end) alts.

(** [two_digits k] is a text of the group and reads back as [k]. *)
Definition two_digits_check (alts : list (list cclass)) (k : nat) : bool :=
  fits alts (two_digits (Z.of_nat k))
  && match py_int (two_digits (Z.of_nat k)) with
     | Ok v => v =? Z.of_nat k
     | Raise _ => false
     end.

(** *** The upcoming birthdays *)

(** The candidate date: the month and the day of the birthday in the year
    of [today], or in the year after when that is strictly before
    [today]. *)
Definition candidate (today birthday_date : date) : date :=
  let c := Date (year today) (month birthday_date) (day birthday_date) in
  if date_ltb c today
  then Date (year today + 1) (month birthday_date) (day birthday_date)
  else c.

(** The month and the day of the birthday are a date of the calendar in
    the year of [today] and in the year of the candidate: the birthday is
    not the 29th of February in a year without one, and the candidate
    does not lie after the year 9999. *)
Definition candidate_exists (today birthday_date : date) : Prop :=
  valid_date (Date (year today) (month birthday_date) (day birthday_date))
  /\ valid_date (candidate today birthday_date).

Definition days_until (today birthday_date : date) : Z :=
  days_between (candidate today birthday_date) today.

(** The record has a birthday, and its candidate date is at most 7 whole
    days after [today] and not before it. *)
Definition selected (today : date) (r : Record_.t) : bool :=
  match Record_.birthday r with
  | Some b =>
      match strptime (Birthday.value b) with
      | Ok bd => (0 <=? days_until today bd) && (days_until today bd <=? 7)
      | Raise _ => false
      end
  | None => false
  end.

Definition record_name (r : Record_.t) : py_str :=
  Name.value (Record_.name r).

Definition records (book : AddressBook.t) : list Record_.t :=
  dict_values (AddressBook.data book).

(** C1 in the words of the specification: the query returns, and the
    names it returns are those of the selected records, in the order of
    the book. *)
Definition upcoming_claim (today : date) (book : AddressBook.t) : Prop :=
  exists out,
    AddressBook.get_upcoming_birthdays today book = Ok out
    /\ map AddressBook.u_name out
       = map record_name (filter (selected today) (records book)).

(** The days a congratulation is moved: two from a Saturday, one from a
    Sunday, none otherwise. *)
Definition shift (c : date) : Z :=
  if weekday c =? 5 then 2 else if weekday c =? 6 then 1 else 0.

(** What an item of the result says of the record it was made from. *)
Definition congratulates (today : date) (r : Record_.t)
    (e : AddressBook.upcoming) : Prop :=
  exists b bd cd,
    Record_.birthday r = Some b
    /\ strptime (Birthday.value b) = Ok bd
    /\ AddressBook.u_name e = record_name r
    /\ 0 <= days_until today bd <= 7
    /\ valid_date cd
    /\ toordinal cd = toordinal (candidate today bd) + shift (candidate today bd)
    /\ (shift (candidate today bd) = 0 -> cd = candidate today bd)
    /\ AddressBook.u_birthday e = strftime_dmY cd.

Definition contact (name birthday : string) : Record_.t :=
  Record_.Build (Name.init (py name)) [] (Some (Birthday.Build (py birthday))).

Definition book_of (rs : list Record_.t) : AddressBook.t :=
  AddressBook.Build (map (fun r => (record_name r, r)) rs).

(** The three facts wanted of [month_day] for the day numbered [n] of a
    year, as one test that can be run. *)
Definition month_day_check (leapyear : bool) (n : Z) : bool :=
  let '(m, d) := month_day leapyear n in
  (1 <=? m) && (m <=? 12) && (1 <=? d)
  && (d <=? (if (m =? 2) && leapyear then 29 else index DAYS_IN_MONTH m))
  && (index DAYS_BEFORE_MONTH m + (if (m >? 2) && leapyear then 1 else 0) + d
      =? n + 1).

(** [valid_date] as a test. *)
Definition date_ok (d : date) : bool :=
  (1 <=? year d) && (year d <=? 9999) && (1 <=? month d) && (month d <=? 12)
  && (1 <=? day d) && (day d <=? days_in_month (year d) (month d)).

(** The books and the days of the examples. *)
Definition leap_day_book : AddressBook.t :=
  book_of [contact "ann" "29.02.2000"].

Definition june_book : AddressBook.t :=
  book_of [contact "ann" "15.06.2024"; contact "bob" "12.06.2024";
           contact "eve" "01.01.1990"].

Definition new_year_book : AddressBook.t :=
  book_of [contact "ann" "02.01.2000"].

Definition saturday_book : AddressBook.t :=
  book_of [contact "ann" "15.06.2000"].

Definition upcoming_item (name birthday : string) : AddressBook.upcoming :=
  AddressBook.Upcoming (py name) (py birthday).

Definition day_out_of_range : exn :=
  ValueError (Text (py "day is out of range for month")).

(** ** More of the program: what the further statements are about *)

Definition str_eq_dec : forall a b : py_str, {a = b} + {a <> b} :=
  list_eq_dec N.eq_dec.

(** The record left by a run of its methods; a method that raises leaves
    the record it found. *)
Definition run_record_ops (ops : list record_op) (r : Record_.t) : Record_.t :=
  fold_left (fun r o => snd (run_record_op o r)) ops r.

(** Every phone of the record passes [Phone.validate], and the birthday,
    when there is one, is read by [strptime] as a date of the calendar. *)
Definition record_wf (r : Record_.t) : Prop :=
  Forall (fun p => Phone.validate (Phone.value p) = true) (Record_.phones r)
  /\ (forall b, Record_.birthday r = Some b ->
        exists d, strptime (Birthday.value b) = Ok d /\ valid_date d).

(** [sep.join(items)] *)
Fixpoint str_join (sep : py_str) (items : list py_str) : py_str :=
  match items with
  | [] => []
  | [x] => x
  | x :: rest => x ++ sep ++ str_join sep rest
  end.

(** [Field.__str__]: the value of the field. *)
Definition field_str (value : py_str) : py_str := value.

(** [Record.__str__] *)
Definition record_str (self : Record_.t) : py_str :=
  let phones_str := str_join (py "; ") (map Phone.value (Record_.phones self)) in
  let birthday_str :=
    match Record_.birthday self with
    | Some b => py ", birthday: " ++ field_str (Birthday.value b)
    | None => []
    end in
  py "Contact name: " ++ Name.value (Record_.name self) ++ py ", phones: "
  ++ phones_str ++ birthday_str.

Definition newline : py_str := [10%N].

(** [AddressBook.__str__] *)
Definition book_str (self : AddressBook.t) : py_str :=
  match AddressBook.data self with
  | [] => py "Address book is empty"
  | _ => str_join newline (map record_str (dict_values (AddressBook.data self)))
  end.

(** ** Reading a command line: [parse_input] *)

(** The characters [str.isspace] holds of (Unicode 14.0): what
    [str.strip()] takes off the ends and [str.split()] separates at. *)
Definition space_ranges : list (N * N) :=
  [(9, 13); (28, 32); (133, 133); (160, 160); (5760, 5760); (8192, 8202);
   (8232, 8233); (8239, 8239); (8287, 8287); (12288, 12288)]%N.

Definition char_isspace (c : codepoint) : bool := in_ranges space_ranges c.

Fixpoint str_lstrip (s : py_str) : py_str :=
  match s with
  | c :: s' => if char_isspace c then str_lstrip s' else s
  | [] => []
  end.

(** [s.strip()] *)
Definition str_strip (s : py_str) : py_str :=
  rev (str_lstrip (rev (str_lstrip s))).

(** [s.split()]: the maximal runs of characters that are no white space;
    [word] is the run read so far. *)
Fixpoint split_from (word : py_str) (s : py_str) : list py_str :=
  match s with
  | [] => match word with [] => [] | _ => [word] end
  | c :: s' =>
      if char_isspace c
      then match word with
           | [] => split_from [] s'
           | _ => word :: split_from [] s'
           end
      else split_from (word ++ [c]) s'
  end.

Definition str_split (s : py_str) : list py_str := split_from [] s.

Section ParseInput.

(** [str.lower], the Unicode lower-casing of the runtime, is taken as
    given. *)
Variable str_lower : py_str -> py_str.

Definition parse_input (user_input : py_str) : option py_str * list py_str :=
  let parts := str_split (str_strip user_input) in
  match parts with
  | [] => (None, [])
  | command :: args => (Some (str_lower command), args)
  end.

End ParseInput.

(** A word: at least one character and no white space. *)
Definition is_word (w : py_str) : Prop :=
  w <> [] /\ forallb (fun c => negb (char_isspace c)) w = true.

(** A gap between two words: white space, at least one character. *)
Definition is_gap (g : py_str) : Prop :=
  g <> [] /\ forallb char_isspace g = true.

(** Words written one after the other, each with the gap that stands
    before it. *)
Fixpoint spaced (gaps_words : list (py_str * py_str)) : py_str :=
  match gaps_words with
  | [] => []
  | (g, w) :: rest => g ++ w ++ spaced rest
  end.

Definition gaps_and_words (gaps_words : list (py_str * py_str)) : Prop :=
  Forall (fun gw => is_gap (fst gw) /\ is_word (snd gw)) gaps_words.

(** A line with a first word: white space or nothing, the word, further
    words each after a gap, and white space or nothing. *)
Definition line_of (lead w : py_str) (rest : list (py_str * py_str))
    (trail : py_str) : py_str :=
  lead ++ w ++ spaced rest ++ trail.

(** [str.lower] as it acts on text of ASCII: the letters A to Z become a
    to z, and the other characters of ASCII stay. *)
Definition ascii_lower (s : py_str) : py_str :=
  map (fun c => if (65 <=? c)%N && (c <=? 90)%N then (c + 32)%N else c) s.

(** ** The command handlers and the loop of [main] *)

(** A text shown to the user.  The text of an exception, [str(e)], is
    kept with the exception: that of a [KeyError] is its message in
    quotes, as [repr] writes it. *)
Inductive text : Type :=
| Plain (s : py_str)
| ErrorText (e : exn)          (* f"Error: {e}" *)
| UnexpectedText (e : exn).    (* f"Unexpected error: {e}" *)

(** The methods of [BaseView] that the handlers and the loop call, on
    the state [W] of what is outside the program. *)
Class View (W : Type) : Type := {
  show_message : text -> W -> W;
  show_contacts : AddressBook.t -> W -> W;
  show_commands : W -> W;
  show_birthdays : list AddressBook.upcoming -> W -> W;
  show_goodbye : W -> W
}.

(** The book of the session and the outside. *)
Record world (W : Type) : Type := World { w_book : AddressBook.t; w_env : W }.

Arguments World {W} w_book w_env.
Arguments w_book {W} w.
Arguments w_env {W} w.

(** The errors of unpacking a list into names (texts of CPython 3.11). *)
Definition not_enough_values (at_least : bool) (expected : Z)
    (args : list py_str) : exn :=
  ValueError
    (Text (py "not enough values to unpack (expected "
           ++ (if at_least then py "at least " else [])
           ++ render_int expected ++ py ", got "
           ++ render_int (Z.of_nat (List.length args)) ++ py ")")).

Definition too_many_values (expected : Z) : exn :=
  ValueError
    (Text (py "too many values to unpack (expected "
           ++ render_int expected ++ py ")")).

Definition none_has_no (attribute : string) : exn :=
  AttributeError
    (Text (py "'NoneType' object has no attribute '" ++ py attribute ++ py "'")).

Definition no_such_contact : text := Plain (py "This contact does not exist.").

Definition invalid_command : text :=
  Plain (py "Invalid command. Type 'help' to see available commands.").

Section Handlers.

Context {W : Type} {view : View W}.

(** What a handler is before [input_error] wraps it: it returns a string
    or [None], or raises. *)
Definition handler_body : Type :=
  list py_str -> method (world W) (option py_str).

Definition on_book {A : Type} (m : method AddressBook.t A)
    : method (world W) A :=
  fun w => let '(res, book) := m (w_book w) in (res, World book (w_env w)).

Definition on_env (f : W -> W) : method (world W) unit :=
  fun w => (Ok tt, World (w_book w) (f (w_env w))).

Definition add_contact_body : handler_body := fun args =>
  match args with
  | name :: phone :: _ =>
      record <- on_book (AddressBook.find name) ;;
      message <- match record with
                 | None =>
                     on_book (AddressBook.add_record (Record_.init name)) ;;;
                     ret (py "Contact added.")
                 | Some _ => ret (py "Contact updated.")
                 end ;;
      match phone with
      | [] => ret tt
      | _ => on_book (call_on_found name (AddPhone phone))
      end ;;;
      ret (Some message)
  | _ => raise (not_enough_values true 2 args)
  end.

Definition change_contact_body : handler_body := fun args =>
  match args with
  | [name; old_phone; new_phone] =>
      on_book (call_on_found name (EditPhone old_phone new_phone)) ;;;
      ret (Some (py "Phone updated for " ++ name ++ py "."))
  | _ :: _ :: _ :: _ :: _ => raise (too_many_values 3)
  | _ => raise (not_enough_values false 3 args)
  end.

Definition show_phone_body : handler_body := fun args =>
  match args with
  | name :: _ =>
      record <- on_book (AddressBook.find name) ;;
      match record with
      | None => raise (none_has_no "phones")
      | Some r =>
          match Record_.phones r with
          | [] => ret (Some (py "No phones for " ++ name ++ py "."))
          | _ =>
              ret (Some (py "Contact name: " ++ name ++ py ", phones: "
                         ++ str_join (py "; ") (phone_values r)))
          end
      end
  | [] => raise (not_enough_values true 1 args)
  end.

Definition show_all_body : handler_body := fun args =>
  book <- on_book get ;;
  on_env (show_contacts book) ;;;
  ret None.

Definition delete_contact_body : handler_body := fun args =>
  match args with
  | name :: _ =>
      on_book (AddressBook.delete name) ;;;
      ret (Some (py "Contact " ++ name ++ py " deleted."))
  | [] => raise (not_enough_values true 1 args)
  end.

Definition remove_phone_body : handler_body := fun args =>
  match args with
  | [name; phone] =>
      on_book (call_on_found name (RemovePhone phone)) ;;;
      ret (Some (py "Phone " ++ phone ++ py " removed from " ++ name ++ py "."))
  | _ :: _ :: _ :: _ => raise (too_many_values 2)
  | _ => raise (not_enough_values false 2 args)
  end.

Definition add_birthday_body : handler_body := fun args =>
  match args with
  | [name; birthday] =>
      on_book (call_on_found name (SetBirthday birthday)) ;;;
      ret (Some (py "Birthday added for " ++ name ++ py "."))
  | _ :: _ :: _ :: _ => raise (too_many_values 2)
  | _ => raise (not_enough_values false 2 args)
  end.

Definition show_birthday_body : handler_body := fun args =>
  match args with
  | name :: _ =>
      record <- on_book (AddressBook.find name) ;;
      match record with
      | None => raise (none_has_no "birthday")
      | Some r =>
          match Record_.birthday r with
          | Some b =>
              ret (Some (name ++ py "'s birthday: " ++ field_str (Birthday.value b)))
          | None => ret (Some (py "No birthday set for " ++ name ++ py "."))
          end
      end
  | [] => raise (not_enough_values true 1 args)
  end.

(** [birthdays]; the query reads the day from the clock, here [today]. *)
Definition birthdays_body (today : date) : handler_body := fun args =>
  book <- on_book get ;;
  upcoming_list <- lift (AddressBook.get_upcoming_birthdays today book) ;;
  on_env (show_birthdays upcoming_list) ;;;
  ret None.

(** The decorator [input_error]: what the handler returns, or the text
    for what it raises.  Its clause for [IndexError] has no counterpart
    here: no handler indexes a list, and unpacking too few arguments
    raises [ValueError]. *)
Definition input_error (func : handler_body) (args : list py_str)
    (w : world W) : option text * world W :=
  match func args w with
  | (Ok (Some s), w') => (Some (Plain s), w')
  | (Ok None, w') => (None, w')
  | (Raise (ValueError m), w') => (Some (ErrorText (ValueError m)), w')
  | (Raise (KeyError m), w') => (Some (ErrorText (KeyError m)), w')
  | (Raise (AttributeError m), w') => (Some no_such_contact, w')
  | (Raise e, w') => (Some (UnexpectedText e), w')
  end.

Definition add_contact := input_error add_contact_body.
Definition change_contact := input_error change_contact_body.
Definition show_phone := input_error show_phone_body.
Definition show_all := input_error show_all_body.
Definition delete_contact := input_error delete_contact_body.
Definition remove_phone := input_error remove_phone_body.
Definition add_birthday := input_error add_birthday_body.
Definition show_birthday := input_error show_birthday_body.
Definition birthdays (today : date) := input_error (birthdays_body today).

(** [if result: view.show_message(result)] *)
Definition show_result (r : option text * world W) : world W :=
  match r with
  | (Some (Plain []), w) => w
  | (Some t, w) => World (w_book w) (show_message t (w_env w))
  | (None, w) => w
  end.

(** [str.lower] and the writing of the file by [save_data] are taken as
    given. *)
Variable str_lower : py_str -> py_str.
Variable save_data : AddressBook.t -> W -> W.

Definition is_command (command : option py_str) (name : string) : bool :=
  match command with
  | Some c => str_eqb c (py name)
  | None => false
  end.

(** One turn of the loop of [main] for the line the user typed: whether
    the loop goes on, and the world it leaves. *)
Definition main_step (today : date) (user_input : py_str) (w : world W)
    : bool * world W :=
  let '(command, args) := parse_input str_lower user_input in
  if is_command command "close" || is_command command "exit"
  then (false, World (w_book w) (show_goodbye (save_data (w_book w) (w_env w))))
  else if is_command command "hello"
  then (true, World (w_book w)
                (show_message (Plain (py "How can I help you?")) (w_env w)))
  else if is_command command "help"
  then (true, World (w_book w) (show_commands (w_env w)))
  else if is_command command "add"
  then (true, show_result (add_contact args w))
  else if is_command command "change"
  then (true, show_result (change_contact args w))
  else if is_command command "phone"
  then (true, show_result (show_phone args w))
  else if is_command command "all"
  then (true, snd (show_all args w))
  else if is_command command "add-birthday"
  then (true, show_result (add_birthday args w))
  else if is_command command "show-birthday"
  then (true, show_result (show_birthday args w))
  else if is_command command "birthdays"
  then (true, snd (birthdays today args w))
  else if is_command command "delete"
  then (true, show_result (delete_contact args w))
  else if is_command command "remove"
  then (true, show_result (remove_phone args w))
  else (true, World (w_book w) (show_message invalid_command (w_env w))).

End Handlers.

(** The book keeps a key once, every key is the name of its record, and
    every record is well formed. *)
Definition book_wf (b : AddressBook.t) : Prop :=
  dict_wf (AddressBook.data b)
  /\ Forall (fun kv => fst kv = record_name (snd kv) /\ record_wf (snd kv))
       (AddressBook.data b).

(** The world left by a session: the lines typed, each with the day it
    was typed on, until the loop stops or the lines end. *)
Fixpoint session {W : Type} {view : View W} (str_lower : py_str -> py_str)
    (save_data : AddressBook.t -> W -> W) (lines : list (date * py_str))
    (w : world W) : world W :=
  match lines with
  | [] => w
  | (today, line) :: lines' =>
      match main_step str_lower save_data today line w with
      | (true, w') => session str_lower save_data lines' w'
      | (false, w') => w'
      end
  end.

(** ** [ConsoleView]

    What the view prints, one entry for each call of [print]. *)

Definition console : Type := list text.

Definition print (s : py_str) (out : console) : console := out ++ [Plain s].

(** ["=" * 50] and the like *)
Definition str_times (c : ascii) (n : nat) : py_str := repeat (chr c) n.

(** [f"{s:<width}"]: [s] with blanks after it up to the width. *)
Definition ljust (width : nat) (s : py_str) : py_str :=
  s ++ repeat (chr " ") (width - List.length s).

Definition console_show_contact (record : Record_.t) (out : console) : console :=
  let phones_str :=
    match Record_.phones record with
    | [] => py "No phones"
    | _ => str_join (py "; ") (phone_values record)
    end in
  let birthday_str :=
    match Record_.birthday record with
    | Some b => py "Birthday: " ++ field_str (Birthday.value b)
    | None => py "No birthday set"
    end in
  print birthday_str
    (print (py "Phones: " ++ phones_str)
       (print (py "Name: " ++ record_name record) out)).

Definition console_show_contacts (book : AddressBook.t) (out : console)
    : console :=
  match AddressBook.data book with
  | [] => print (py "No contacts saved.") out
  | _ =>
      fold_left
        (fun out record =>
           print (str_times "-" 50) (console_show_contact record out))
        (records book)
        (print (str_times "=" 50)
           (print (py "ALL CONTACTS")
              (print (newline ++ str_times "=" 50) out)))
  end.

Definition console_commands : list (string * string) :=
  [("hello", "greet the bot");
   ("add [name] [phone]", "add contact or phone");
   ("change [name] [old_phone] [new_phone]", "change phone");
   ("phone [name]", "show contact phones");
   ("all", "show all contacts");
   ("add-birthday [name] [DD.MM.YYYY]", "add birthday");
   ("show-birthday [name]", "show birthday");
   ("birthdays", "show upcoming birthdays (next 7 days)");
   ("delete [name]", "delete contact");
   ("remove [name] [phone]", "remove specific phone");
   ("close/exit", "exit the bot")].

Definition console_show_commands (out : console) : console :=
  print (str_times "=" 50)
    (fold_left
       (fun out row =>
          print (py "  " ++ ljust 40 (py (fst row)) ++ py " - " ++ py (snd row))
            out)
       console_commands
       (print (str_times "=" 50)
          (print (py "AVAILABLE COMMANDS")
             (print (newline ++ str_times "=" 50) out)))).

Definition console_show_birthdays (items : list AddressBook.upcoming)
    (out : console) : console :=
  match items with
  | [] => print (py "No upcoming birthdays in the next 7 days.") out
  | _ =>
      print (str_times "=" 50)
        (fold_left
           (fun out item =>
              print (py "  " ++ ljust 20 (AddressBook.u_name item) ++ py " : "
                     ++ AddressBook.u_birthday item) out)
           items
           (print (str_times "=" 50)
              (print (py "UPCOMING BIRTHDAYS")
                 (print (newline ++ str_times "=" 50) out))))
  end.

Definition console_show_goodbye (out : console) : console :=
  print (str_times "=" 50)
    (print (py "Good bye! Have a great day!")
       (print (newline ++ str_times "=" 50) out)).

#[export] Instance ConsoleView : View console := {
  show_message := fun message out => out ++ [message];
  show_contacts := console_show_contacts;
  show_commands := console_show_commands;
  show_birthdays := console_show_birthdays;
  show_goodbye := console_show_goodbye
}.

(** A session at the console for lines typed in lower case, which
    [str.lower] leaves as they are; the file [save_data] writes is not
    looked at. *)
Definition console_session (lines : list (date * py_str)) : world console :=
  session (fun s => s) (fun _ out => out) lines (World AddressBook.empty []).

(** The words the loop of [main] knows. *)
Definition command_names : list string :=
  ["close"; "exit"; "hello"; "help"; "add"; "change"; "phone"; "all";
   "add-birthday"; "show-birthday"; "birthdays"; "delete"; "remove"].

(** * Properties *)

(** ** The calendar *)

Ltac eval_index :=
  repeat match goal with
    | |- context [index ?t ?k] =>
        let v := eval vm_compute in (index t k) in
        change (index t k) with v
    | H : context [index ?t ?k] |- _ =>
        let v := eval vm_compute in (index t k) in
        change (index t k) with v in H
    end.

Ltac eval_bool :=
  cbn [andb orb negb Z.eqb Z.gtb Z.ltb Z.leb Z.compare
       Pos.eqb Pos.compare Pos.compare_cont] in *.

Ltac split_month m :=
  let H := fresh "Hm" in
  assert (H : m = 1 \/ m = 2 \/ m = 3 \/ m = 4 \/ m = 5 \/ m = 6 \/ m = 7
              \/ m = 8 \/ m = 9 \/ m = 10 \/ m = 11 \/ m = 12) by lia;
  repeat (destruct H as [H | H]); subst m.

Lemma date_new_ok (y m d : Z) :
  valid_date (Date y m d) -> date_new y m d = Ok (Date y m d).
Proof.
  unfold valid_date, date_new, MINYEAR, MAXYEAR; simpl. intros (Hy & Hm & Hd).
  replace (y <? 1) with false by lia. replace (y >? 9999) with false by lia.
  replace (m <? 1) with false by lia. replace (m >? 12) with false by lia.
  replace (d <? 1) with false by lia.
  replace (d >? days_in_month y m) with false by lia.
  reflexivity.
Qed.

Lemma date_new_inv (y m d : Z) (x : date) :
  date_new y m d = Ok x -> x = Date y m d /\ valid_date x.
Proof.
  unfold date_new, valid_date, MINYEAR, MAXYEAR.
  destruct (y <? 1) eqn:E1; [discriminate |].
  destruct (y >? 9999) eqn:E2; [discriminate |].
  destruct (m <? 1) eqn:E3; [discriminate |].
  destruct (m >? 12) eqn:E4; [discriminate |].
  destruct (d <? 1) eqn:E5; [discriminate |].
  destruct (d >? days_in_month y m) eqn:E6; [discriminate |].
  simpl. intros [= <-]. simpl. repeat split; lia.
Qed.

Lemma days_before_year_succ (y : Z) :
  days_before_year (y + 1)
  = days_before_year y + 365 + (if is_leap y then 1 else 0).
Proof.
  unfold days_before_year, is_leap.
  replace (y + 1 - 1) with y by lia.
  destruct (Z.eqb_spec (y mod 4) 0), (Z.eqb_spec (y mod 100) 0),
    (Z.eqb_spec (y mod 400) 0); simpl; Z.div_mod_to_equations; lia.
Qed.

Lemma days_before_year_mono (a b : Z) :
  a <= b -> days_before_year a <= days_before_year b.
Proof.
  unfold days_before_year. intros H. Z.div_mod_to_equations. lia.
Qed.

(** A day of a year lies between the last day of the year before and the
    last day of the year itself. *)
Lemma day_of_year_bounds (y m d : Z) :
  1 <= m <= 12 -> 1 <= d <= days_in_month y m ->
  1 <= days_before_month y m + d <= 365 + (if is_leap y then 1 else 0).
Proof.
  intros Hm Hd. unfold days_in_month, days_before_month in *.
  split_month m; destruct (is_leap y); eval_index; eval_bool; lia.
Qed.

Lemma day_of_year_mono (y m1 d1 m2 d2 : Z) :
  1 <= m1 <= 12 -> 1 <= d1 <= days_in_month y m1 ->
  1 <= m2 <= 12 -> 1 <= d2 <= days_in_month y m2 ->
  m1 < m2 ->
  days_before_month y m1 + d1 < days_before_month y m2 + d2.
Proof.
  intros Hm1 Hd1 Hm2 Hd2 Hlt. unfold days_in_month, days_before_month in *.
  destruct (is_leap y); split_month m1; split_month m2;
    try lia; eval_index; eval_bool; lia.
Qed.

Lemma toordinal_year_bounds (d : date) :
  valid_date d ->
  days_before_year (year d) < toordinal d <= days_before_year (year d + 1).
Proof.
  intros (_ & Hm & Hd). unfold toordinal, ymd2ord.
  pose proof (day_of_year_bounds _ _ _ Hm Hd).
  rewrite days_before_year_succ. lia.
Qed.

Lemma toordinal_lt_of_ltb (a b : date) :
  valid_date a -> valid_date b ->
  date_ltb a b = true -> toordinal a < toordinal b.
Proof.
  intros Ha Hb. unfold date_ltb.
  destruct (Z.ltb_spec (year a) (year b)) as [Hy | Hy]; simpl.
  - intros _. pose proof (toordinal_year_bounds a Ha).
    pose proof (toordinal_year_bounds b Hb).
    pose proof (days_before_year_mono (year a + 1) (year b)). lia.
  - destruct (Z.eqb_spec (year a) (year b)) as [E | E]; simpl; [| discriminate].
    destruct Ha as (_ & Hma & Hda), Hb as (_ & Hmb & Hdb).
    unfold toordinal, ymd2ord. rewrite E in *.
    destruct (Z.ltb_spec (month a) (month b)) as [Hm | Hm]; simpl.
    + intros _.
      pose proof (day_of_year_mono _ _ _ _ _ Hma Hda Hmb Hdb Hm). lia.
    + destruct (Z.eqb_spec (month a) (month b)) as [Em | Em]; simpl;
        [| discriminate].
      rewrite Em. intros Hd%Z.ltb_lt. lia.
Qed.

Lemma date_ltb_total (a b : date) :
  date_ltb a b = false -> a = b \/ date_ltb b a = true.
Proof.
  destruct a as [ya ma da], b as [yb mb db]. unfold date_ltb; simpl.
  destruct (Z.ltb_spec ya yb), (Z.eqb_spec ya yb), (Z.ltb_spec ma mb),
    (Z.eqb_spec ma mb), (Z.ltb_spec da db); simpl; try discriminate; intros _;
    destruct (Z.ltb_spec yb ya), (Z.eqb_spec yb ya), (Z.ltb_spec mb ma),
    (Z.eqb_spec mb ma), (Z.ltb_spec db da); simpl; auto; try lia.
  left. f_equal; lia.
Qed.

(** The order of dates is the order of their day numbers. *)
Lemma date_ltb_toordinal (a b : date) :
  valid_date a -> valid_date b ->
  date_ltb a b = (toordinal a <? toordinal b).
Proof.
  intros Ha Hb. destruct (date_ltb a b) eqn:E.
  - symmetry. apply Z.ltb_lt. now apply toordinal_lt_of_ltb.
  - symmetry. apply Z.ltb_ge. destruct (date_ltb_total _ _ E) as [-> | E'].
    + lia.
    + pose proof (toordinal_lt_of_ltb _ _ Hb Ha E'). lia.
Qed.

Lemma toordinal_range (d : date) :
  valid_date d -> 1 <= toordinal d <= MAXORDINAL.
Proof.
  intros Hd. pose proof (toordinal_year_bounds d Hd) as H.
  destruct Hd as (Hy & _).
  pose proof (days_before_year_mono 1 (year d)).
  pose proof (days_before_year_mono (year d + 1) 10000).
  change (days_before_year 1) with 0 in *.
  change (days_before_year 10000) with 3652059 in *.
  unfold MAXORDINAL. lia.
Qed.

(** *** From day numbers back to dates *)

Lemma days_before_year_cycles (n400 n100 n4 n1 : Z) :
  0 <= n100 <= 3 -> 0 <= n4 <= 24 -> 0 <= n1 <= 3 ->
  days_before_year (n400 * 400 + 1 + n100 * 100 + n4 * 4 + n1)
  = n400 * DI400Y + n100 * DI100Y + n4 * DI4Y + n1 * 365.
Proof.
  intros H100 H4 H1. unfold days_before_year, DI400Y, DI100Y, DI4Y.
  Z.div_mod_to_equations. lia.
Qed.

Lemma is_leap_cycles (n400 n100 n4 n1 : Z) :
  0 <= n100 <= 3 -> 0 <= n4 <= 24 -> 0 <= n1 <= 3 ->
  is_leap (n400 * 400 + 1 + n100 * 100 + n4 * 4 + n1)
  = (n1 =? 3) && (negb (n4 =? 24) || (n100 =? 3)).
Proof.
  intros H100 H4 H1. unfold is_leap.
  set (y := n400 * 400 + 1 + n100 * 100 + n4 * 4 + n1).
  assert (E4 : y mod 4 = (n1 + 1) mod 4).
  { unfold y. Z.div_mod_to_equations. lia. }
  assert (E100 : y mod 100 = (n4 * 4 + n1 + 1) mod 100).
  { unfold y. Z.div_mod_to_equations. lia. }
  assert (E400 : y mod 400 = (n100 * 100 + n4 * 4 + n1 + 1) mod 400).
  { unfold y. Z.div_mod_to_equations. lia. }
  rewrite E4, E100, E400.
  destruct (Z.eqb_spec n1 3), (Z.eqb_spec n4 24), (Z.eqb_spec n100 3);
    destruct (Z.eqb_spec ((n1 + 1) mod 4) 0),
      (Z.eqb_spec ((n4 * 4 + n1 + 1) mod 100) 0),
      (Z.eqb_spec ((n100 * 100 + n4 * 4 + n1 + 1) mod 400) 0);
    simpl; try reflexivity; exfalso; Z.div_mod_to_equations; lia.
Qed.

Lemma month_day_checked :
  forallb (fun k => month_day_check true (Z.of_nat k)
                    && month_day_check false (Z.of_nat k)) (seq 0 365) = true.
Proof. vm_compute. reflexivity. Qed.

Lemma month_day_spec (y n : Z) :
  0 <= n <= 364 ->
  1 <= fst (month_day (is_leap y) n) <= 12
  /\ 1 <= snd (month_day (is_leap y) n)
       <= days_in_month y (fst (month_day (is_leap y) n))
  /\ days_before_month y (fst (month_day (is_leap y) n))
     + snd (month_day (is_leap y) n) = n + 1.
Proof.
  intros Hn.
  pose proof (proj1 (forallb_forall _ _) month_day_checked (Z.to_nat n)) as H.
  cbv beta in H. rewrite Z2Nat.id in H by lia.
  assert (Hin : In (Z.to_nat n) (seq 0 365)) by (apply in_seq; lia).
  apply H in Hin. apply andb_prop in Hin. destruct Hin as [Ht Hf].
  unfold days_in_month, days_before_month.
  assert (Hc : month_day_check (is_leap y) n = true)
    by (destruct (is_leap y); assumption).
  unfold month_day_check in Hc.
  destruct (month_day (is_leap y) n) as [m d]. simpl.
  repeat (apply andb_prop in Hc; destruct Hc as [Hc ?]).
  lia.
Qed.

(** Every day number of the calendar belongs to one valid date, which
    [ord2ymd] finds. *)
Lemma ord2ymd_spec (n : Z) :
  1 <= n <= MAXORDINAL ->
  exists y m d,
    ord2ymd n = (y, m, d) /\ valid_date (Date y m d) /\ ymd2ord y m d = n.
Proof.
  unfold MAXORDINAL. intros Hn. unfold ord2ymd.
  set (n0 := n - 1).
  pose proof (Z.div_mod n0 DI400Y ltac:(discriminate)) as E400.
  pose proof (Z.mod_pos_bound n0 DI400Y ltac:(reflexivity)) as B400.
  set (n400 := n0 / DI400Y) in *. set (r400 := n0 mod DI400Y) in *.
  pose proof (Z.div_mod r400 DI100Y ltac:(discriminate)) as E100.
  pose proof (Z.mod_pos_bound r400 DI100Y ltac:(reflexivity)) as B100.
  set (n100 := r400 / DI100Y) in *. set (r100 := r400 mod DI100Y) in *.
  pose proof (Z.div_mod r100 DI4Y ltac:(discriminate)) as E4.
  pose proof (Z.mod_pos_bound r100 DI4Y ltac:(reflexivity)) as B4.
  set (n4 := r100 / DI4Y) in *. set (r4 := r100 mod DI4Y) in *.
  pose proof (Z.div_mod r4 365 ltac:(discriminate)) as E1.
  pose proof (Z.mod_pos_bound r4 365 ltac:(reflexivity)) as B1.
  set (n1 := r4 / 365) in *. set (r := r4 mod 365) in *.
  unfold DI400Y, DI100Y, DI4Y in *.
  assert (H400 : 0 <= n400 <= 24) by (unfold n0 in *; lia).
  assert (H100 : 0 <= n100 <= 4) by lia.
  assert (H4 : 0 <= n4 <= 24) by lia.
  assert (H1 : 0 <= n1 <= 4) by lia.
  clearbody n400 r400 n100 r100 n4 r4 n1 r. unfold n0 in *. clear n0.
  destruct (Z.eqb_spec n1 4) as [F1 | F1]; simpl.
  - (* the last day of a leap year at the end of a cycle of four years *)
    exists (n400 * 400 + 1 + n100 * 100 + n4 * 4 + 3), 12, 31. split.
    + f_equal. f_equal. lia.
    + assert (Hl : 0 <= n100 <= 3) by lia.
      pose proof (is_leap_cycles n400 n100 n4 3 Hl H4 ltac:(lia)) as L.
      pose proof (days_before_year_cycles n400 n100 n4 3 Hl H4 ltac:(lia)) as D.
      assert (L' : is_leap (n400 * 400 + 1 + n100 * 100 + n4 * 4 + 3) = true).
      { rewrite L. destruct (Z.eqb_spec n4 24), (Z.eqb_spec n100 3);
          simpl; try reflexivity; lia. }
      set (y := n400 * 400 + 1 + n100 * 100 + n4 * 4 + 3) in *.
      unfold valid_date, ymd2ord, days_in_month, days_before_month.
      cbn [year month day]. rewrite L', D.
      unfold DI400Y, DI100Y, DI4Y. eval_index. eval_bool.
      unfold y. lia.
  - destruct (Z.eqb_spec n100 4) as [F100 | F100]; simpl.
    + (* the last day of a cycle of four hundred years *)
      exists (n400 * 400 + 1 + 3 * 100 + 24 * 4 + 3), 12, 31. split.
      * f_equal. f_equal. lia.
      * pose proof (is_leap_cycles n400 3 24 3 ltac:(lia) ltac:(lia) ltac:(lia)) as L.
        pose proof (days_before_year_cycles n400 3 24 3
                      ltac:(lia) ltac:(lia) ltac:(lia)) as D.
        change ((3 =? 3) && (negb (24 =? 24) || (3 =? 3))) with true in L.
        set (y := n400 * 400 + 1 + 3 * 100 + 24 * 4 + 3) in *.
        unfold valid_date, ymd2ord, days_in_month, days_before_month.
        cbn [year month day]. rewrite L, D.
        unfold DI400Y, DI100Y, DI4Y. eval_index. eval_bool.
        unfold y. lia.
    + assert (Hl : 0 <= n100 <= 3) by lia.
      assert (Hn1 : 0 <= n1 <= 3) by lia.
      rewrite <- (is_leap_cycles n400 n100 n4 n1 Hl H4 Hn1).
      set (y := n400 * 400 + 1 + n100 * 100 + n4 * 4 + n1).
      pose proof (month_day_spec y r ltac:(lia)) as (Hm & Hd & Ho).
      destruct (month_day (is_leap y) r) as [m d]. simpl in Hm, Hd, Ho.
      exists y, m, d. split; [reflexivity |].
      pose proof (days_before_year_cycles n400 n100 n4 n1 Hl H4 Hn1) as D.
      fold y in D. unfold DI400Y, DI100Y, DI4Y in D.
      unfold valid_date, ymd2ord; simpl. repeat split; try lia.
      all: unfold y; lia.
Qed.

Lemma fromordinal_spec (n : Z) :
  1 <= n <= MAXORDINAL ->
  exists d, fromordinal n = Ok d /\ valid_date d /\ toordinal d = n.
Proof.
  intros Hn. destruct (ord2ymd_spec n Hn) as (y & m & d & E & Hv & Ho).
  exists (Date y m d). unfold fromordinal. rewrite E.
  rewrite (date_new_ok _ _ _ Hv). auto.
Qed.

(** Adding days inside the calendar moves the day number by as much. *)
Lemma add_days_spec (d : date) (k : Z) :
  1 <= toordinal d + k <= MAXORDINAL ->
  exists d', add_days d k = Ok d' /\ valid_date d'
             /\ toordinal d' = toordinal d + k.
Proof.
  intros H. unfold add_days.
  replace (0 <? toordinal d + k) with true by lia.
  replace (toordinal d + k <=? MAXORDINAL) with true by lia.
  simpl. now apply fromordinal_spec.
Qed.

(** ** Strings and digits *)

Lemma str_eqb_eq (a b : py_str) : str_eqb a b = true <-> a = b.
Proof.
  revert b. induction a as [| x a IH]; intros [| y b]; simpl;
    try (split; [discriminate | discriminate]); try tauto.
  rewrite andb_true_iff, N.eqb_eq, IH. split.
  - intros [-> ->]. reflexivity.
  - intros [= -> ->]. auto.
Qed.

Lemma str_eqb_refl (a : py_str) : str_eqb a a = true.
Proof. now apply str_eqb_eq. Qed.

Lemma str_eqb_neq (a b : py_str) : str_eqb a b = false <-> a <> b.
Proof.
  rewrite <- str_eqb_eq. destruct (str_eqb a b); split; congruence.
Qed.

Lemma in_ranges_below (table : list (N * N)) (bound c : N) :
  forallb (fun r => (bound <=? fst r)%N) table = true ->
  (c < bound)%N -> in_ranges table c = false.
Proof.
  intros H Hc. induction table as [| r t IH]; simpl in *; [reflexivity |].
  apply andb_prop in H. destruct H as [Hr Ht].
  rewrite (IH Ht), orb_false_r. apply N.leb_le in Hr.
  destruct (N.leb_spec (fst r) c); [lia | reflexivity].
Qed.

(** Below U+00B2 (superscript two) the digits are the ten ASCII ones. *)
Lemma char_isdigit_ascii (c : codepoint) :
  (c < 178)%N -> char_isdigit c = ascii_digit c.
Proof.
  intros Hc. unfold char_isdigit.
  change (in_ranges digit_ranges c)
    with (ascii_digit c || in_ranges (tl digit_ranges) c).
  rewrite (in_ranges_below (tl digit_ranges) 178 c);
    [apply orb_false_r | reflexivity | exact Hc].
Qed.

Lemma str_isdigit_forallb (s : py_str) :
  len s = 10 -> str_isdigit s = forallb char_isdigit s.
Proof. destruct s; [discriminate | reflexivity]. Qed.

Lemma phone_validate_iff (s : py_str) :
  Phone.validate s = true <-> len s = 10 /\ forallb char_isdigit s = true.
Proof.
  unfold Phone.validate. rewrite andb_true_iff, Z.eqb_eq. split.
  - intros [Hd Hl]. rewrite <- (str_isdigit_forallb s Hl). auto.
  - intros [Hl Hd]. rewrite (str_isdigit_forallb s Hl). auto.
Qed.

Lemma phone_init_valid (s : py_str) :
  Phone.validate s = true -> Phone.init s = Ok (Phone.Build s).
Proof. unfold Phone.init. now intros ->. Qed.

Lemma phone_init_invalid (s : py_str) :
  Phone.validate s = false -> Phone.init s = Raise phone_error.
Proof. unfold Phone.init. now intros ->. Qed.

(** C5, as the code has it: a phone is accepted exactly when it has ten
    characters and [str.isdigit] holds of it, that is when each character
    has the Unicode numeric type Digit or Decimal; every other string is
    refused with the [ValueError] of the constructor.  For strings whose
    characters lie below U+00B2, all ASCII strings among them, these are
    the strings of ten decimal digits 0 to 9. *)
Theorem C5_phone_accepts_ten_isdigit_characters (s : py_str) :
  phone_claim char_isdigit s
  /\ (len s = 10 /\ forallb char_isdigit s = true ->
      Phone.init s = Ok (Phone.Build s))
  /\ (~ (len s = 10 /\ forallb char_isdigit s = true) ->
      Phone.init s = Raise phone_error)
  /\ (Forall (fun c => (c < 178)%N) s -> phone_claim ascii_digit s).
Proof.
  assert (Hok : len s = 10 /\ forallb char_isdigit s = true ->
                Phone.init s = Ok (Phone.Build s)).
  { intros H. apply phone_init_valid. now apply phone_validate_iff. }
  assert (Hbad : ~ (len s = 10 /\ forallb char_isdigit s = true) ->
                 Phone.init s = Raise phone_error).
  { intros H. apply phone_init_invalid.
    destruct (Phone.validate s) eqn:E; [| reflexivity].
    exfalso. apply H. now apply phone_validate_iff. }
  assert (Hclaim : phone_claim char_isdigit s).
  { split.
    - intros [p Hp]. apply phone_validate_iff.
      destruct (Phone.validate s) eqn:E; [reflexivity |].
      rewrite (phone_init_invalid s E) in Hp. discriminate.
    - intros H. eexists. now apply Hok. }
  split; [exact Hclaim |]. split; [exact Hok |]. split; [exact Hbad |].
  intros Hs.
  assert (E : forallb char_isdigit s = forallb ascii_digit s).
  { clear -Hs. induction Hs as [| c t Hc Ht IH]; simpl; [reflexivity |].
    now rewrite IH, (char_isdigit_ascii c Hc). }
  unfold phone_claim in *. rewrite <- E. exact Hclaim.
Qed.

(** C5 as the specification words it fails on ten superscript twos
    (U+00B2): [str.isdigit] holds of them, so the phone is accepted, and
    they are not decimal digits, neither the ASCII ones nor those of any
    other script. *)
Lemma C5_superscript_digits_accepted :
  Phone.init (repeat 178%N 10) = Ok (Phone.Build (repeat 178%N 10))
  /\ ~ phone_claim ascii_digit (repeat 178%N 10)
  /\ ~ phone_claim char_isdecimal (repeat 178%N 10).
Proof.
  split; [reflexivity |].
  split; intros [H _]; destruct H as [_ H];
    try (eexists; reflexivity); discriminate H.
Qed.

(** ** Records *)

Lemma find_phone_none (phone : py_str) (ps : list Phone.t) :
  ~ In phone (map Phone.value ps) ->
  find (fun p => str_eqb (Phone.value p) phone) ps = None.
Proof.
  induction ps as [| q ps IH]; simpl; [reflexivity |]. intros H.
  destruct (str_eqb (Phone.value q) phone) eqn:E.
  - apply str_eqb_eq in E. tauto.
  - apply IH. tauto.
Qed.

Lemma find_phone_first (phone : py_str) (pre post : list Phone.t) (p : Phone.t) :
  Phone.value p = phone -> ~ In phone (map Phone.value pre) ->
  find (fun q => str_eqb (Phone.value q) phone) (pre ++ p :: post) = Some p.
Proof.
  intros Hp. induction pre as [| q pre IH]; simpl; intros H.
  - now rewrite Hp, str_eqb_refl.
  - destruct (str_eqb (Phone.value q) phone) eqn:E.
    + apply str_eqb_eq in E. tauto.
    + apply IH. tauto.
Qed.

(** The first phone holding a value splits the list around itself. *)
Lemma find_phone_some (phone : py_str) (ps : list Phone.t) (p : Phone.t) :
  find (fun q => str_eqb (Phone.value q) phone) ps = Some p ->
  exists pre post,
    ps = pre ++ p :: post /\ Phone.value p = phone
    /\ ~ In phone (map Phone.value pre).
Proof.
  induction ps as [| q ps IH]; simpl; [discriminate |].
  destruct (str_eqb (Phone.value q) phone) eqn:E.
  - intros [= ->]. exists [], ps. apply str_eqb_eq in E. simpl. tauto.
  - intros H. destruct (IH H) as (pre & post & -> & Hp & Hn).
    exists (q :: pre), post. apply str_eqb_neq in E. simpl.
    repeat split; try assumption. intros [F | F]; tauto.
Qed.

Lemma list_remove_first (pre post : list Phone.t) (p : Phone.t) :
  ~ In (Phone.value p) (map Phone.value pre) ->
  list_remove Record_.phone_eqb p (pre ++ p :: post) = Ok (pre ++ post).
Proof.
  unfold Record_.phone_eqb. induction pre as [| q pre IH]; simpl; intros H.
  - now rewrite str_eqb_refl.
  - destruct (str_eqb (Phone.value q) (Phone.value p)) eqn:E.
    + apply str_eqb_eq in E. tauto.
    + rewrite IH by tauto. reflexivity.
Qed.

Lemma add_phone_run (raw : py_str) (r : Record_.t) :
  Record_.add_phone raw r
  = if Phone.validate raw
    then (Ok tt, Record_.set_phones r (Record_.phones r ++ [Phone.Build raw]))
    else (Raise phone_error, r).
Proof.
  unfold Record_.add_phone, Record_.phones_append, lift, Phone.init; simpl.
  destruct (Phone.validate raw); reflexivity.
Qed.

Lemma remove_phone_absent (raw : py_str) (r : Record_.t) :
  ~ In raw (phone_values r) ->
  Record_.remove_phone raw r = (Raise (phone_not_found raw), r).
Proof.
  intros H. unfold Record_.remove_phone, Record_.find_phone; simpl.
  now rewrite (find_phone_none raw _ H).
Qed.

Lemma remove_phone_present (raw : py_str) (r : Record_.t)
    (pre post : list Phone.t) (p : Phone.t) :
  Record_.phones r = pre ++ p :: post -> Phone.value p = raw ->
  ~ In raw (map Phone.value pre) ->
  Record_.remove_phone raw r = (Ok tt, Record_.set_phones r (pre ++ post)).
Proof.
  intros E Hp Hn. unfold Record_.remove_phone, Record_.find_phone; simpl.
  rewrite E, (find_phone_first raw pre post p Hp Hn).
  unfold Record_.phones_remove, lift; simpl.
  rewrite E, list_remove_first by now rewrite Hp. reflexivity.
Qed.

Lemma edit_phone_absent (old_raw new_raw : py_str) (r : Record_.t) :
  ~ In old_raw (phone_values r) ->
  Record_.edit_phone old_raw new_raw r = (Raise (phone_not_found old_raw), r).
Proof.
  intros H. unfold Record_.edit_phone, Record_.find_phone; simpl.
  now rewrite (find_phone_none old_raw _ H).
Qed.

Lemma edit_phone_present (old_raw new_raw : py_str) (r : Record_.t)
    (pre post : list Phone.t) (p : Phone.t) :
  Record_.phones r = pre ++ p :: post -> Phone.value p = old_raw ->
  ~ In old_raw (map Phone.value pre) ->
  Record_.edit_phone old_raw new_raw r
  = if Phone.validate new_raw
    then (Ok tt, Record_.set_phones r (pre ++ post ++ [Phone.Build new_raw]))
    else (Raise new_phone_error, r).
Proof.
  intros E Hp Hn. unfold Record_.edit_phone, Record_.find_phone; simpl.
  rewrite E, (find_phone_first old_raw pre post p Hp Hn).
  destruct (Phone.validate new_raw) eqn:V; simpl; [| reflexivity].
  unfold Record_.phones_remove, Record_.phones_append, lift; simpl.
  rewrite E, list_remove_first by now rewrite Hp. simpl.
  rewrite (phone_init_valid new_raw V). unfold Record_.set_phones; simpl.
  now rewrite <- app_assoc.
Qed.

Lemma in_phone_values_split (raw : py_str) (r : Record_.t) :
  In raw (phone_values r) ->
  exists pre p post,
    Record_.phones r = pre ++ p :: post /\ Phone.value p = raw
    /\ ~ In raw (map Phone.value pre).
Proof.
  intros H.
  destruct (find (fun q => str_eqb (Phone.value q) raw) (Record_.phones r))
    as [p |] eqn:F.
  - destruct (find_phone_some _ _ _ F) as (pre & post & E & Hp & Hn).
    now exists pre, p, post.
  - exfalso. unfold phone_values in H. apply in_map_iff in H.
    destruct H as (q & Hq & Hin).
    pose proof (find_none _ _ F q Hin) as N. simpl in N.
    rewrite Hq, str_eqb_refl in N. discriminate.
Qed.

Lemma add_birthday_run (raw : py_str) (r : Record_.t) :
  Record_.add_birthday raw r
  = match strptime raw with
    | Ok _ => (Ok tt, Record_.set_birthday r (Some (Birthday.Build raw)))
    | Raise (ValueError _) => (Raise birthday_error, r)
    | Raise e => (Raise e, r)
    end.
Proof.
  unfold Record_.add_birthday, lift, Birthday.init; simpl.
  destruct (strptime raw) as [d | [m | m | m | m]]; reflexivity.
Qed.

(** C4: [edit_phone] reports a missing old phone first and an invalid new
    phone second, both without touching the record; otherwise the first
    phone equal to the old one leaves the list and the new phone is put at
    its end.  The specification's NotFoundError and ValidationError are the
    two [ValueError]s of the method, told apart by their text. *)
Theorem C4_edit_phone_removes_first_and_appends
    (r : Record_.t) (old_raw new_raw : py_str) :
  (~ In old_raw (phone_values r) ->
   Record_.edit_phone old_raw new_raw r = (Raise (phone_not_found old_raw), r))
  /\ (In old_raw (phone_values r) -> Phone.validate new_raw = false ->
      Record_.edit_phone old_raw new_raw r = (Raise new_phone_error, r))
  /\ (forall pre p post,
        Record_.phones r = pre ++ p :: post -> Phone.value p = old_raw ->
        ~ In old_raw (map Phone.value pre) ->
        Phone.validate new_raw = true ->
        Record_.edit_phone old_raw new_raw r
        = (Ok tt, Record_.set_phones r (pre ++ post ++ [Phone.Build new_raw])))
  /\ (forall n b,
        Record_.edit_phone (py "1111111111") (py "2222222222")
          (Record_.Build n [Phone.Build (py "1111111111")] b)
        = (Ok tt, Record_.Build n [Phone.Build (py "2222222222")] b)).
Proof.
  split; [apply edit_phone_absent |]. split; [| split].
  - intros Hin V. destruct (in_phone_values_split _ _ Hin)
      as (pre & p & post & E & Hp & Hn).
    rewrite (edit_phone_present _ new_raw _ _ _ _ E Hp Hn), V. reflexivity.
  - intros pre p post E Hp Hn V.
    rewrite (edit_phone_present _ new_raw _ _ _ _ E Hp Hn), V. reflexivity.
  - intros n b. reflexivity.
Qed.

(** ** Dictionaries *)

Section DictFacts.
Context {V : Type}.
Implicit Types (d pre post : dict V) (k : py_str) (v : V).

Lemma dict_get_none k d : dict_get k d = None <-> ~ In k (dict_keys d).
Proof.
  induction d as [| [k' v'] d IH]; simpl; [tauto |].
  destruct (str_eqb k' k) eqn:E.
  - apply str_eqb_eq in E. split; [discriminate | tauto].
  - apply str_eqb_neq in E. rewrite IH. tauto.
Qed.

Lemma dict_get_split k v d :
  dict_get k d = Some v ->
  exists pre post, d = pre ++ (k, v) :: post /\ ~ In k (dict_keys pre).
Proof.
  induction d as [| [k' v'] d IH]; simpl; [discriminate |].
  destruct (str_eqb k' k) eqn:E.
  - apply str_eqb_eq in E. intros [= ->]. subst k'. exists [], d. simpl. tauto.
  - apply str_eqb_neq in E. intros H.
    destruct (IH H) as (pre & post & -> & Hn).
    exists ((k', v') :: pre), post. simpl. split; [reflexivity | tauto].
Qed.

Lemma dict_get_at k v pre post :
  ~ In k (dict_keys pre) -> dict_get k (pre ++ (k, v) :: post) = Some v.
Proof.
  induction pre as [| [k' v'] pre IH]; simpl; intros H.
  - now rewrite str_eqb_refl.
  - destruct (str_eqb k' k) eqn:E.
    + apply str_eqb_eq in E. tauto.
    + apply IH. tauto.
Qed.

Lemma dict_get_skip k k' v pre post :
  k' <> k ->
  dict_get k' (pre ++ (k, v) :: post) = dict_get k' (pre ++ post).
Proof.
  intros Hk. induction pre as [| [k0 v0] pre IH]; simpl.
  - destruct (str_eqb k k') eqn:E; [| reflexivity].
    apply str_eqb_eq in E. congruence.
  - now rewrite IH.
Qed.

Lemma dict_del_at k v pre post :
  ~ In k (dict_keys pre) -> dict_del k (pre ++ (k, v) :: post) = pre ++ post.
Proof.
  induction pre as [| [k' v'] pre IH]; simpl; intros H.
  - now rewrite str_eqb_refl.
  - destruct (str_eqb k' k) eqn:E.
    + apply str_eqb_eq in E. tauto.
    + rewrite IH by tauto. reflexivity.
Qed.

Lemma dict_set_get k v d : dict_get k (dict_set k v d) = Some v.
Proof.
  induction d as [| [k' v'] d IH]; simpl.
  - now rewrite str_eqb_refl.
  - destruct (str_eqb k' k) eqn:E; simpl; now rewrite E.
Qed.

Lemma dict_set_get_other k k' v d :
  k' <> k -> dict_get k' (dict_set k v d) = dict_get k' d.
Proof.
  intros Hk. induction d as [| [k0 v0] d IH]; simpl.
  - destruct (str_eqb k k') eqn:E; [| reflexivity].
    apply str_eqb_eq in E. congruence.
  - destruct (str_eqb k0 k) eqn:E; simpl.
    + destruct (str_eqb k0 k') eqn:E'; [| reflexivity].
      apply str_eqb_eq in E, E'. congruence.
    + now rewrite IH.
Qed.

(** Assignment keeps the keys of a dictionary that has the key and adds
    the key at the end of one that has not. *)
Lemma dict_set_keys k v d :
  dict_keys (dict_set k v d)
  = if dict_contains k d then dict_keys d else dict_keys d ++ [k].
Proof.
  unfold dict_contains. induction d as [| [k' v'] d IH]; simpl; [reflexivity |].
  destruct (str_eqb k' k) eqn:E; simpl; [reflexivity |].
  rewrite IH. now destruct (dict_get k d).
Qed.

Lemma dict_set_wf k v d : dict_wf d -> dict_wf (dict_set k v d).
Proof.
  unfold dict_wf. intros H. rewrite dict_set_keys. unfold dict_contains.
  destruct (dict_get k d) eqn:E; [exact H |].
  apply dict_get_none in E.
  apply NoDup_app; [exact H | constructor; [easy | constructor] |].
  intros x Hx [<- | []]. tauto.
Qed.

Lemma dict_set_forall (P : py_str * V -> Prop) k v d :
  P (k, v) -> Forall P d -> Forall P (dict_set k v d).
Proof.
  intros Hkv. induction 1 as [| [k' v'] d Hx Hd IH]; simpl.
  - repeat constructor. exact Hkv.
  - destruct (str_eqb k' k) eqn:E.
    + apply str_eqb_eq in E. subst k'. now constructor.
    + now constructor.
Qed.

Lemma dict_del_incl k d : incl (dict_del k d) d.
Proof.
  induction d as [| [k' v'] d IH]; simpl; [easy |].
  destruct (str_eqb k' k).
  - now apply incl_tl.
  - apply incl_cons; [now left | now apply incl_tl].
Qed.

Lemma dict_del_forall (P : py_str * V -> Prop) k d :
  Forall P d -> Forall P (dict_del k d).
Proof.
  rewrite !Forall_forall. intros H x Hx. apply H. now apply (dict_del_incl k).
Qed.

Lemma dict_del_wf k d : dict_wf d -> dict_wf (dict_del k d).
Proof.
  unfold dict_wf, dict_keys. induction d as [| [k' v'] d IH]; simpl; [easy |].
  intros H. inversion H as [| ? ? Hn Hd]; subst.
  destruct (str_eqb k' k); [exact Hd |]. simpl. constructor.
  - intros Hin. apply Hn. apply in_map_iff in Hin.
    destruct Hin as (x & Hx & Hin). apply in_map_iff. exists x.
    split; [exact Hx | now apply (dict_del_incl k)].
  - now apply IH.
Qed.

End DictFacts.

(** ** The book *)

Lemma dict_set_same {V : Type} (k : py_str) (v : V) (d : dict V) :
  dict_get k d = Some v -> dict_set k v d = d.
Proof.
  induction d as [| [k' v'] d IH]; simpl; [discriminate |].
  destruct (str_eqb k' k) eqn:E.
  - now intros [= ->].
  - intros H. now rewrite IH.
Qed.

Lemma record_op_failure (o : record_op) (r r' : Record_.t) (e : exn) :
  run_record_op o r = (Raise e, r') -> r' = r.
Proof.
  destruct o as [raw | raw | old_raw new_raw | raw]; simpl.
  - rewrite add_phone_run. destruct (Phone.validate raw); congruence.
  - destruct (in_dec (list_eq_dec N.eq_dec) raw (phone_values r)) as [Hin | Hn].
    + destruct (in_phone_values_split _ _ Hin) as (pre & p & post & E & Hp & Hq).
      rewrite (remove_phone_present _ _ _ _ _ E Hp Hq). discriminate.
    + rewrite (remove_phone_absent _ _ Hn). congruence.
  - destruct (in_dec (list_eq_dec N.eq_dec) old_raw (phone_values r))
      as [Hin | Hn].
    + destruct (in_phone_values_split _ _ Hin) as (pre & p & post & E & Hp & Hq).
      rewrite (edit_phone_present _ new_raw _ _ _ _ E Hp Hq).
      destruct (Phone.validate new_raw); congruence.
    + rewrite (edit_phone_absent _ _ _ Hn). congruence.
  - rewrite add_birthday_run.
    destruct (strptime raw) as [d | [m | m | m | m]]; congruence.
Qed.

Lemma delete_absent (name : py_str) (b : AddressBook.t) :
  dict_get name (AddressBook.data b) = None ->
  AddressBook.delete name b = (Raise (contact_not_found name), b).
Proof.
  intros H. unfold AddressBook.delete, dict_contains; simpl. now rewrite H.
Qed.

Lemma delete_present (name : py_str) (r : Record_.t) (b : AddressBook.t) :
  dict_get name (AddressBook.data b) = Some r ->
  AddressBook.delete name b
  = (Ok tt, AddressBook.Build (dict_del name (AddressBook.data b))).
Proof.
  intros H. unfold AddressBook.delete, dict_contains; simpl. now rewrite H.
Qed.

(** C7: an operation of the core that raises leaves the record, and the
    book that holds the record, as it found them: the four methods of a
    record, the same methods called on a record of a book, [add_record]
    (which never raises) and [delete]. *)
Theorem C7_failed_operation_changes_nothing (e : exn) :
  (forall o r r', run_record_op o r = (Raise e, r') -> r' = r)
  /\ (forall name o b b',
        call_on_found name o b = (Raise e, b') -> b' = b)
  /\ (forall record b b',
        AddressBook.add_record record b = (Raise e, b') -> b' = b)
  /\ (forall name b b', AddressBook.delete name b = (Raise e, b') -> b' = b).
Proof.
  split; [| split; [| split]].
  - intros o r r'. apply record_op_failure.
  - intros name o b b'. unfold call_on_found.
    destruct (dict_get name (AddressBook.data b)) as [r |] eqn:G;
      [| congruence].
    destruct (run_record_op o r) as [res r'] eqn:R. intros [= -> <-].
    apply record_op_failure in R. subst r'.
    rewrite (dict_set_same _ _ _ G). now destruct b.
  - intros record b b'. discriminate.
  - intros name b b'.
    destruct (dict_get name (AddressBook.data b)) as [r |] eqn:G.
    + rewrite (delete_present _ _ _ G). discriminate.
    + rewrite (delete_absent _ _ G). congruence.
Qed.

(** The statement of C7 where the operations do raise: a phone that is
    too short, a phone the record does not have, a birthday that is no
    date on the record of a book, and a name the book does not hold. *)
Lemma C7_failures_on_two_contacts :
  (fst (run_record_op (AddPhone (py "12")) ann_contact) = Raise phone_error
   /\ snd (run_record_op (AddPhone (py "12")) ann_contact) = ann_contact)
  /\ (fst (run_record_op (EditPhone (py "0123456789") (py "12")) ann_contact)
      = Raise (phone_not_found (py "0123456789"))
      /\ snd (run_record_op (EditPhone (py "0123456789") (py "12")) ann_contact)
         = ann_contact)
  /\ (fst (call_on_found (py "ann") (SetBirthday (py "31.02.2020")) two_contacts)
      = Raise birthday_error
      /\ snd (call_on_found (py "ann") (SetBirthday (py "31.02.2020"))
                two_contacts)
         = two_contacts)
  /\ (fst (AddressBook.delete (py "eve") two_contacts)
      = Raise (contact_not_found (py "eve"))
      /\ snd (AddressBook.delete (py "eve") two_contacts) = two_contacts).
Proof.
  split; [| split; [| split]]; (split; [reflexivity |]).
  - apply (proj1 (C7_failed_operation_changes_nothing phone_error)
             (AddPhone (py "12"))).
    reflexivity.
  - apply (proj1 (C7_failed_operation_changes_nothing
                    (phone_not_found (py "0123456789")))
             (EditPhone (py "0123456789") (py "12"))).
    reflexivity.
  - apply (proj1 (proj2 (C7_failed_operation_changes_nothing birthday_error))
             (py "ann") (SetBirthday (py "31.02.2020"))).
    reflexivity.
  - apply (proj2 (proj2 (proj2 (C7_failed_operation_changes_nothing
                                  (contact_not_found (py "eve")))))
             (py "eve")).
    reflexivity.
Defined.

Lemma add_record_keys_are_names (record : Record_.t) (b : AddressBook.t) :
  keys_are_names b -> keys_are_names (snd (AddressBook.add_record record b)).
Proof.
  unfold keys_are_names; simpl. now apply dict_set_forall.
Qed.

Lemma run_op_keys_are_names (o : book_op) (b : AddressBook.t) :
  keys_are_names b -> keys_are_names (run_op b o).
Proof.
  destruct o as [record | name]; simpl.
  - apply add_record_keys_are_names.
  - unfold AddressBook.delete, keys_are_names; simpl.
    destruct (dict_contains name (AddressBook.data b)); simpl; [| easy].
    apply dict_del_forall.
Qed.

Lemma run_op_wf (o : book_op) (b : AddressBook.t) :
  dict_wf (AddressBook.data b) -> dict_wf (AddressBook.data (run_op b o)).
Proof.
  destruct o as [record | name]; simpl.
  - apply dict_set_wf.
  - unfold AddressBook.delete; simpl.
    destruct (dict_contains name (AddressBook.data b)); simpl; [| easy].
    apply dict_del_wf.
Qed.

Lemma run_ops_invariant (ops : list book_op) (b : AddressBook.t) :
  keys_are_names b /\ dict_wf (AddressBook.data b) ->
  keys_are_names (run_ops ops b) /\ dict_wf (AddressBook.data (run_ops ops b)).
Proof.
  revert b. induction ops as [| o ops IH]; intros b [Hk Hw]; simpl; [easy |].
  apply IH. split; [now apply run_op_keys_are_names | now apply run_op_wf].
Qed.

(** C8: whatever [add_record]s and [delete]s were run on an empty book,
    every key of the book is the name of the record stored under it (and
    no key occurs twice); [add_record] returns, stores the record under
    its name in place of what was there, and leaves the other keys with
    their records. *)
Theorem C8_keys_are_record_names (ops : list book_op) :
  keys_are_names (run_ops ops AddressBook.empty)
  /\ dict_wf (AddressBook.data (run_ops ops AddressBook.empty))
  /\ (forall record b,
        let name := Name.value (Record_.name record) in
        exists b',
          AddressBook.add_record record b = (Ok tt, b')
          /\ dict_get name (AddressBook.data b') = Some record
          /\ (forall k, k <> name ->
                dict_get k (AddressBook.data b') = dict_get k (AddressBook.data b))
          /\ (keys_are_names b -> keys_are_names b')).
Proof.
  assert (H0 : keys_are_names AddressBook.empty
               /\ dict_wf (AddressBook.data AddressBook.empty)).
  { split; constructor. }
  destruct (run_ops_invariant ops _ H0) as [Hk Hw].
  split; [exact Hk |]. split; [exact Hw |].
  intros record b name. eexists. split; [reflexivity |]. simpl.
  split; [apply dict_set_get |]. split.
  - intros k Hk'. now apply dict_set_get_other.
  - apply (add_record_keys_are_names record b).
Qed.

(** C9: [delete] of a name the book does not hold raises the [KeyError]
    and leaves the book; [delete] of a name it holds takes out the entry of
    that name and nothing else: the entries before and after it stay, in
    their order, the name is no longer found and every other name is found
    with the record it had. *)
Theorem C9_delete_removes_exactly_the_entry
    (b : AddressBook.t) (name : py_str) :
  dict_wf (AddressBook.data b) ->
  (dict_get name (AddressBook.data b) = None ->
   AddressBook.delete name b = (Raise (contact_not_found name), b))
  /\ (forall r,
        dict_get name (AddressBook.data b) = Some r ->
        exists pre post,
          AddressBook.data b = pre ++ (name, r) :: post
          /\ AddressBook.delete name b = (Ok tt, AddressBook.Build (pre ++ post))
          /\ dict_get name (pre ++ post) = None
          /\ (forall k, k <> name ->
                dict_get k (pre ++ post) = dict_get k (AddressBook.data b))).
Proof.
  intros Hwf. split; [apply delete_absent |].
  intros r G. destruct (dict_get_split _ _ _ G) as (pre & post & E & Hn).
  exists pre, post. split; [exact E |].
  rewrite (delete_present _ _ _ G), E, (dict_del_at _ _ _ _ Hn).
  split; [reflexivity |]. split.
  - apply dict_get_none. unfold dict_wf, dict_keys in Hwf.
    rewrite E, map_app in Hwf. simpl in Hwf.
    apply NoDup_remove_2 in Hwf. unfold dict_keys. now rewrite map_app.
  - intros k Hk. symmetry. now apply dict_get_skip.
Qed.

(** The statement of C9 on a book of two contacts, for a name it does
    not hold and for one it holds. *)
Lemma C9_delete_on_two_contacts :
  dict_wf (AddressBook.data two_contacts)
  /\ AddressBook.delete (py "eve") two_contacts
     = (Raise (contact_not_found (py "eve")), two_contacts)
  /\ (exists pre post,
        AddressBook.data two_contacts
        = pre ++ (py "bob", Record_.init (py "bob")) :: post
        /\ AddressBook.delete (py "bob") two_contacts
           = (Ok tt, AddressBook.Build (pre ++ post))
        /\ dict_get (py "bob") (pre ++ post) = None
        /\ (forall k, k <> py "bob" ->
              dict_get k (pre ++ post)
              = dict_get k (AddressBook.data two_contacts))).
Proof.
  assert (Hwf : dict_wf (AddressBook.data two_contacts)).
  { repeat constructor; simpl; intuition discriminate. }
  split; [exact Hwf |]. split.
  - apply (C9_delete_removes_exactly_the_entry two_contacts (py "eve") Hwf).
    reflexivity.
  - apply (C9_delete_removes_exactly_the_entry two_contacts (py "bob") Hwf).
    reflexivity.
Defined.

(** ** Reading dates *)

Lemma match_seq_inv (ks : list cclass) (s txt rest : py_str) :
  match_seq ks s = Some (txt, rest) ->
  s = txt ++ rest /\ Forall2 (fun k c => cclass_matches k c = true) ks txt.
Proof.
  revert s txt. induction ks as [| k ks IH]; intros s txt; simpl.
  - intros [= <- <-]. split; [reflexivity | constructor].
  - destruct s as [| c s]; [discriminate |].
    destruct (cclass_matches k c) eqn:E; [| discriminate].
    destruct (match_seq ks s) as [[t r] |] eqn:M; [| discriminate].
    intros [= <- <-]. destruct (IH _ _ M) as [-> F].
    split; [reflexivity | now constructor].
Qed.

Lemma match_group_inv {A : Type} (alts : list (list cclass)) (s : py_str)
    (k : py_str -> py_str -> option A) (r : A) :
  match_group alts s k = Some r ->
  exists alt txt rest,
    In alt alts /\ match_seq alt s = Some (txt, rest) /\ k txt rest = Some r.
Proof.
  induction alts as [| alt alts IH]; simpl; [discriminate |].
  destruct (match_seq alt s) as [[txt rest] |] eqn:M.
  - destruct (k txt rest) as [r' |] eqn:K.
    + intros [= ->]. exists alt, txt, rest. auto.
    + intros H. destruct (IH H) as (a & t & r0 & Hin & Hm & Hk).
      exists a, t, r0. auto.
  - intros H. destruct (IH H) as (a & t & r0 & Hin & Hm & Hk).
    exists a, t, r0. auto.
Qed.

Ltac invert_classes :=
  repeat match goal with
    | H : Forall2 _ (_ :: _) _ |- _ => inversion H; subst; clear H
    | H : Forall2 _ [] _ |- _ => inversion H; subst; clear H
    | H : cclass_matches (Lit _) _ = true |- _ =>
        apply N.eqb_eq in H; subst
    | H : cclass_matches (Range _ _) _ = true |- _ =>
        simpl in H; apply andb_prop in H; destruct H as [?%N.leb_le ?%N.leb_le]
    | H : cclass_matches AnyDecimal _ = true |- _ => simpl in H
    end.

Lemma group_d_day_text (s txt rest : py_str) (alt : list cclass) :
  In alt group_d -> match_seq alt s = Some (txt, rest) ->
  s = txt ++ rest /\ day_text txt.
Proof.
  intros Hin M. destruct (match_seq_inv _ _ _ _ M) as [-> F].
  split; [reflexivity |]. unfold group_d in Hin. simpl in Hin.
  repeat (destruct Hin as [<- | Hin]); try contradiction; invert_classes.
  - now apply day_thirty.
  - apply day_tens; [split |]; assumption.
  - now apply day_padded.
  - now apply day_single.
  - now apply day_blank.
Qed.

Lemma group_m_month_text (s txt rest : py_str) (alt : list cclass) :
  In alt group_m -> match_seq alt s = Some (txt, rest) ->
  s = txt ++ rest /\ month_text txt.
Proof.
  intros Hin M. destruct (match_seq_inv _ _ _ _ M) as [-> F].
  split; [reflexivity |]. unfold group_m in Hin. simpl in Hin.
  repeat (destruct Hin as [<- | Hin]); try contradiction; invert_classes.
  - now apply month_ten.
  - now apply month_padded.
  - now apply month_single.
Qed.

Lemma group_Y_year_text (s txt rest : py_str) (alt : list cclass) :
  In alt group_Y -> match_seq alt s = Some (txt, rest) ->
  s = txt ++ rest /\ year_text txt.
Proof.
  intros Hin M. destruct (match_seq_inv _ _ _ _ M) as [-> F].
  split; [reflexivity |]. unfold group_Y in Hin. simpl in Hin.
  repeat (destruct Hin as [<- | Hin]); try contradiction; invert_classes.
  now apply year_four.
Qed.

Lemma dot_text (s txt rest : py_str) (alt : list cclass) :
  In alt dot -> match_seq alt s = Some (txt, rest) -> s = py "." ++ rest.
Proof.
  intros Hin M. destruct (match_seq_inv _ _ _ _ M) as [-> F].
  unfold dot in Hin. simpl in Hin.
  repeat (destruct Hin as [<- | Hin]); try contradiction; invert_classes.
  reflexivity.
Qed.

(** What a match of the expression says about the data. *)
Lemma regex_match_sound (s dt mt yt rest : py_str) :
  regex_match s = Some (dt, mt, yt, rest) ->
  s = dt ++ py "." ++ mt ++ py "." ++ yt ++ rest
  /\ day_text dt /\ month_text mt /\ year_text yt.
Proof.
  unfold regex_match. intros H.
  apply match_group_inv in H. destruct H as (a1 & t1 & r1 & I1 & M1 & H).
  apply match_group_inv in H. destruct H as (a2 & t2 & r2 & I2 & M2 & H).
  apply match_group_inv in H. destruct H as (a3 & t3 & r3 & I3 & M3 & H).
  apply match_group_inv in H. destruct H as (a4 & t4 & r4 & I4 & M4 & H).
  apply match_group_inv in H. destruct H as (a5 & t5 & r5 & I5 & M5 & H).
  injection H as <- <- <- <-.
  destruct (group_d_day_text _ _ _ _ I1 M1) as [-> Hd].
  rewrite (dot_text _ _ _ _ I2 M2).
  destruct (group_m_month_text _ _ _ _ I3 M3) as [-> Hm].
  rewrite (dot_text _ _ _ _ I4 M4).
  destruct (group_Y_year_text _ _ _ _ I5 M5) as [-> Hy].
  auto.
Qed.

Ltac run_match :=
  repeat (cbn -[N.leb N.eqb char_isdecimal];
          match goal with
          | H : char_isdecimal ?c = true, E : ?c = 46%N |- _ =>
              exfalso; rewrite E in H; vm_compute in H; discriminate H
          | H : char_isdecimal ?c = true |- context [char_isdecimal ?c] =>
              rewrite H
          | |- context [char_isdecimal 46%N] =>
              change (char_isdecimal 46%N) with false
          | |- context [N.eqb ?a ?b] => destruct (N.eqb_spec a b); try lia
          | |- context [N.leb ?a ?b] => destruct (N.leb_spec a b); try lia
          end).

(** A day followed by a dot is found by the group of the day, whatever
    the rest of the expression [K] does with it: when [K] fails after the
    alternative that fits, no other alternative gets past the dot. *)
Lemma match_day_dot {A : Type} (dt rest : py_str)
    (K : py_str -> py_str -> option A) :
  day_text dt ->
  match_group group_d (dt ++ py "." ++ rest)
    (fun d r => match_group dot r (fun _ r' => K d r'))
  = K dt rest.
Proof.
  unfold in_class.
  intros [c [? ?] | c1 c2 [? ?] D2 | c [? ?] | c [? ?] | c [? ?]];
    cbn in * |-; run_match;
    match goal with |- context [K ?a ?b] => destruct (K a b) end;
    run_match; reflexivity.
Qed.

Lemma match_month_dot {A : Type} (mt rest : py_str)
    (K : py_str -> py_str -> option A) :
  month_text mt ->
  match_group group_m (mt ++ py "." ++ rest)
    (fun m r => match_group dot r (fun _ r' => K m r'))
  = K mt rest.
Proof.
  unfold in_class.
  intros [c [? ?] | c [? ?] | c [? ?]];
    cbn in * |-; run_match;
    match goal with |- context [K ?a ?b] => destruct (K a b) end;
    run_match; reflexivity.
Qed.

Lemma match_year {A : Type} (yt rest : py_str)
    (K : py_str -> py_str -> option A) :
  year_text yt ->
  match_group group_Y (yt ++ rest) K
  = match K yt rest with Some r => Some r | None => None end.
Proof.
  intros [y1 y2 y3 y4 Y1 Y2 Y3 Y4]. run_match. reflexivity.
Qed.

(** The matcher finds the day, the month and the year of a well-formed
    text, whichever way round it has to try the alternatives. *)
Lemma regex_match_complete (dt mt yt : py_str) :
  day_text dt -> month_text mt -> year_text yt ->
  regex_match (dt ++ py "." ++ mt ++ py "." ++ yt) = Some (dt, mt, yt, []).
Proof.
  intros Hd Hm Hy. unfold regex_match.
  rewrite (match_day_dot dt _ _ Hd), (match_month_dot mt _ _ Hm).
  rewrite <- (app_nil_r yt) at 1. rewrite (match_year yt [] _ Hy). reflexivity.
Qed.

Lemma strptime_reads (s : py_str) (d : date) :
  strptime s = Ok d <-> reads s d.
Proof.
  split.
  - unfold strptime.
    destruct (regex_match s) as [[[[dt mt] yt] rest] |] eqn:M; [| discriminate].
    destruct rest as [| c rest]; [| discriminate].
    apply regex_match_sound in M. destruct M as (-> & Hd & Hm & Hy).
    simpl. destruct (py_int dt) as [dd |] eqn:D; [| discriminate].
    destruct (py_int mt) as [m |] eqn:Mo; [| discriminate].
    destruct (py_int yt) as [y |] eqn:Y; [| discriminate].
    intros H. apply date_new_inv in H. destruct H as [-> Hv].
    rewrite app_nil_r. now constructor.
  - intros [dt mt yt dd m y Hd Hm Hy D Mo Y Hv]. unfold strptime.
    rewrite (regex_match_complete _ _ _ Hd Hm Hy). simpl.
    rewrite D, Mo, Y. now apply date_new_ok.
Qed.

Lemma py_int_raises (t : py_str) (e : exn) :
  py_int t = Raise e -> exists m, e = ValueError m.
Proof.
  unfold py_int. destruct (lstrip t); [intros [= <-]; eauto |].
  destruct (digits_value 0 _); [discriminate | intros [= <-]; eauto].
Qed.

Lemma date_new_raises (y m d : Z) (e : exn) :
  date_new y m d = Raise e -> exists msg, e = ValueError msg.
Proof.
  unfold date_new.
  repeat match goal with
    | |- context [if ?b then _ else _] =>
        destruct b; [intros [= <-]; eauto |]
    end.
  discriminate.
Qed.

(** [strptime] raises nothing but [ValueError]. *)
Lemma strptime_raises (s : py_str) (e : exn) :
  strptime s = Raise e -> exists m, e = ValueError m.
Proof.
  unfold strptime.
  destruct (regex_match s) as [[[[dt mt] yt] rest] |]; [| intros [= <-]; eauto].
  destruct rest; [| intros [= <-]; eauto]. cbn [bind result_monad].
  destruct (py_int dt) as [d | e1] eqn:D;
    [| intros [= <-]; now apply (py_int_raises dt)].
  destruct (py_int mt) as [m | e1] eqn:Mo;
    [| intros [= <-]; now apply (py_int_raises mt)].
  destruct (py_int yt) as [y | e1] eqn:Y;
    [| intros [= <-]; now apply (py_int_raises yt)].
  apply date_new_raises.
Qed.

Lemma birthday_init_run (s : py_str) :
  Birthday.init s
  = match strptime s with
    | Ok _ => Ok (Birthday.Build s)
    | Raise _ => Raise birthday_error
    end.
Proof.
  unfold Birthday.init. destruct (strptime s) as [d | e] eqn:E; [reflexivity |].
  destruct (strptime_raises _ _ E) as [m ->]. reflexivity.
Qed.

Lemma fits_inv (alts : list (list cclass)) (t : py_str) :
  fits alts t = true -> exists alt, In alt alts /\ match_seq alt t = Some (t, []).
Proof.
  unfold fits. intros H. apply existsb_exists in H.
  destruct H as (alt & Hin & H). exists alt. split; [exact Hin |].
  destruct (match_seq alt t) as [[txt rest] |] eqn:M; [| discriminate].
  destruct rest; [| discriminate].
  destruct (match_seq_inv _ _ _ _ M) as [E _]. rewrite app_nil_r in E.
  now subst txt.
Qed.

Lemma two_digits_checked :
  forallb (two_digits_check group_d) (seq 1 31) = true
  /\ forallb (two_digits_check group_m) (seq 1 12) = true.
Proof. split; vm_compute; reflexivity. Qed.

Lemma two_digits_fits (alts : list (list cclass)) (bound : nat) (n : Z) :
  forallb (two_digits_check alts) (seq 1 bound) = true ->
  1 <= n <= Z.of_nat bound ->
  fits alts (two_digits n) = true /\ py_int (two_digits n) = Ok n.
Proof.
  intros H Hn. rewrite forallb_forall in H.
  specialize (H (Z.to_nat n)). unfold two_digits_check in H.
  rewrite Z2Nat.id in H by lia.
  assert (Hin : In (Z.to_nat n) (seq 1 bound)) by (apply in_seq; lia).
  apply H in Hin. apply andb_prop in Hin. destruct Hin as [Hf Hi].
  split; [exact Hf |].
  destruct (py_int (two_digits n)) as [v |]; [| discriminate].
  apply Z.eqb_eq in Hi. now subst v.
Qed.

Lemma two_digits_day (n : Z) :
  1 <= n <= 31 -> day_text (two_digits n) /\ py_int (two_digits n) = Ok n.
Proof.
  intros Hn.
  destruct (two_digits_fits group_d 31 n (proj1 two_digits_checked) Hn)
    as [Hf Hi].
  split; [| exact Hi]. destruct (fits_inv _ _ Hf) as (alt & Hin & M).
  now destruct (group_d_day_text _ _ _ _ Hin M).
Qed.

Lemma two_digits_month (n : Z) :
  1 <= n <= 12 -> month_text (two_digits n) /\ py_int (two_digits n) = Ok n.
Proof.
  intros Hn.
  destruct (two_digits_fits group_m 12 n (proj2 two_digits_checked) Hn)
    as [Hf Hi].
  split; [| exact Hi]. destruct (fits_inv _ _ Hf) as (alt & Hin & M).
  now destruct (group_m_month_text _ _ _ _ Hin M).
Qed.

Lemma decimal_value_digit (v : Z) :
  0 <= v <= 9 -> decimal_value (digit_char v) = Some v.
Proof.
  intros H.
  assert (E : v = 0 \/ v = 1 \/ v = 2 \/ v = 3 \/ v = 4 \/ v = 5 \/ v = 6
              \/ v = 7 \/ v = 8 \/ v = 9) by lia.
  repeat (destruct E as [E | E]); subst v; reflexivity.
Qed.

Lemma four_digits_year (y : Z) :
  0 <= y <= 9999 -> year_text (four_digits y) /\ py_int (four_digits y) = Ok y.
Proof.
  intros Hy. unfold four_digits.
  assert (B1 : 0 <= y / 1000 mod 10 <= 9) by (Z.div_mod_to_equations; lia).
  assert (B2 : 0 <= y / 100 mod 10 <= 9) by (Z.div_mod_to_equations; lia).
  assert (B3 : 0 <= y / 10 mod 10 <= 9) by (Z.div_mod_to_equations; lia).
  assert (B4 : 0 <= y mod 10 <= 9) by (Z.div_mod_to_equations; lia).
  pose proof (decimal_value_digit _ B1) as D1.
  pose proof (decimal_value_digit _ B2) as D2.
  pose proof (decimal_value_digit _ B3) as D3.
  pose proof (decimal_value_digit _ B4) as D4.
  split.
  - constructor; unfold char_isdecimal;
      [rewrite D1 | rewrite D2 | rewrite D3 | rewrite D4]; reflexivity.
  - unfold py_int. cbn [lstrip].
    replace (N.eqb (digit_char (y / 1000 mod 10)) (chr " ")) with false.
    2:{ symmetry. apply N.eqb_neq. unfold digit_char.
        change (chr " ") with 32%N. lia. }
    cbn [digits_value]. rewrite D1. cbn [digits_value].
    rewrite D2. cbn [digits_value]. rewrite D3. cbn [digits_value].
    rewrite D4. f_equal. Z.div_mod_to_equations. lia.
Qed.

(** The text DD.MM.YYYY of a date of the calendar is read back as that
    date. *)
Lemma reads_dd_mm_yyyy (d : date) : valid_date d -> reads (dd_mm_yyyy d) d.
Proof.
  destruct d as [y m dd]. intros Hv. pose proof Hv as (Hy & Hm & Hd).
  cbn [year month day] in Hy, Hm, Hd.
  assert (Hd' : 1 <= dd <= 31).
  { unfold days_in_month in Hd. destruct (is_leap y);
      split_month m; revert Hd; eval_index; eval_bool; lia. }
  destruct (two_digits_day _ Hd') as [Td Id].
  destruct (two_digits_month _ Hm) as [Tm Im].
  destruct (four_digits_year y ltac:(lia)) as [Ty Iy].
  unfold dd_mm_yyyy. cbn [year month day]. now constructor.
Qed.

Lemma dd_mm_yyyy_length (d : date) : List.length (dd_mm_yyyy d) = 10%nat.
Proof. reflexivity. Qed.

(** From the year 1000 on [strftime] writes the text DD.MM.YYYY. *)
Lemma strftime_dd_mm_yyyy (d : date) :
  1000 <= year d -> strftime_dmY d = dd_mm_yyyy d.
Proof.
  intros H. unfold strftime_dmY, dd_mm_yyyy, decimal.
  destruct (Z.ltb_spec (year d) 10); [lia |].
  destruct (Z.ltb_spec (year d) 100); [lia |].
  destruct (Z.ltb_spec (year d) 1000); [lia | reflexivity].
Qed.

(** What [strftime] writes for a date of the calendar from the year 1000
    on is read back as that date. *)
Lemma reads_strftime (d : date) :
  valid_date d -> 1000 <= year d -> reads (strftime_dmY d) d.
Proof.
  intros Hv Hy. rewrite strftime_dd_mm_yyyy by exact Hy.
  now apply reads_dd_mm_yyyy.
Qed.

Lemma digit_char_no_dot (v : Z) : digit_char v <> chr ".".
Proof. unfold digit_char. change (chr ".") with 46%N. lia. Qed.

(** What [strftime] writes for a year below 1000 is no text that
    [strptime] reads: the year has fewer than four digits. *)
Lemma strftime_below_1000 (d d' : date) :
  year d < 1000 -> ~ reads (strftime_dmY d) d'.
Proof.
  intros Hy H. inversion H as [dt mt yt dd m y Hd Hm Hyt _ _ _ _ E]. clear H.
  unfold strftime_dmY, decimal, two_digits in E.
  pose proof digit_char_no_dot as Hdot. change (chr ".") with 46%N in Hdot.
  destruct Hyt.
  destruct (Z.ltb_spec (year d) 10);
    [| destruct (Z.ltb_spec (year d) 100);
       [| destruct (Z.ltb_spec (year d) 1000); [| lia]]];
    destruct Hd, Hm; cbn -[digit_char] in E;
    repeat match goal with
      | H : _ :: _ = _ :: _ |- _ => injection H as ? ?
      end;
    try discriminate;
    match goal with
    | H : 46%N = digit_char _ |- _ => symmetry in H; now apply Hdot in H
    | H : digit_char _ = 46%N |- _ => now apply Hdot in H
    | H : _ :: _ = [] |- _ => discriminate H
    | H : [] = _ :: _ |- _ => discriminate H
    end.
Qed.

(** The year of the day of congratulation is not before that of
    [today]. *)
Lemma congratulation_year (today bd cd : date) :
  valid_date today -> valid_date cd ->
  0 <= days_until today bd ->
  toordinal cd = toordinal (candidate today bd) + shift (candidate today bd) ->
  year today <= year cd.
Proof.
  intros Ht Hc Hd Ho. unfold days_until, days_between in Hd.
  assert (Hs : 0 <= shift (candidate today bd)).
  { unfold shift. destruct (_ =? 5); [lia |]. destruct (_ =? 6); lia. }
  pose proof (toordinal_year_bounds _ Ht) as Bt.
  pose proof (toordinal_year_bounds _ Hc) as Bc.
  destruct (Z.le_gt_cases (year today) (year cd)) as [L | L]; [exact L |].
  pose proof (days_before_year_mono (year cd + 1) (year today)). lia.
Qed.

(** C6, as the code has it: a birthday is accepted exactly when
    [strptime] reads a date of the calendar (years 1 to 9999) from it, and
    then it is stored as given; every other string is refused with the
    [ValueError] of the constructor.  What is read is a day, a dot, a
    month, a dot and a year of four digits, where the day and the month may
    have one digit or two (the day also a blank and a digit).  The strings
    DD.MM.YYYY of the dates of the calendar are among them; 31.02.2020 and
    2020.01.01 are not. *)
Theorem C6_birthday_accepts_what_strptime_reads (s : py_str) :
  ((exists b, Birthday.init s = Ok b) <-> (exists d, reads s d))
  /\ (forall d, reads s d ->
        valid_date d /\ Birthday.init s = Ok (Birthday.Build s))
  /\ ((forall d, ~ reads s d) -> Birthday.init s = Raise birthday_error)
  /\ (forall d, valid_date d ->
        Birthday.init (dd_mm_yyyy d) = Ok (Birthday.Build (dd_mm_yyyy d)))
  /\ Birthday.init (py "31.02.2020") = Raise birthday_error
  /\ Birthday.init (py "2020.01.01") = Raise birthday_error.
Proof.
  assert (Hok : forall t d, reads t d ->
                  Birthday.init t = Ok (Birthday.Build t)).
  { intros t d H. apply strptime_reads in H.
    now rewrite birthday_init_run, H. }
  split; [split |]; [| | split; [| split; [| split; [| split]]]].
  - intros [b Hb]. rewrite birthday_init_run in Hb.
    destruct (strptime s) as [d |] eqn:E; [| discriminate].
    exists d. now apply strptime_reads.
  - intros [d H]. eexists. exact (Hok _ _ H).
  - intros d H. split; [| exact (Hok _ _ H)].
    destruct H. assumption.
  - intros H. rewrite birthday_init_run.
    destruct (strptime s) as [d |] eqn:E; [| reflexivity].
    apply strptime_reads in E. now apply H in E.
  - intros d Hv. apply (Hok _ d). now apply reads_dd_mm_yyyy.
  - reflexivity.
  - reflexivity.
Qed.

(** C6 as the specification words it fails on 1.1.2020: the day and the
    month have one digit each, so the string is not of the form
    DD.MM.YYYY, and the constructor accepts it as the first of January
    2020. *)
Lemma C6_single_digit_day_and_month_accepted :
  Birthday.init (py "1.1.2020") = Ok (Birthday.Build (py "1.1.2020"))
  /\ strptime (py "1.1.2020") = Ok (Date 2020 1 1)
  /\ (forall d, py "1.1.2020" <> dd_mm_yyyy d)
  /\ ~ birthday_claim (py "1.1.2020").
Proof.
  assert (Hne : forall d, py "1.1.2020" <> dd_mm_yyyy d).
  { intros d H. apply (f_equal (@List.length _)) in H.
    rewrite dd_mm_yyyy_length in H. discriminate H. }
  split; [reflexivity |]. split; [reflexivity |]. split; [exact Hne |].
  intros [H _]. destruct H as (d & _ & E).
  - eexists. reflexivity.
  - exact (Hne d E).
Qed.

(** ** The upcoming birthdays *)

Lemma replace_year_ok (bd : date) (y : Z) :
  valid_date (Date y (month bd) (day bd)) ->
  replace_year bd y = Ok (Date y (month bd) (day bd)).
Proof. apply date_new_ok. Qed.

Lemma birthday_this_year_ok (today bd : date) :
  candidate_exists today bd ->
  AddressBook.birthday_this_year today bd = Ok (candidate today bd).
Proof.
  intros [H1 H2]. unfold AddressBook.birthday_this_year, candidate in *.
  rewrite (replace_year_ok _ _ H1). cbn [bind result_monad].
  destruct (date_ltb _ today); [now apply replace_year_ok | reflexivity].
Qed.

Lemma birthday_this_year_inv (today bd c : date) :
  AddressBook.birthday_this_year today bd = Ok c ->
  c = candidate today bd /\ valid_date c /\ candidate_exists today bd.
Proof.
  unfold AddressBook.birthday_this_year, candidate_exists, candidate,
    replace_year.
  destruct (date_new (year today) (month bd) (day bd)) as [c0 |] eqn:E;
    [| discriminate].
  apply date_new_inv in E. destruct E as [-> Hv]. cbn [bind result_monad].
  destruct (date_ltb _ today).
  - intros H. apply date_new_inv in H. destruct H as [-> Hv']. auto.
  - intros [= <-]. auto.
Qed.

(** The candidate is never before [today]. *)
Lemma days_until_nonneg (today bd : date) :
  valid_date today -> candidate_exists today bd -> 0 <= days_until today bd.
Proof.
  intros Ht [H1 H2]. unfold days_until, days_between, candidate in *.
  destruct (date_ltb _ today) eqn:L.
  - pose proof (toordinal_year_bounds _ H2) as B. cbn [year] in B.
    pose proof (toordinal_year_bounds _ Ht). lia.
  - rewrite (date_ltb_toordinal _ _ H1 Ht) in L. lia.
Qed.

(** A Saturday or a Sunday of the calendar has its Monday in the
    calendar: the last day, 31.12.9999, is a Friday. *)
Lemma congratulation_date_ok (c : date) :
  valid_date c ->
  exists cd,
    AddressBook.congratulation_date c = Ok cd /\ valid_date cd
    /\ toordinal cd = toordinal c + shift c
    /\ (shift c = 0 -> cd = c).
Proof.
  intros Hv. pose proof (toordinal_range c Hv) as R.
  unfold AddressBook.congratulation_date, shift, weekday, MAXORDINAL in *.
  destruct (Z.eqb_spec ((toordinal c + 6) mod 7) 5) as [E5 | E5].
  - destruct (add_days_spec c 2) as (cd & -> & Hc & Ho).
    { unfold MAXORDINAL. Z.div_mod_to_equations. lia. }
    exists cd. split; [reflexivity |]. split; [exact Hc |].
    split; [exact Ho |]. intros F; discriminate F.
  - destruct (Z.eqb_spec ((toordinal c + 6) mod 7) 6) as [E6 | E6].
    + destruct (add_days_spec c 1) as (cd & -> & Hc & Ho).
      { unfold MAXORDINAL. Z.div_mod_to_equations. lia. }
      exists cd. split; [reflexivity |]. split; [exact Hc |].
    split; [exact Ho |]. intros F; discriminate F.
    + exists c. split; [reflexivity |]. split; [exact Hv |].
      split; [lia | reflexivity].
Qed.

(** The body of the loop adds nothing or one item that congratulates the
    record. *)
Lemma upcoming_step_inv (today : date) (acc acc' : list AddressBook.upcoming)
    (r : Record_.t) :
  AddressBook.upcoming_step today acc r = Ok acc' ->
  (acc' = acc /\ selected today r = false)
  \/ (exists e, acc' = acc ++ [e] /\ congratulates today r e
                /\ selected today r = true).
Proof.
  unfold AddressBook.upcoming_step, selected, congratulates, days_until.
  destruct (Record_.birthday r) as [b |] eqn:B; [| intros [= <-]; now left].
  destruct (strptime (Birthday.value b)) as [bd |] eqn:P; [| discriminate].
  cbn [bind result_monad].
  destruct (AddressBook.birthday_this_year today bd) as [c |] eqn:C;
    [| discriminate].
  apply birthday_this_year_inv in C. destruct C as (-> & Hc & _).
  destruct ((0 <=? days_between (candidate today bd) today)
            && (days_between (candidate today bd) today <=? 7)) eqn:W;
    [| intros [= <-]; now left].
  destruct (congratulation_date_ok _ Hc) as (cd & -> & Hcd & Ho & Hs).
  intros [= <-]. right. eexists. split; [reflexivity |]. split; [| reflexivity].
  exists b, bd, cd. cbn [AddressBook.u_name AddressBook.u_birthday].
  apply andb_prop in W. destruct W as [W1%Z.leb_le W2%Z.leb_le].
  split; [reflexivity |]. split; [exact P |]. split; [reflexivity |].
  split; [split; assumption |]. split; [exact Hcd |].
  split; [exact Ho |]. split; [exact Hs | reflexivity].
Qed.

(** The body of the loop returns for a record whose candidate exists. *)
Lemma upcoming_step_ok (today : date) (acc : list AddressBook.upcoming)
    (r : Record_.t) :
  (forall b, Record_.birthday r = Some b ->
     exists bd, strptime (Birthday.value b) = Ok bd
                /\ candidate_exists today bd) ->
  exists acc', AddressBook.upcoming_step today acc r = Ok acc'.
Proof.
  intros H. unfold AddressBook.upcoming_step.
  destruct (Record_.birthday r) as [b |]; [| eauto].
  destruct (H b eq_refl) as (bd & -> & Hc). cbn [bind result_monad].
  rewrite (birthday_this_year_ok _ _ Hc). cbn [bind result_monad].
  destruct ((0 <=? _) && _); [| eauto].
  destruct (congratulation_date_ok _ (proj2 Hc)) as (cd & -> & _). eauto.
Qed.

Lemma for_each_upcoming_inv (today : date) (rs : list Record_.t)
    (acc out : list AddressBook.upcoming) :
  for_each (AddressBook.upcoming_step today) acc rs = Ok out ->
  exists added,
    out = acc ++ added
    /\ Forall2 (congratulates today) (filter (selected today) rs) added.
Proof.
  revert acc. induction rs as [| r rs IH]; intros acc; simpl.
  - intros [= <-]. exists []. rewrite app_nil_r. split; [easy | constructor].
  - destruct (AddressBook.upcoming_step today acc r) as [acc' |] eqn:S;
      [| discriminate].
    cbn [bind result_monad]. intros H.
    destruct (IH _ H) as (added & -> & F).
    destruct (upcoming_step_inv _ _ _ _ S) as [[-> Hs] | (e & -> & He & Hs)];
      rewrite Hs.
    + now exists added.
    + exists (e :: added). rewrite <- app_assoc. split; [easy |].
      now constructor.
Qed.

Lemma for_each_upcoming_ok (today : date) (rs : list Record_.t)
    (acc : list AddressBook.upcoming) :
  (forall r b, In r rs -> Record_.birthday r = Some b ->
     exists bd, strptime (Birthday.value b) = Ok bd
                /\ candidate_exists today bd) ->
  exists out, for_each (AddressBook.upcoming_step today) acc rs = Ok out.
Proof.
  revert acc. induction rs as [| r rs IH]; intros acc H; simpl; [eauto |].
  destruct (upcoming_step_ok today acc r) as [acc' ->].
  { intros b Hb. apply (H r b); [now left | exact Hb]. }
  cbn [bind result_monad]. apply IH.
  intros r' b Hin. apply H. now right.
Qed.

Lemma congratulates_names (today : date) (rs : list Record_.t)
    (es : list AddressBook.upcoming) :
  Forall2 (congratulates today) rs es ->
  map AddressBook.u_name es = map record_name rs.
Proof.
  induction 1 as [| r e rs es (b & bd & cd & _ & _ & Hn & _) _ IH]; simpl;
    [reflexivity |].
  now rewrite Hn, IH.
Qed.

Lemma date_ok_valid (d : date) : date_ok d = true -> valid_date d.
Proof.
  unfold date_ok, valid_date. intros H.
  repeat (apply andb_prop in H; destruct H as [H ?]). lia.
Qed.

Lemma get_upcoming_birthdays_inv (today : date) (book : AddressBook.t)
    (out : list AddressBook.upcoming) :
  AddressBook.get_upcoming_birthdays today book = Ok out ->
  Forall2 (congratulates today) (filter (selected today) (records book)) out.
Proof.
  unfold AddressBook.get_upcoming_birthdays. intros H.
  apply for_each_upcoming_inv in H. now destruct H as (added & -> & F).
Qed.

(** C1, as the code has it: for a day [today] of the calendar and a book
    in which the month and the day of every birthday are a date in the
    year of [today] and in the year of the candidate, the query returns
    the records whose candidate date is at most 7 whole days after
    [today], in the order of the book; the candidate date the code builds
    is the birthday in the year of [today], or in the next year when that
    is strictly before [today], and is never before [today].  With today = 31.12.2024
    and the birthday 02.01.2000 the candidate is 02.01.2025, two days
    ahead, and the record is returned. *)
Theorem C1_upcoming_selects_the_week_ahead
    (today : date) (book : AddressBook.t) :
  valid_date today ->
  (forall r b, In r (records book) -> Record_.birthday r = Some b ->
     exists bd, strptime (Birthday.value b) = Ok bd
                /\ candidate_exists today bd) ->
  upcoming_claim today book
  /\ (forall bd c,
        AddressBook.birthday_this_year today bd = Ok c
        <-> candidate_exists today bd /\ c = candidate today bd)
  /\ (forall bd, candidate_exists today bd -> 0 <= days_until today bd)
  /\ (candidate (Date 2024 12 31) (Date 2000 1 2) = Date 2025 1 2
      /\ days_until (Date 2024 12 31) (Date 2000 1 2) = 2
      /\ AddressBook.get_upcoming_birthdays (Date 2024 12 31) new_year_book
         = Ok [upcoming_item "ann" "02.01.2025"]).
Proof.
  intros Ht Hpre. split; [| split; [| split]].
  - destruct (for_each_upcoming_ok today (records book) [] Hpre) as [out E].
    exists out. split; [exact E |].
    apply (congratulates_names today). now apply get_upcoming_birthdays_inv.
  - intros bd c. split.
    + intros H. apply birthday_this_year_inv in H. tauto.
    + intros [H ->]. now apply birthday_this_year_ok.
  - intros bd. now apply days_until_nonneg.
  - repeat split; reflexivity.
Qed.

(** The statement of C1 on 10.06.2024 for a book of three contacts. *)
Lemma C1_upcoming_in_june :
  valid_date (Date 2024 6 10) /\ upcoming_claim (Date 2024 6 10) june_book.
Proof.
  assert (Ht : valid_date (Date 2024 6 10)) by (now apply date_ok_valid).
  split; [exact Ht |].
  apply (C1_upcoming_selects_the_week_ahead (Date 2024 6 10) june_book Ht).
  intros r b [<- | [<- | [<- | []]]] [= <-]; eexists;
    (split; [reflexivity | split; now apply date_ok_valid]).
Defined.

(** C1 as the specification words it fails for a birthday on the 29th of
    February and a day [today] of a year without one: the constructor
    accepts the birthday, and the query raises instead of returning. *)
Lemma C1_leap_day_birthday_has_no_candidate :
  Birthday.init (py "29.02.2000") = Ok (Birthday.Build (py "29.02.2000"))
  /\ AddressBook.get_upcoming_birthdays (Date 2023 2 25) leap_day_book
     = Raise day_out_of_range
  /\ ~ upcoming_claim (Date 2023 2 25) leap_day_book.
Proof.
  split; [reflexivity |]. split; [reflexivity |].
  intros (out & E & _). discriminate E.
Qed.

(** C2: every item of the result is made from a record of the book that
    is selected, in the order of the book, and its date is the candidate
    date moved by exactly two days from a Saturday, by exactly one day
    from a Sunday and not at all from another day, written by
    [strftime].  When [today] is a day of the calendar from the year
    1000 on, as the clock of the source gives it, what is written is
    DD.MM.YYYY, ten characters that read back as that date.  With
    today = 10.06.2024 the birthday 15.06.2024, a Saturday, gives
    17.06.2024 and the birthday 12.06.2024, a Wednesday, gives
    12.06.2024. *)
Theorem C2_weekend_moves_to_monday
    (today : date) (book : AddressBook.t) (out : list AddressBook.upcoming) :
  AddressBook.get_upcoming_birthdays today book = Ok out ->
  Forall2 (congratulates today) (filter (selected today) (records book)) out
  /\ (valid_date today -> 1000 <= year today ->
      Forall (fun e => exists cd,
                AddressBook.u_birthday e = dd_mm_yyyy cd
                /\ List.length (AddressBook.u_birthday e) = 10%nat
                /\ strptime (AddressBook.u_birthday e) = Ok cd) out)
  /\ (weekday (Date 2024 6 15) = 5 /\ weekday (Date 2024 6 12) = 2
      /\ AddressBook.get_upcoming_birthdays (Date 2024 6 10) june_book
         = Ok [upcoming_item "ann" "17.06.2024";
               upcoming_item "bob" "12.06.2024"]).
Proof.
  intros H. apply get_upcoming_birthdays_inv in H.
  split; [exact H |]. split; [| repeat split; reflexivity].
  intros Ht Hy.
  induction H as [| r e rs es (b & bd & cd & _ & _ & _ & W & Hv & Ho & _ & Hf) _ IH];
    constructor; [| exact IH].
  pose proof (congratulation_year today bd cd Ht Hv (proj1 W) Ho) as Hc.
  exists cd. rewrite Hf, strftime_dd_mm_yyyy by lia.
  split; [reflexivity |]. split; [reflexivity |].
  apply strptime_reads. now apply reads_dd_mm_yyyy.
Qed.

(** The statement of C2 on 10.06.2024: a Saturday and a Wednesday. *)
Lemma C2_weekend_in_june :
  Forall2 (congratulates (Date 2024 6 10))
    (filter (selected (Date 2024 6 10)) (records june_book))
    [upcoming_item "ann" "17.06.2024"; upcoming_item "bob" "12.06.2024"]
  /\ Forall (fun e => exists cd,
               AddressBook.u_birthday e = dd_mm_yyyy cd
               /\ List.length (AddressBook.u_birthday e) = 10%nat
               /\ strptime (AddressBook.u_birthday e) = Ok cd)
       [upcoming_item "ann" "17.06.2024"; upcoming_item "bob" "12.06.2024"].
Proof.
  destruct (C2_weekend_moves_to_monday (Date 2024 6 10) june_book _ eq_refl)
    as (H1 & H2 & _).
  split; [exact H1 |].
  apply H2; [now apply date_ok_valid | cbn [year]; lia].
Defined.

Lemma leap_day_not_in_common_year (y : Z) :
  is_leap y = false -> exists e, date_new y 2 29 = Raise e.
Proof.
  intros L. unfold date_new, days_in_month. rewrite L.
  destruct ((y <? MINYEAR) || (y >? MAXYEAR)); [eauto |].
  eval_index. eval_bool. eauto.
Qed.

Lemma leap_day_step_raises (today : date) (r : Record_.t) (b : Birthday.t)
    (bd : date) (acc : list AddressBook.upcoming) :
  is_leap (year today) = false ->
  Record_.birthday r = Some b -> strptime (Birthday.value b) = Ok bd ->
  month bd = 2 -> day bd = 29 ->
  exists e, AddressBook.upcoming_step today acc r = Raise e.
Proof.
  intros L B P Hm Hd. unfold AddressBook.upcoming_step.
  rewrite B, P. cbn [bind result_monad].
  unfold AddressBook.birthday_this_year, replace_year.
  rewrite Hm, Hd. destruct (leap_day_not_in_common_year _ L) as [e ->].
  cbn [bind result_monad]. eauto.
Qed.

Lemma for_each_raises (today : date) (rs : list Record_.t) (r : Record_.t) :
  In r rs ->
  (forall acc, exists e, AddressBook.upcoming_step today acc r = Raise e) ->
  forall acc, exists e, for_each (AddressBook.upcoming_step today) acc rs = Raise e.
Proof.
  intros Hin Hr. induction rs as [| r0 rs IH]; [contradiction |].
  intros acc. simpl.
  destruct (AddressBook.upcoming_step today acc r0) as [acc' | e] eqn:S;
    cbn [bind result_monad]; [| eauto].
  destruct Hin as [-> | Hin].
  - destruct (Hr acc) as [e E]. congruence.
  - now apply IH.
Qed.

(** C3 fails on the code: when the year of [today] has no 29th of
    February and some record of the book has its birthday on that day,
    the query raises and returns nothing, whatever else the book holds. *)
Theorem C3_leap_day_in_common_year_raises
    (today : date) (book : AddressBook.t) (r : Record_.t) (b : Birthday.t)
    (bd : date) :
  is_leap (year today) = false ->
  In r (records book) -> Record_.birthday r = Some b ->
  strptime (Birthday.value b) = Ok bd -> month bd = 2 -> day bd = 29 ->
  exists e, AddressBook.get_upcoming_birthdays today book = Raise e.
Proof.
  intros L Hin B P Hm Hd. unfold AddressBook.get_upcoming_birthdays.
  apply (for_each_raises today _ r Hin).
  intros acc. now apply (leap_day_step_raises today r b bd).
Qed.

(** The failing input of C3: 25.02.2023 and a birthday on 29.02.2000. *)
Lemma C3_leap_day_in_2023 :
  is_leap 2023 = false
  /\ exists e,
       AddressBook.get_upcoming_birthdays (Date 2023 2 25) leap_day_book
       = Raise e.
Proof.
  split; [reflexivity |].
  apply (C3_leap_day_in_common_year_raises (Date 2023 2 25) leap_day_book
           (contact "ann" "29.02.2000") (Birthday.Build (py "29.02.2000"))
           (Date 2000 2 29)); try reflexivity.
  now left.
Defined.

Lemma Forall2_filter_In {A B : Type} (P : A -> B -> Prop) (f : A -> bool)
    (l : list A) (out : list B) :
  Forall2 P (filter f l) out ->
  Forall (fun e => exists r, In r l /\ f r = true /\ P r e) out.
Proof.
  intros H.
  assert (G : forall r, In r (filter f l) -> In r l /\ f r = true)
    by (intros r; apply filter_In).
  induction H as [| r e rs es Hre _ IH]; constructor.
  - exists r. destruct (G r (or_introl eq_refl)). auto.
  - apply IH. intros r' Hr'. apply G. now right.
Qed.

(** C10: the date of an item may lie outside the week ahead.  With today
    = 08.06.2024 and the birthday 15.06.2000 the candidate is Saturday
    15.06.2024, seven days ahead, and the item says 17.06.2024, nine
    days ahead.  In general the date of an item, the date [strftime]
    writes into it, is the candidate date of its record plus the weekend
    shift, so between 0 and 9 days after [today], and 9 only for a
    Saturday seven days ahead; when [today] is a day of the calendar from
    the year 1000 on, [strptime] reads that date back from the item. *)
Theorem C10_congratulation_up_to_nine_days_ahead :
  (AddressBook.get_upcoming_birthdays (Date 2024 6 8) saturday_book
   = Ok [upcoming_item "ann" "17.06.2024"]
   /\ strptime (py "17.06.2024") = Ok (Date 2024 6 17)
   /\ days_between (Date 2024 6 17) (Date 2024 6 8) = 9
   /\ days_until (Date 2024 6 8) (Date 2000 6 15) = 7
   /\ weekday (candidate (Date 2024 6 8) (Date 2000 6 15)) = 5)
  /\ (forall today book out,
        AddressBook.get_upcoming_birthdays today book = Ok out ->
        Forall (fun e => exists r b bd cd,
                  In r (records book)
                  /\ Record_.birthday r = Some b
                  /\ strptime (Birthday.value b) = Ok bd
                  /\ AddressBook.u_name e = record_name r
                  /\ valid_date cd
                  /\ AddressBook.u_birthday e = strftime_dmY cd
                  /\ (valid_date today -> 1000 <= year today ->
                      strptime (AddressBook.u_birthday e) = Ok cd)
                  /\ 0 <= days_until today bd <= 7
                  /\ days_between cd today
                     = days_until today bd + shift (candidate today bd)
                  /\ 0 <= days_between cd today <= 9
                  /\ (days_between cd today = 9 ->
                      days_until today bd = 7
                      /\ weekday (candidate today bd) = 5)) out).
Proof.
  split; [repeat split; reflexivity |].
  intros today book out H. apply get_upcoming_birthdays_inv in H.
  apply Forall2_filter_In in H. revert H. apply Forall_impl.
  intros e (r & Hin & _ & b & bd & cd & B & P & Hn & W & Hv & Ho & _ & Hf).
  exists r, b, bd, cd.
  split; [exact Hin |]. split; [exact B |]. split; [exact P |].
  split; [exact Hn |]. split; [exact Hv |]. split; [exact Hf |]. split.
  { intros Ht Hy. rewrite Hf. apply strptime_reads.
    pose proof (congratulation_year today bd cd Ht Hv (proj1 W) Ho).
    apply reads_strftime; [exact Hv | lia]. }
  split; [exact W |].
  unfold days_between, days_until, days_between in *. rewrite Ho.
  unfold shift in *.
  destruct (weekday (candidate today bd) =? 5) eqn:E5;
    [apply Z.eqb_eq in E5 | destruct (weekday (candidate today bd) =? 6)]; lia.
Qed.

(** * Further properties *)

(** ** Phones of a record *)

Lemma count_occ_phone_app (raw : py_str) (l : list py_str) :
  count_occ str_eq_dec (l ++ [raw]) raw = S (count_occ str_eq_dec l raw).
Proof.
  rewrite count_occ_app. simpl.
  destruct (str_eq_dec raw raw); [lia | congruence].
Qed.

(** X1: [add_phone] takes a valid number also when the record has it
    already: the number is added at the end, once more than before, and
    [find_phone] finds it afterwards without changing the record. *)
Theorem X1_add_phone_keeps_duplicates (raw : py_str) (r : Record_.t) :
  Phone.validate raw = true ->
  exists r',
    Record_.add_phone raw r = (Ok tt, r')
    /\ Record_.name r' = Record_.name r
    /\ Record_.birthday r' = Record_.birthday r
    /\ phone_values r' = phone_values r ++ [raw]
    /\ count_occ str_eq_dec (phone_values r') raw
       = S (count_occ str_eq_dec (phone_values r) raw)
    /\ exists p,
         Record_.find_phone raw r' = (Ok (Some p), r') /\ Phone.value p = raw.
Proof.
  intros V. rewrite add_phone_run, V. eexists. split; [reflexivity |].
  unfold phone_values. cbn [Record_.set_phones Record_.name Record_.birthday
                              Record_.phones].
  rewrite map_app. cbn [map Phone.value].
  split; [reflexivity |]. split; [reflexivity |]. split; [reflexivity |].
  split; [apply count_occ_phone_app |].
  unfold Record_.find_phone. cbn.
  destruct (find (fun p => str_eqb (Phone.value p) raw)
              (Record_.phones r ++ [Phone.Build raw])) as [p |] eqn:F.
  - exists p. split; [reflexivity |].
    apply find_some in F. destruct F as [_ F]. now apply str_eqb_eq.
  - exfalso. pose proof (find_none _ _ F (Phone.Build raw)) as N.
    cbn in N. rewrite str_eqb_refl in N.
    assert (In (Phone.Build raw) (Record_.phones r ++ [Phone.Build raw]))
      by (apply in_or_app; right; now left).
    specialize (N H). discriminate.
Qed.

Lemma X1_add_phone_twice :
  Phone.validate (py "0123456789") = true
  /\ exists r',
       Record_.add_phone (py "0123456789")
         (Record_.Build (Name.init (py "ann"))
            [Phone.Build (py "0123456789")] None)
       = (Ok tt, r')
       /\ phone_values r' = [py "0123456789"; py "0123456789"].
Proof.
  split; [reflexivity |].
  destruct (X1_add_phone_keeps_duplicates (py "0123456789")
              (Record_.Build (Name.init (py "ann"))
                 [Phone.Build (py "0123456789")] None) eq_refl)
    as (r' & E & _ & _ & P & _).
  exists r'. split; [exact E | exact P].
Defined.

Lemma count_occ_split_first (raw v : py_str) (pre post : list py_str) :
  count_occ str_eq_dec (pre ++ raw :: post) v
  = (count_occ str_eq_dec (pre ++ post) v
     + if str_eq_dec raw v then 1 else 0)%nat.
Proof.
  rewrite !count_occ_app. simpl. destruct (str_eq_dec raw v); lia.
Qed.

(** X2: [remove_phone] of a number the record has takes out its first
    occurrence and nothing else: the phones before and after it keep
    their order, the number occurs once less, every other number as often
    as before, and name and birthday stay. *)
Theorem X2_remove_phone_takes_first_occurrence (raw : py_str) (r : Record_.t) :
  In raw (phone_values r) ->
  exists r' pre post,
    Record_.remove_phone raw r = (Ok tt, r')
    /\ phone_values r = pre ++ raw :: post
    /\ ~ In raw pre
    /\ phone_values r' = pre ++ post
    /\ Record_.name r' = Record_.name r
    /\ Record_.birthday r' = Record_.birthday r
    /\ S (count_occ str_eq_dec (phone_values r') raw)
       = count_occ str_eq_dec (phone_values r) raw
    /\ (forall v, v <> raw ->
          count_occ str_eq_dec (phone_values r') v
          = count_occ str_eq_dec (phone_values r) v).
Proof.
  intros Hin.
  destruct (in_phone_values_split _ _ Hin) as (pre & p & post & E & Hp & Hn).
  exists (Record_.set_phones r (pre ++ post)),
    (map Phone.value pre), (map Phone.value post).
  split; [now apply remove_phone_present with (p := p) |].
  assert (E1 : phone_values r
               = map Phone.value pre ++ raw :: map Phone.value post).
  { unfold phone_values. rewrite E, map_app. cbn [map]. now rewrite Hp. }
  assert (E2 : phone_values (Record_.set_phones r (pre ++ post))
               = map Phone.value pre ++ map Phone.value post).
  { unfold phone_values. cbn. apply map_app. }
  split; [exact E1 |]. split; [exact Hn |]. split; [exact E2 |].
  split; [reflexivity |]. split; [reflexivity |].
  rewrite E1, E2. split.
  - rewrite count_occ_split_first. destruct (str_eq_dec raw raw); [lia | congruence].
  - intros v Hv. rewrite count_occ_split_first.
    destruct (str_eq_dec raw v); [congruence | lia].
Qed.

Lemma X2_remove_one_of_two :
  In (py "0123456789")
    (phone_values (Record_.Build (Name.init (py "ann"))
                     [Phone.Build (py "0123456789");
                      Phone.Build (py "0123456789")] None))
  /\ exists r',
       Record_.remove_phone (py "0123456789")
         (Record_.Build (Name.init (py "ann"))
            [Phone.Build (py "0123456789"); Phone.Build (py "0123456789")]
            None)
       = (Ok tt, r')
       /\ count_occ str_eq_dec (phone_values r') (py "0123456789") = 1%nat.
Proof.
  assert (Hin : In (py "0123456789")
                  (phone_values (Record_.Build (Name.init (py "ann"))
                                   [Phone.Build (py "0123456789");
                                    Phone.Build (py "0123456789")] None)))
    by (now left).
  split; [exact Hin |].
  destruct (X2_remove_phone_takes_first_occurrence _ _ Hin)
    as (r' & pre & post & E & _ & _ & _ & _ & _ & C & _).
  exists r'. split; [exact E |].
  apply eq_add_S. rewrite C. reflexivity.
Defined.

(** X3: [add_phone] followed by [remove_phone] of the same valid number
    gives the record back when it did not have the number; when it had,
    the earlier occurrence is the one removed, so the number has moved to
    the end of the phones. *)
Theorem X3_add_then_remove_phone (raw : py_str) (r : Record_.t) :
  Phone.validate raw = true ->
  (~ In raw (phone_values r) ->
   Record_.remove_phone raw (snd (Record_.add_phone raw r)) = (Ok tt, r))
  /\ (forall pre post,
        phone_values r = pre ++ raw :: post -> ~ In raw pre ->
        exists r',
          Record_.remove_phone raw (snd (Record_.add_phone raw r)) = (Ok tt, r')
          /\ phone_values r' = pre ++ post ++ [raw]).
Proof.
  intros V. rewrite add_phone_run, V. cbn [snd]. split.
  - intros Hn.
    rewrite (remove_phone_present raw _ (Record_.phones r) [] (Phone.Build raw));
      try reflexivity; try exact Hn.
    + rewrite app_nil_r. now destruct r.
  - intros pre post E Hn.
    assert (Hin : In raw (phone_values r)).
    { rewrite E. apply in_or_app. right. now left. }
    destruct (in_phone_values_split _ _ Hin) as (pre' & p & post' & E' & Hp & Hn').
    eexists. split.
    + apply (remove_phone_present raw _ pre' (post' ++ [Phone.Build raw]) p);
        [| exact Hp | exact Hn'].
      cbn. rewrite E'. now rewrite <- app_assoc.
    + unfold phone_values in *. cbn. rewrite E' in E.
      rewrite !map_app in *. cbn [map] in *. rewrite Hp in E.
      assert (S1 : map Phone.value pre' = pre /\ map Phone.value post' = post).
      { clear - E Hn Hn'. revert pre E Hn.
        induction (map Phone.value pre') as [| x l IH]; intros [| y pre] E Hn;
          simpl in *.
        - injection E as E. auto.
        - injection E as E1 E2. subst y. tauto.
        - injection E as E1 E2. subst x. tauto.
        - injection E as E1 E2. subst y.
          destruct (IH ltac:(tauto) pre E2 ltac:(tauto)) as [-> ->]. auto. }
      destruct S1 as [<- <-]. reflexivity.
Qed.

Lemma X3_add_then_remove_moves_to_end :
  Phone.validate (py "1111111111") = true
  /\ exists r',
       Record_.remove_phone (py "1111111111")
         (snd (Record_.add_phone (py "1111111111")
                 (Record_.Build (Name.init (py "ann"))
                    [Phone.Build (py "1111111111");
                     Phone.Build (py "2222222222")] None)))
       = (Ok tt, r')
       /\ phone_values r' = [py "2222222222"; py "1111111111"].
Proof.
  split; [reflexivity |].
  apply (proj2 (X3_add_then_remove_phone (py "1111111111")
                  (Record_.Build (Name.init (py "ann"))
                     [Phone.Build (py "1111111111");
                      Phone.Build (py "2222222222")] None) eq_refl)
           [] [py "2222222222"]).
  - reflexivity.
  - intros [].
Defined.

Lemma phone_values_split (raw : py_str) (r : Record_.t) (pre post : list py_str) :
  phone_values r = pre ++ raw :: post ->
  exists pre' p post',
    Record_.phones r = pre' ++ p :: post'
    /\ map Phone.value pre' = pre /\ Phone.value p = raw
    /\ map Phone.value post' = post.
Proof.
  unfold phone_values. intros E.
  apply map_eq_app in E. destruct E as (pre' & rest & E & Hpre & Hrest).
  apply map_eq_cons in Hrest. destruct Hrest as (p & post' & -> & Hp & Hpost).
  exists pre', p, post'. auto.
Qed.

(** X4: [edit_phone] from a number to a new valid number and back again
    does not restore the order: the number ends up last, with the other
    phones in their order before it. *)
Theorem X4_edit_phone_and_back_moves_to_end
    (old_raw new_raw : py_str) (r : Record_.t) (pre post : list py_str) :
  phone_values r = pre ++ old_raw :: post -> ~ In old_raw pre ->
  ~ In new_raw (phone_values r) ->
  Phone.validate old_raw = true -> Phone.validate new_raw = true ->
  exists r1 r2,
    Record_.edit_phone old_raw new_raw r = (Ok tt, r1)
    /\ phone_values r1 = pre ++ post ++ [new_raw]
    /\ Record_.edit_phone new_raw old_raw r1 = (Ok tt, r2)
    /\ phone_values r2 = pre ++ post ++ [old_raw]
    /\ Record_.name r2 = Record_.name r
    /\ Record_.birthday r2 = Record_.birthday r.
Proof.
  intros E Hn Hnew Vo Vn.
  destruct (phone_values_split _ _ _ _ E) as (pre' & p & post' & E' & <- & Hp & <-).
  pose proof (edit_phone_present old_raw new_raw r pre' post' p E' Hp Hn) as E1.
  rewrite Vn in E1.
  set (r1 := Record_.set_phones r (pre' ++ post' ++ [Phone.Build new_raw])) in *.
  assert (Hnew' : ~ In new_raw (map Phone.value (pre' ++ post'))).
  { intros H. apply Hnew. rewrite E. rewrite map_app in H.
    apply in_app_or in H. apply in_or_app. destruct H; [now left |].
    right. now right. }
  pose proof (edit_phone_present new_raw old_raw r1 (pre' ++ post') []
                (Phone.Build new_raw)) as E2.
  rewrite Vo in E2. exists r1. eexists. split; [exact E1 |].
  split.
  { unfold r1, phone_values. cbn. now rewrite !map_app. }
  split.
  { apply E2; [| reflexivity | exact Hnew'].
    unfold r1. cbn. now rewrite app_assoc. }
  unfold r1, phone_values. cbn. rewrite !map_app, <- ?app_assoc.
  auto.
Qed.

Lemma X4_edit_and_back_on_two_phones :
  Phone.validate (py "1111111111") = true
  /\ exists r1 r2,
       Record_.edit_phone (py "1111111111") (py "3333333333")
         (Record_.Build (Name.init (py "ann"))
            [Phone.Build (py "1111111111"); Phone.Build (py "2222222222")]
            None)
       = (Ok tt, r1)
       /\ phone_values r1 = [] ++ [py "2222222222"] ++ [py "3333333333"]
       /\ Record_.edit_phone (py "3333333333") (py "1111111111") r1
          = (Ok tt, r2)
       /\ phone_values r2 = [] ++ [py "2222222222"] ++ [py "1111111111"]
       /\ Record_.name r2 = Name.init (py "ann")
       /\ Record_.birthday r2 = None.
Proof.
  split; [reflexivity |].
  apply (X4_edit_phone_and_back_moves_to_end (py "1111111111")
           (py "3333333333")
           (Record_.Build (Name.init (py "ann"))
              [Phone.Build (py "1111111111"); Phone.Build (py "2222222222")]
              None)
           [] [py "2222222222"]); try reflexivity.
  - intros [].
  - cbn. intros [H | [H | []]]; discriminate H.
Defined.

Lemma strptime_valid (s : py_str) (d : date) :
  strptime s = Ok d -> valid_date d.
Proof. intros H. apply strptime_reads in H. now destruct H. Qed.

Lemma record_op_keeps_wf (o : record_op) (r : Record_.t) :
  record_wf r ->
  record_wf (snd (run_record_op o r))
  /\ Record_.name (snd (run_record_op o r)) = Record_.name r.
Proof.
  intros [Hp Hb].
  destruct o as [raw | raw | old_raw new_raw | raw]; cbn [run_record_op].
  - rewrite add_phone_run. destruct (Phone.validate raw) eqn:V;
      [| now repeat split].
    split; [split |]; cbn; auto.
    apply Forall_app. split; [exact Hp | now repeat constructor].
  - destruct (in_dec str_eq_dec raw (phone_values r)) as [Hin | Hn].
    + destruct (in_phone_values_split _ _ Hin) as (pre & p & post & E & Hv & Hq).
      rewrite (remove_phone_present _ _ _ _ _ E Hv Hq).
      split; [split |]; cbn; auto.
      rewrite E in Hp. apply Forall_app in Hp. destruct Hp as [H1 H2].
      inversion H2; subst. apply Forall_app. auto.
    + rewrite (remove_phone_absent _ _ Hn). now repeat split.
  - destruct (in_dec str_eq_dec old_raw (phone_values r)) as [Hin | Hn].
    + destruct (in_phone_values_split _ _ Hin) as (pre & p & post & E & Hv & Hq).
      rewrite (edit_phone_present _ new_raw _ _ _ _ E Hv Hq).
      destruct (Phone.validate new_raw) eqn:V; [| now repeat split].
      split; [split |]; cbn; auto.
      rewrite E in Hp. apply Forall_app in Hp. destruct Hp as [H1 H2].
      inversion H2; subst. rewrite !Forall_app. repeat split; auto.
    + rewrite (edit_phone_absent _ _ _ Hn). now repeat split.
  - rewrite add_birthday_run.
    destruct (strptime raw) as [d | [m | m | m | m]] eqn:P;
      try (now repeat split).
    split; [split |]; cbn; auto.
    intros b [= <-]. exists d. split; [exact P | now apply strptime_valid with raw].
Qed.

(** X5: whatever methods are called on a record made by [Record(name)],
    with whatever arguments and whether they raise or not, the record
    keeps its name, each of its phones passes [Phone.validate], and its
    birthday, when set, is read by [strptime] as a date of the calendar. *)
Theorem X5_record_stays_well_formed (name : py_str) (ops : list record_op) :
  record_name (run_record_ops ops (Record_.init name)) = name
  /\ record_wf (run_record_ops ops (Record_.init name)).
Proof.
  assert (H0 : record_name (Record_.init name) = name
               /\ record_wf (Record_.init name)).
  { split; [reflexivity |]. split; [constructor | discriminate]. }
  revert H0. generalize (Record_.init name). unfold run_record_ops.
  induction ops as [| o ops IH]; intros r [Hn Hw]; [now split |].
  cbn [fold_left]. apply IH.
  destruct (record_op_keeps_wf o r Hw) as [Hw' Hn'].
  split; [| exact Hw']. unfold record_name in *. now rewrite Hn'.
Qed.

(** X6: what [strftime] writes for a date of the calendar goes through
    [add_birthday] exactly from the year 1000 on.  For such a date the
    text is accepted whatever birthday the record had, [strptime] reads
    the stored value back as that date, and phones and name stay.  For a
    date before the year 1000 the text has too few digits of the year:
    [add_birthday] raises the error of the birthday and the record stays
    as it was. *)
Theorem X6_add_birthday_round_trip (d : date) (r : Record_.t) :
  valid_date d ->
  (1000 <= year d ->
   exists r' b,
     Record_.add_birthday (strftime_dmY d) r = (Ok tt, r')
     /\ Record_.birthday r' = Some b
     /\ Birthday.value b = strftime_dmY d
     /\ strptime (Birthday.value b) = Ok d
     /\ Record_.phones r' = Record_.phones r
     /\ Record_.name r' = Record_.name r)
  /\ (year d < 1000 ->
      Record_.add_birthday (strftime_dmY d) r = (Raise birthday_error, r)).
Proof.
  intros Hv. split; intros Hy.
  - pose proof (proj2 (strptime_reads _ _) (reads_strftime d Hv Hy)) as P.
    rewrite add_birthday_run, P.
    eexists. exists (Birthday.Build (strftime_dmY d)).
    repeat split; try reflexivity. exact P.
  - rewrite add_birthday_run.
    destruct (strptime (strftime_dmY d)) as [d' | e] eqn:P.
    + apply strptime_reads in P. now apply strftime_below_1000 in P.
    + destruct (strptime_raises _ _ P) as [m ->]. reflexivity.
Qed.

(** The statement of X6 for 29.02.2000, which is read back, and for
    12.06.999, which is refused. *)
Lemma X6_add_birthday_of_leap_day :
  (valid_date (Date 2000 2 29)
   /\ exists r' b,
        Record_.add_birthday (strftime_dmY (Date 2000 2 29))
          (contact "ann" "01.01.1990")
        = (Ok tt, r')
        /\ Record_.birthday r' = Some b
        /\ Birthday.value b = py "29.02.2000"
        /\ strptime (Birthday.value b) = Ok (Date 2000 2 29)
        /\ Record_.phones r' = Record_.phones (contact "ann" "01.01.1990")
        /\ Record_.name r' = Record_.name (contact "ann" "01.01.1990"))
  /\ (valid_date (Date 999 6 12)
      /\ strftime_dmY (Date 999 6 12) = py "12.06.999"
      /\ Record_.add_birthday (strftime_dmY (Date 999 6 12))
           (contact "ann" "01.01.1990")
         = (Raise birthday_error, contact "ann" "01.01.1990")).
Proof.
  assert (Hv : valid_date (Date 2000 2 29)) by (now apply date_ok_valid).
  assert (Hv' : valid_date (Date 999 6 12)) by (now apply date_ok_valid).
  split; (split; [assumption |]).
  - apply (proj1 (X6_add_birthday_round_trip (Date 2000 2 29)
                    (contact "ann" "01.01.1990") Hv)).
    cbn [year]. lia.
  - split; [reflexivity |].
    apply (proj2 (X6_add_birthday_round_trip (Date 999 6 12)
                    (contact "ann" "01.01.1990") Hv')).
    cbn [year]. lia.
Defined.

(** ** The book *)

Lemma dict_set_new {V : Type} (k : py_str) (v : V) (d : dict V) :
  dict_get k d = None -> dict_set k v d = d ++ [(k, v)].
Proof.
  induction d as [| [k' v'] d IH]; simpl; [reflexivity |].
  destruct (str_eqb k' k); [discriminate |]. intros H. now rewrite IH.
Qed.

Lemma dict_set_twice {V : Type} (k : py_str) (v w : V) (d : dict V) :
  dict_set k w (dict_set k v d) = dict_set k w d.
Proof.
  induction d as [| [k' v'] d IH]; simpl.
  - now rewrite str_eqb_refl.
  - destruct (str_eqb k' k) eqn:E; simpl; rewrite E; [reflexivity |].
    now rewrite IH.
Qed.

Lemma dict_del_appended {V : Type} (k : py_str) (v : V) (d : dict V) :
  dict_get k d = None -> dict_del k (d ++ [(k, v)]) = d.
Proof.
  induction d as [| [k' v'] d IH]; simpl.
  - now rewrite str_eqb_refl.
  - destruct (str_eqb k' k); [discriminate |]. intros H. now rewrite IH.
Qed.

Lemma add_record_run (record : Record_.t) (b : AddressBook.t) :
  AddressBook.add_record record b
  = (Ok tt, AddressBook.Build
              (dict_set (record_name record) record (AddressBook.data b))).
Proof. reflexivity. Qed.

(** X7: how [add_record] and [delete] compose.  A record added under a
    name the book did not hold goes last, and deleting that name gives
    the book back; a record added under a name the book holds takes the
    place of the old one, so the order of the names stays; and adding the
    same name twice leaves what the second call alone would leave. *)
Theorem X7_add_record_and_delete_compose
    (record other : Record_.t) (b : AddressBook.t) :
  let name := record_name record in
  (dict_get name (AddressBook.data b) = None ->
   dict_keys (AddressBook.data (snd (AddressBook.add_record record b)))
   = dict_keys (AddressBook.data b) ++ [name]
   /\ AddressBook.delete name (snd (AddressBook.add_record record b))
      = (Ok tt, b))
  /\ (dict_get name (AddressBook.data b) <> None ->
      dict_keys (AddressBook.data (snd (AddressBook.add_record record b)))
      = dict_keys (AddressBook.data b))
  /\ (record_name other = name ->
      snd (AddressBook.add_record record
             (snd (AddressBook.add_record other b)))
      = snd (AddressBook.add_record record b)).
Proof.
  intros name. rewrite !add_record_run. cbn [snd AddressBook.data].
  fold name. split; [| split].
  - intros H. rewrite (dict_set_new _ _ _ H). split.
    + unfold dict_keys. now rewrite map_app.
    + unfold AddressBook.delete, dict_contains. cbn [bind method_monad get put].
      cbn [AddressBook.data].
      rewrite dict_get_at by (now apply dict_get_none).
      rewrite (dict_del_appended _ _ _ H). now destruct b.
  - intros H. rewrite dict_set_keys. unfold dict_contains.
    now destruct (dict_get name (AddressBook.data b)).
  - intros E. rewrite E. fold name. now rewrite dict_set_twice.
Qed.

(** ** More on the upcoming birthdays *)

Lemma upcoming_step_raise_inv (today : date) (acc : list AddressBook.upcoming)
    (r : Record_.t) (e : exn) :
  (forall b, Record_.birthday r = Some b ->
     exists bd, strptime (Birthday.value b) = Ok bd) ->
  AddressBook.upcoming_step today acc r = Raise e ->
  (exists m, e = ValueError m)
  /\ exists b bd,
       Record_.birthday r = Some b /\ strptime (Birthday.value b) = Ok bd
       /\ ~ candidate_exists today bd.
Proof.
  intros Hp. unfold AddressBook.upcoming_step.
  destruct (Record_.birthday r) as [b |] eqn:B; [| discriminate].
  destruct (Hp b eq_refl) as [bd P]. rewrite P. cbn [bind result_monad].
  destruct (AddressBook.birthday_this_year today bd) as [c | e'] eqn:C;
    cbn [bind result_monad].
  - apply birthday_this_year_inv in C. destruct C as (-> & Hc & _).
    destruct ((0 <=? _) && _); [| discriminate].
    destruct (congratulation_date_ok _ Hc) as (cd & -> & _). discriminate.
  - intros [= <-]. split.
    + unfold AddressBook.birthday_this_year, replace_year in C.
      destruct (date_new (year today) (month bd) (day bd)) as [c0 | e0] eqn:N;
        cbn [bind result_monad] in C.
      * destruct (date_ltb c0 today); [| discriminate].
        now apply date_new_raises in C.
      * injection C as <-. now apply date_new_raises in N.
    + exists b, bd. split; [reflexivity |]. split; [exact P |].
      intros Hc. rewrite (birthday_this_year_ok _ _ Hc) in C. discriminate.
Qed.

Lemma upcoming_step_no_candidate (today : date) (acc : list AddressBook.upcoming)
    (r : Record_.t) (b : Birthday.t) (bd : date) :
  Record_.birthday r = Some b -> strptime (Birthday.value b) = Ok bd ->
  ~ candidate_exists today bd ->
  exists e, AddressBook.upcoming_step today acc r = Raise e.
Proof.
  intros B P Hn. unfold AddressBook.upcoming_step. rewrite B, P.
  cbn [bind result_monad].
  destruct (AddressBook.birthday_this_year today bd) as [c | e] eqn:C;
    cbn [bind result_monad]; [| eauto].
  apply birthday_this_year_inv in C. tauto.
Qed.

Lemma for_each_raise_inv (today : date) (rs : list Record_.t)
    (acc : list AddressBook.upcoming) (e : exn) :
  (forall r b, In r rs -> Record_.birthday r = Some b ->
     exists bd, strptime (Birthday.value b) = Ok bd) ->
  for_each (AddressBook.upcoming_step today) acc rs = Raise e ->
  (exists m, e = ValueError m)
  /\ exists r b bd,
       In r rs /\ Record_.birthday r = Some b
       /\ strptime (Birthday.value b) = Ok bd /\ ~ candidate_exists today bd.
Proof.
  revert acc. induction rs as [| r0 rs IH]; intros acc Hp; simpl;
    [discriminate |].
  destruct (AddressBook.upcoming_step today acc r0) as [acc' | e0] eqn:S;
    cbn [bind result_monad].
  - intros H. destruct (IH acc') as (Hm & r & b & bd & Hin & Hr); auto.
    + intros r b Hin. apply Hp. now right.
    + split; [exact Hm |]. exists r, b, bd. split; [now right | exact Hr].
  - intros [= <-].
    destruct (upcoming_step_raise_inv today acc r0 e0) as (Hm & b & bd & Hr);
      auto.
    + intros b. apply Hp. now left.
    + split; [exact Hm |]. exists r0, b, bd. split; [now left | exact Hr].
Qed.

(** X8: on a book whose birthdays all went through the constructor, the
    query raises exactly when the month and the day of some birthday are
    no date in the year of [today] or in the year of the candidate, and
    what it raises is a [ValueError]; in every other case it returns. *)
Theorem X8_query_raises_exactly_without_candidate
    (today : date) (book : AddressBook.t) :
  (forall r b, In r (records book) -> Record_.birthday r = Some b ->
     exists bd, strptime (Birthday.value b) = Ok bd) ->
  ((exists e, AddressBook.get_upcoming_birthdays today book = Raise e)
   <-> (exists r b bd,
          In r (records book) /\ Record_.birthday r = Some b
          /\ strptime (Birthday.value b) = Ok bd
          /\ ~ candidate_exists today bd))
  /\ (forall e, AddressBook.get_upcoming_birthdays today book = Raise e ->
        exists m, e = ValueError m).
Proof.
  intros Hp. unfold AddressBook.get_upcoming_birthdays. split; [split |].
  - intros [e H]. now apply (for_each_raise_inv today _ [] e Hp).
  - intros (r & b & bd & Hin & B & P & Hn).
    apply (for_each_raises today _ r Hin).
    intros acc. now apply (upcoming_step_no_candidate today acc r b bd).
  - intros e H. now apply (for_each_raise_inv today _ [] e Hp).
Qed.

(** The statement of X8 on the book with a birthday on 29.02.2000, in
    2023. *)
Lemma X8_query_on_leap_day_book :
  (exists e,
     AddressBook.get_upcoming_birthdays (Date 2023 2 25) leap_day_book
     = Raise e)
  <-> (exists r b bd,
         In r (records leap_day_book) /\ Record_.birthday r = Some b
         /\ strptime (Birthday.value b) = Ok bd
         /\ ~ candidate_exists (Date 2023 2 25) bd).
Proof.
  apply (X8_query_raises_exactly_without_candidate (Date 2023 2 25)
           leap_day_book).
  intros r b [<- | []] [= <-]. eexists. reflexivity.
Defined.

Lemma valid_date_other_year (d : date) (y : Z) :
  valid_date d -> ~ (month d = 2 /\ day d = 29) -> 1 <= y <= 9999 ->
  valid_date (Date y (month d) (day d)).
Proof.
  destruct d as [y0 m dd]. unfold valid_date. cbn [year month day].
  intros (_ & Hm & Hd) Hn Hy. split; [exact Hy |]. split; [exact Hm |].
  unfold days_in_month in *.
  destruct (is_leap y0), (is_leap y); split_month m;
    revert Hd; eval_index; eval_bool; lia.
Qed.

(** X9: when [today] is a day of the calendar before the year 9999 and
    no birthday of the book is a 29th of February, the query returns. *)
Theorem X9_query_returns_without_leap_days
    (today : date) (book : AddressBook.t) :
  valid_date today -> year today < 9999 ->
  (forall r b, In r (records book) -> Record_.birthday r = Some b ->
     exists bd, strptime (Birthday.value b) = Ok bd
                /\ ~ (month bd = 2 /\ day bd = 29)) ->
  exists out, AddressBook.get_upcoming_birthdays today book = Ok out.
Proof.
  intros Ht Hy Hp. unfold AddressBook.get_upcoming_birthdays.
  apply for_each_upcoming_ok. intros r b Hin B.
  destruct (Hp r b Hin B) as (bd & P & Hn). exists bd. split; [exact P |].
  pose proof (strptime_valid _ _ P) as Hv. destruct Ht as (Hty & _).
  unfold candidate_exists, candidate.
  split; [apply valid_date_other_year; auto; lia |].
  destruct (date_ltb _ today);
    change (valid_date (Date ?y (month bd) (day bd)))
      with (valid_date (Date y (month bd) (day bd)));
    apply valid_date_other_year; auto; lia.
Qed.

(** The statement of X9 on 10.06.2024 for the book of three contacts. *)
Lemma X9_query_returns_in_june :
  valid_date (Date 2024 6 10)
  /\ exists out,
       AddressBook.get_upcoming_birthdays (Date 2024 6 10) june_book = Ok out.
Proof.
  assert (Ht : valid_date (Date 2024 6 10)) by (now apply date_ok_valid).
  split; [exact Ht |].
  apply (X9_query_returns_without_leap_days (Date 2024 6 10) june_book Ht).
  - reflexivity.
  - intros r b [<- | [<- | [<- | []]]] [= <-]; eexists;
      (split; [reflexivity | intros [H _]; discriminate H]).
Defined.

(** X10: no item of the result falls on a weekend: the date that
    [strftime] writes into it is a day of the calendar from Monday (0) to
    Friday (4), and it is a Monday whenever the candidate date was
    moved. *)
Theorem X10_congratulation_on_a_working_day
    (today : date) (book : AddressBook.t) (out : list AddressBook.upcoming) :
  AddressBook.get_upcoming_birthdays today book = Ok out ->
  Forall (fun e => exists r b bd cd,
            In r (records book)
            /\ Record_.birthday r = Some b
            /\ strptime (Birthday.value b) = Ok bd
            /\ AddressBook.u_name e = record_name r
            /\ valid_date cd
            /\ AddressBook.u_birthday e = strftime_dmY cd
            /\ 0 <= weekday cd <= 4
            /\ (cd <> candidate today bd -> weekday cd = 0)) out.
Proof.
  intros H. apply get_upcoming_birthdays_inv in H.
  apply Forall2_filter_In in H. revert H. apply Forall_impl.
  intros e (r & Hin & _ & b & bd & cd & B & P & Hn & _ & Hv & Ho & Hs & Hf).
  exists r, b, bd, cd.
  split; [exact Hin |]. split; [exact B |]. split; [exact P |].
  split; [exact Hn |]. split; [exact Hv |]. split; [exact Hf |].
  unfold shift in *. unfold weekday in *. rewrite Ho.
  destruct (Z.eqb_spec ((toordinal (candidate today bd) + 6) mod 7) 5)
    as [E5 | E5]; cbv iota in *.
  - split; [| intros _]; Z.div_mod_to_equations; lia.
  - destruct (Z.eqb_spec ((toordinal (candidate today bd) + 6) mod 7) 6)
      as [E6 | E6]; cbv iota in *.
    + split; [| intros _]; Z.div_mod_to_equations; lia.
    + split; [Z.div_mod_to_equations; lia |].
      intros Hne. exfalso. apply Hne. now apply Hs.
Qed.

(** The statement of X10 on 10.06.2024 for the book of three contacts. *)
Lemma X10_working_days_in_june :
  Forall (fun e => exists r b bd cd,
            In r (records june_book)
            /\ Record_.birthday r = Some b
            /\ strptime (Birthday.value b) = Ok bd
            /\ AddressBook.u_name e = record_name r
            /\ valid_date cd
            /\ AddressBook.u_birthday e = strftime_dmY cd
            /\ 0 <= weekday cd <= 4
            /\ (cd <> candidate (Date 2024 6 10) bd -> weekday cd = 0))
    [upcoming_item "ann" "17.06.2024"; upcoming_item "bob" "12.06.2024"].
Proof.
  apply (X10_congratulation_on_a_working_day (Date 2024 6 10) june_book).
  reflexivity.
Defined.

Lemma Forall2_In_l {A B : Type} (P : A -> B -> Prop) (l : list A)
    (l' : list B) (x : A) :
  Forall2 P l l' -> In x l -> exists y, In y l' /\ P x y.
Proof.
  induction 1 as [| a b l l' Hab _ IH]; [contradiction |].
  intros [<- | Hin].
  - exists b. split; [now left | exact Hab].
  - destruct (IH Hin) as (y & Hy & Hxy). exists y. split; [now right | exact Hxy].
Qed.

Lemma candidate_today (today bd : date) :
  month bd = month today -> day bd = day today -> candidate today bd = today.
Proof.
  intros Hm Hd. unfold candidate. rewrite Hm, Hd.
  assert (E : Date (year today) (month today) (day today) = today)
    by (now destruct today).
  rewrite E. unfold date_ltb. rewrite !Z.ltb_irrefl, !Z.eqb_refl. reflexivity.
Qed.

(** X11: a contact whose birthday falls on the day and month of [today]
    is in the result whenever the query returns, and the date given for
    it is [today] itself when [today] is a day from Monday to Friday. *)
Theorem X11_birthday_today_is_listed
    (today : date) (book : AddressBook.t) (out : list AddressBook.upcoming)
    (r : Record_.t) (b : Birthday.t) (bd : date) :
  AddressBook.get_upcoming_birthdays today book = Ok out ->
  In r (records book) -> Record_.birthday r = Some b ->
  strptime (Birthday.value b) = Ok bd ->
  month bd = month today -> day bd = day today ->
  exists e,
    In e out /\ AddressBook.u_name e = record_name r
    /\ (0 <= weekday today <= 4 ->
        AddressBook.u_birthday e = strftime_dmY today).
Proof.
  intros H Hin B P Hm Hd. apply get_upcoming_birthdays_inv in H.
  pose proof (candidate_today today bd Hm Hd) as C.
  assert (Hs : selected today r = true).
  { unfold selected, days_until, days_between. rewrite B, P, C.
    rewrite Z.sub_diag. reflexivity. }
  assert (Hf : In r (filter (selected today) (records book)))
    by (apply filter_In; auto).
  destruct (Forall2_In_l _ _ _ _ H Hf)
    as (e & He & b' & bd' & cd & B' & P' & Hn & _ & _ & _ & Hsh & Hfmt).
  rewrite B in B'. injection B' as <-. rewrite P in P'. injection P' as <-.
  exists e. split; [exact He |]. split; [exact Hn |].
  intros Hw. rewrite Hfmt. f_equal. rewrite <- C. apply Hsh.
  rewrite C. unfold shift.
  destruct (Z.eqb_spec (weekday today) 5); [lia |].
  destruct (Z.eqb_spec (weekday today) 6); [lia | reflexivity].
Qed.

(** The statement of X11 on Wednesday 12.06.2024 for the book of three
    contacts: the contact born on a 12th of June. *)
Lemma X11_birthday_today_in_june :
  AddressBook.get_upcoming_birthdays (Date 2024 6 12) june_book
  = Ok [upcoming_item "ann" "17.06.2024"; upcoming_item "bob" "12.06.2024"]
  /\ exists e,
       In e [upcoming_item "ann" "17.06.2024"; upcoming_item "bob" "12.06.2024"]
       /\ AddressBook.u_name e = record_name (contact "bob" "12.06.2024")
       /\ (0 <= weekday (Date 2024 6 12) <= 4 ->
           AddressBook.u_birthday e = strftime_dmY (Date 2024 6 12)).
Proof.
  split; [reflexivity |].
  apply (X11_birthday_today_is_listed (Date 2024 6 12) june_book _
           (contact "bob" "12.06.2024") (Birthday.Build (py "12.06.2024"))
           (Date 2024 6 12)); try reflexivity.
  right. now left.
Defined.

(** ** Printing *)

Lemma record_str_starts (r : Record_.t) :
  exists rest, record_str r = chr "C" :: rest.
Proof. unfold record_str. eexists. reflexivity. Qed.

Lemma str_join_starts (sep : py_str) (c : codepoint) (items : list py_str) :
  items <> [] ->
  Forall (fun x => exists rest, x = c :: rest) items ->
  exists rest, str_join sep items = c :: rest.
Proof.
  intros Hne H. destruct H as [| x l (rest & ->) Hl];
    [exfalso; now apply Hne |].
  destruct l; simpl; eauto.
Qed.

(** X12: the text of the book is the notice of the empty book exactly when
    the book holds no record: the text of a book with records starts with
    the text of its first record, which starts with another letter. *)
Theorem X12_book_text_says_empty_only_when_empty (b : AddressBook.t) :
  book_str b = py "Address book is empty" <-> AddressBook.data b = [].
Proof.
  unfold book_str. destruct (AddressBook.data b) as [| kv d] eqn:E.
  - split; reflexivity.
  - split; [| discriminate]. intros H. exfalso.
    destruct (str_join_starts newline (chr "C")
                (map record_str (dict_values (kv :: d)))) as [rest R].
    + discriminate.
    + apply Forall_forall. intros x Hx. apply in_map_iff in Hx.
      destruct Hx as (r & <- & _). apply record_str_starts.
    + rewrite R in H. discriminate H.
Qed.

(** ** Command lines *)

Lemma split_from_blank (s : py_str) :
  forallb char_isspace s = true -> split_from [] s = [].
Proof.
  induction s as [| c s IH]; simpl; [reflexivity |].
  intros H. apply andb_prop in H. destruct H as [-> H]. now apply IH.
Qed.

Lemma str_lstrip_blank (s : py_str) :
  forallb char_isspace s = true -> str_lstrip s = [].
Proof.
  induction s as [| c s IH]; simpl; [reflexivity |].
  intros H. apply andb_prop in H. destruct H as [-> H]. now apply IH.
Qed.

Lemma split_from_nonblank (word s : py_str) :
  split_from word s = [] -> word = [] /\ forallb char_isspace s = true.
Proof.
  revert word. induction s as [| c s IH]; intros word; simpl.
  - destruct word; [auto | discriminate].
  - destruct (char_isspace c) eqn:E.
    + destruct word; [| discriminate]. intros H.
      destruct (IH _ H). auto.
    + intros H. destruct (IH _ H) as [Hw _]. now destruct word.
Qed.

(** Leading white space makes no difference to [split]. *)
Lemma split_lstrip (s : py_str) : str_split (str_lstrip s) = str_split s.
Proof.
  unfold str_split. induction s as [| c s IH]; simpl; [reflexivity |].
  destruct (char_isspace c) eqn:E; [exact IH |]. simpl. now rewrite E.
Qed.

Lemma split_from_app_space (word s t : py_str) :
  forallb char_isspace t = true ->
  split_from word (s ++ t) = split_from word s.
Proof.
  intros Ht. revert word. induction s as [| c s IH]; intros word; simpl.
  - induction t as [| c t IHt]; simpl; [reflexivity |].
    simpl in Ht. apply andb_prop in Ht. destruct Ht as [-> Ht].
    destruct word.
    + rewrite (split_from_blank t Ht). reflexivity.
    + rewrite (split_from_blank t Ht). reflexivity.
  - destruct (char_isspace c); [destruct word |]; now rewrite ?IH.
Qed.

(** What [lstrip] takes off is white space. *)
Lemma str_lstrip_split (s : py_str) :
  exists t, s = t ++ str_lstrip s /\ forallb char_isspace t = true.
Proof.
  induction s as [| c s (t & E & Ht)]; simpl.
  - exists []. auto.
  - destruct (char_isspace c) eqn:Ec.
    + exists (c :: t). simpl. rewrite Ec, Ht. split; [now f_equal | reflexivity].
    + exists []. auto.
Qed.

(** [strip] before [split] changes nothing. *)
Lemma split_strip (s : py_str) : str_split (str_strip s) = str_split s.
Proof.
  unfold str_strip.
  destruct (str_lstrip_split (rev (str_lstrip s))) as (t & E & Ht).
  rewrite <- (split_lstrip s).
  apply (f_equal (@rev _)) in E. rewrite rev_involutive, rev_app_distr in E.
  rewrite E at 2. unfold str_split. symmetry. apply split_from_app_space.
  rewrite forallb_forall in *. intros x Hx. apply Ht. now apply in_rev.
Qed.

Lemma split_from_word (u w rest : py_str) :
  forallb (fun c => negb (char_isspace c)) w = true ->
  split_from u (w ++ rest) = split_from (u ++ w) rest.
Proof.
  revert u. induction w as [| c w IH]; intros u Hw; simpl.
  - now rewrite app_nil_r.
  - simpl in Hw. apply andb_prop in Hw. destruct Hw as [Hc Hw].
    apply negb_true_iff in Hc. rewrite Hc, IH by exact Hw.
    now rewrite <- app_assoc.
Qed.

Lemma split_from_spaces (t rest : py_str) :
  forallb char_isspace t = true ->
  split_from [] (t ++ rest) = split_from [] rest.
Proof.
  induction t as [| c t IH]; simpl; [reflexivity |].
  intros H. apply andb_prop in H. destruct H as [-> H]. now apply IH.
Qed.

Lemma split_from_separator (u t rest : py_str) :
  u <> [] -> t <> [] -> forallb char_isspace t = true ->
  split_from u (t ++ rest) = u :: split_from [] rest.
Proof.
  intros Hu Ht H. destruct t as [| c t]; [congruence |]. simpl in *.
  apply andb_prop in H. destruct H as [-> H].
  destruct u; [congruence |]. f_equal. now apply split_from_spaces.
Qed.

Lemma split_from_spaced (u : py_str) (rest : list (py_str * py_str))
    (trail : py_str) :
  u <> [] -> gaps_and_words rest -> forallb char_isspace trail = true ->
  split_from u (spaced rest ++ trail) = u :: map snd rest.
Proof.
  intros Hu Hr Ht. revert u Hu.
  induction Hr as [| [g w] rest [[Hg Hgs] [Hw Hws]] _ IH]; intros u Hu.
  - cbn [spaced map]. rewrite split_from_app_space by exact Ht.
    destruct u; [congruence | reflexivity].
  - cbn [spaced map fst snd] in *. rewrite <- !app_assoc.
    rewrite split_from_separator by assumption.
    rewrite split_from_word by exact Hws. cbn [app].
    now rewrite IH.
Qed.

(** The words of a line are its command and its arguments. *)
Lemma parse_input_line (str_lower : py_str -> py_str) (lead w : py_str)
    (rest : list (py_str * py_str)) (trail : py_str) :
  forallb char_isspace lead = true -> is_word w -> gaps_and_words rest ->
  forallb char_isspace trail = true ->
  parse_input str_lower (line_of lead w rest trail)
  = (Some (str_lower w), map snd rest).
Proof.
  intros Hl [Hw Hws] Hr Ht. unfold parse_input, line_of.
  rewrite split_strip. unfold str_split.
  rewrite split_from_spaces by exact Hl.
  rewrite split_from_word by exact Hws. cbn [app].
  now rewrite split_from_spaced.
Qed.

(** A line is white space, or it has a first word. *)
Lemma line_words (s : py_str) :
  forallb char_isspace s = true
  \/ exists lead w rest trail,
       s = line_of lead w rest trail
       /\ forallb char_isspace lead = true /\ is_word w
       /\ gaps_and_words rest /\ forallb char_isspace trail = true.
Proof.
  induction s as [| c s IH]; [now left |].
  destruct (char_isspace c) eqn:Ec.
  - destruct IH as [Hb | (lead & w & rest & trail & -> & Hl & Hw & Hr & Ht)].
    + left. simpl. now rewrite Ec.
    + right. exists (c :: lead), w, rest, trail.
      split; [reflexivity |]. simpl. rewrite Ec. auto.
  - right.
    destruct IH as [Hb | (lead & w & rest & trail & -> & Hl & Hw & Hr & Ht)].
    + exists [], [c], [], s. split; [reflexivity |].
      split; [reflexivity |]. split; [| split; [constructor | exact Hb]].
      split; [discriminate |]. simpl. now rewrite Ec.
    + destruct lead as [| l lead].
      * exists [], (c :: w), rest, trail. split; [reflexivity |].
        split; [reflexivity |]. split; [| auto].
        destruct Hw as [_ Hws]. split; [discriminate |].
        simpl. now rewrite Ec.
      * exists [], [c], ((l :: lead, w) :: rest), trail.
        split.
        { unfold line_of. cbn [spaced app]. now rewrite <- !app_assoc. }
        split; [reflexivity |]. split.
        { split; [discriminate |]. simpl. now rewrite Ec. }
        split; [| exact Ht]. constructor; [| exact Hr].
        split; [| exact Hw]. split; [discriminate | exact Hl].
Qed.

(** X13: what [parse_input] makes of any line.  It gives no command and
    no arguments exactly for a line of nothing but white space (the empty
    line among them).  Every other line is its first word and further
    words, each after a gap of white space, with white space or nothing
    before the first word and after the last; the command is the first
    word of the line lower-cased, and the arguments are the further words
    of the line, unchanged and in their order. *)
Theorem X13_parse_input_gives_words
    (str_lower : py_str -> py_str) (s : py_str) :
  (parse_input str_lower s = (None, []) <-> forallb char_isspace s = true)
  /\ (forallb char_isspace s = true
      \/ exists lead w rest trail,
           s = line_of lead w rest trail
           /\ forallb char_isspace lead = true /\ is_word w
           /\ gaps_and_words rest /\ forallb char_isspace trail = true
           /\ parse_input str_lower s = (Some (str_lower w), map snd rest)).
Proof.
  split.
  - unfold parse_input. rewrite split_strip. unfold str_split.
    destruct (split_from [] s) as [| w ws] eqn:E.
    + apply split_from_nonblank in E. tauto.
    + split; [discriminate |].
      intros H. rewrite (split_from_blank s H) in E. discriminate.
  - destruct (line_words s)
      as [Hb | (lead & w & rest & trail & -> & Hl & Hw & Hr & Ht)];
      [now left | right].
    exists lead, w, rest, trail. split; [reflexivity |].
    split; [exact Hl |]. split; [exact Hw |]. split; [exact Hr |].
    split; [exact Ht |]. now apply parse_input_line.
Qed.

(** X14: the words of a line are read back whatever the white space:
    for a first word and further words, each after a gap of its own of
    any white space, with any white space or none before the first word
    and after the last, [parse_input] gives the first word lower-cased
    as the command and the further words, unchanged and in order, as the
    arguments. *)
Theorem X14_parse_input_reads_words_back
    (str_lower : py_str -> py_str) (lead w : py_str)
    (rest : list (py_str * py_str)) (trail : py_str) :
  forallb char_isspace lead = true -> is_word w -> gaps_and_words rest ->
  forallb char_isspace trail = true ->
  parse_input str_lower (line_of lead w rest trail)
  = (Some (str_lower w), map snd rest).
Proof.
  intros Hl [Hw Hws] Hr Ht. unfold parse_input, line_of.
  rewrite split_strip. unfold str_split.
  rewrite split_from_spaces by exact Hl.
  rewrite split_from_word by exact Hws. cbn [app].
  rewrite split_from_spaced by assumption. reflexivity.
Qed.

(** The statement of X14 for the line [  ADD Ann<tab> 0123456789 ],
    with two blanks before the command and a tab and a blank before the
    phone: the command is lower-cased and the arguments are not. *)
Lemma X14_parse_input_of_an_add_line :
  line_of (py "  ") (py "ADD")
    [(py " ", py "Ann"); ([9; 32]%N, py "0123456789")] (py " ")
  = py "  ADD Ann" ++ [9; 32]%N ++ py "0123456789 "
  /\ parse_input ascii_lower
       (py "  ADD Ann" ++ [9; 32]%N ++ py "0123456789 ")
     = (Some (py "add"), [py "Ann"; py "0123456789"]).
Proof.
  split; [reflexivity |].
  apply (X14_parse_input_reads_words_back ascii_lower (py "  ") (py "ADD")
           [(py " ", py "Ann"); ([9; 32]%N, py "0123456789")] (py " "));
    try reflexivity.
  - split; [discriminate | reflexivity].
  - repeat constructor; discriminate.
Defined.

(** ** The command handlers *)

Lemma call_on_found_missing (name : py_str) (o : record_op) (b : AddressBook.t) :
  dict_get name (AddressBook.data b) = None ->
  exists m, call_on_found name o b = (Raise (AttributeError m), b).
Proof. intros H. unfold call_on_found. rewrite H. eauto. Qed.

Lemma call_on_found_present (name : py_str) (o : record_op) (b : AddressBook.t)
    (r : Record_.t) :
  dict_get name (AddressBook.data b) = Some r ->
  call_on_found name o b
  = (fst (run_record_op o r),
     AddressBook.Build (dict_set name (snd (run_record_op o r))
                          (AddressBook.data b))).
Proof.
  intros H. unfold call_on_found. rewrite H.
  now destruct (run_record_op o r).
Qed.

Lemma call_on_found_failure (name : py_str) (o : record_op)
    (b b' : AddressBook.t) (e : exn) :
  call_on_found name o b = (Raise e, b') -> b' = b.
Proof.
  destruct (dict_get name (AddressBook.data b)) as [r |] eqn:G.
  - rewrite (call_on_found_present _ _ _ _ G).
    destruct (run_record_op o r) as [res r'] eqn:R. cbn [fst snd].
    intros [= -> <-]. apply record_op_failure in R. subst r'.
    rewrite (dict_set_same _ _ _ G). now destruct b.
  - destruct (call_on_found_missing name o b G) as [m ->]. congruence.
Qed.

Lemma world_eta {W : Type} (w : world W) : World (w_book w) (w_env w) = w.
Proof. now destruct w. Qed.

Section HandlerFacts.

Context {W : Type} {view : View W}.
Implicit Types (w : world W) (args tail : list py_str) (name phone : py_str).

Lemma valid_phone_nonempty phone :
  Phone.validate phone = true -> phone <> [].
Proof. intros V ->. discriminate V. Qed.

Lemma add_contact_body_run name phone tail (b : AddressBook.t) (env : W) :
  add_contact_body (name :: phone :: tail) (World b env)
  = let found := dict_get name (AddressBook.data b) in
    let b1 :=
      match found with
      | None => AddressBook.Build
                  (dict_set name (Record_.init name) (AddressBook.data b))
      | Some _ => b
      end in
    let message :=
      match found with
      | None => py "Contact added."
      | Some _ => py "Contact updated."
      end in
    match phone with
    | [] => (Ok (Some message), World b1 env)
    | _ =>
        match call_on_found name (AddPhone phone) b1 with
        | (Ok _, b2) => (Ok (Some message), World b2 env)
        | (Raise e, b2) => (Raise e, World b2 env)
        end
    end.
Proof.
  unfold add_contact_body. cbn.
  destruct (dict_get name (AddressBook.data b)) as [r |] eqn:G; cbn.
  - destruct phone as [| c p]; [reflexivity |].
    unfold on_book. cbn [w_book w_env].
    destruct (call_on_found name (AddPhone (c :: p)) b) as [[[] | e] b2];
      reflexivity.
  - destruct phone as [| c p]; [reflexivity |].
    unfold on_book. cbn [w_book w_env].
    destruct (call_on_found name (AddPhone (c :: p))
                {| AddressBook.data := dict_set name (Record_.init name)
                                         (AddressBook.data b) |})
      as [[[] | e] b2]; reflexivity.
Qed.

Lemma on_book_then_ret {A B : Type} (m : method AddressBook.t A) (x : B)
    (b : AddressBook.t) (env : W) :
  (on_book m ;;; ret x) (World b env)
  = match m b with
    | (Ok _, b2) => (Ok x, World b2 env)
    | (Raise e, b2) => (Raise e, World b2 env)
    end.
Proof.
  cbn. unfold on_book. cbn [w_book w_env].
  destruct (m b) as [[a | e] b2]; reflexivity.
Qed.

Lemma add_contact_valid name phone tail w :
  Phone.validate phone = true ->
  (dict_get name (AddressBook.data (w_book w)) = None ->
   add_contact (name :: phone :: tail) w
   = (Some (Plain (py "Contact added.")),
      World (AddressBook.Build
               (AddressBook.data (w_book w)
                ++ [(name, Record_.Build (Name.init name)
                             [Phone.Build phone] None)]))
        (w_env w)))
  /\ (forall r,
        dict_get name (AddressBook.data (w_book w)) = Some r ->
        add_contact (name :: phone :: tail) w
        = (Some (Plain (py "Contact updated.")),
           World (AddressBook.Build
                    (dict_set name
                       (Record_.set_phones r
                          (Record_.phones r ++ [Phone.Build phone]))
                       (AddressBook.data (w_book w))))
             (w_env w))).
Proof.
  intros V. pose proof (valid_phone_nonempty phone V) as Hne.
  unfold add_contact, input_error. destruct w as [b env].
  rewrite add_contact_body_run. cbn [w_book w_env].
  destruct phone as [| c p]; [congruence |]. cbv zeta. split.
  - intros G. rewrite G.
    erewrite call_on_found_present
      by (cbn [AddressBook.data]; apply dict_set_get).
    cbn [run_record_op AddressBook.data]. rewrite add_phone_run, V.
    cbn [fst snd]. rewrite dict_set_twice, (dict_set_new _ _ _ G).
    reflexivity.
  - intros r G. rewrite G.
    rewrite (call_on_found_present _ _ _ _ G).
    cbn [run_record_op]. rewrite add_phone_run, V. reflexivity.
Qed.

(** X15: [add_contact] with a valid phone.  For a name the book does not
    hold it answers that the contact was added and puts a record with
    that name, the one phone and no birthday at the end of the book; for
    a name the book holds it answers that the contact was updated and
    adds the phone at the end of the phones of that record, which keeps
    its place.  Arguments after the second are not looked at. *)
Theorem X15_add_contact_adds_or_updates name phone tail w :
  Phone.validate phone = true ->
  (dict_get name (AddressBook.data (w_book w)) = None ->
   add_contact (name :: phone :: tail) w
   = (Some (Plain (py "Contact added.")),
      World (AddressBook.Build
               (AddressBook.data (w_book w)
                ++ [(name, Record_.Build (Name.init name)
                             [Phone.Build phone] None)]))
        (w_env w)))
  /\ (forall r,
        dict_get name (AddressBook.data (w_book w)) = Some r ->
        add_contact (name :: phone :: tail) w
        = (Some (Plain (py "Contact updated.")),
           World (AddressBook.Build
                    (dict_set name
                       (Record_.set_phones r
                          (Record_.phones r ++ [Phone.Build phone]))
                       (AddressBook.data (w_book w))))
             (w_env w))).
Proof. apply add_contact_valid. Qed.

(** X16: [add_contact] with a phone that is not valid, for a name the
    book does not hold: the answer is the error of the phone, and the
    book is left with a new contact of that name that has no phone. *)
Theorem X16_add_contact_leaves_an_empty_contact name phone tail w :
  phone <> [] -> Phone.validate phone = false ->
  dict_get name (AddressBook.data (w_book w)) = None ->
  add_contact (name :: phone :: tail) w
  = (Some (ErrorText phone_error),
     World (AddressBook.Build
              (AddressBook.data (w_book w) ++ [(name, Record_.init name)]))
       (w_env w)).
Proof.
  intros Hne V G. unfold add_contact, input_error. destruct w as [b env].
  rewrite add_contact_body_run. cbn [w_book w_env] in *.
  destruct phone as [| c p]; [congruence |]. cbv zeta. rewrite G.
  erewrite call_on_found_present
    by (cbn [AddressBook.data]; apply dict_set_get).
  cbn [run_record_op AddressBook.data]. rewrite add_phone_run, V.
  cbn [fst snd]. rewrite dict_set_twice, (dict_set_new _ _ _ G).
  reflexivity.
Qed.

Lemma find_run name (b : AddressBook.t) (env : W) :
  on_book (AddressBook.find name) (World b env)
  = (Ok (dict_get name (AddressBook.data b)), World b env).
Proof. reflexivity. Qed.

(** X17: for a name the book does not hold, [change_contact],
    [remove_phone], [add_birthday], [show_phone] and [show_birthday]
    answer that the contact does not exist, [delete_contact] answers with
    the error of [delete], and none of them changes anything. *)
Theorem X17_commands_on_an_unknown_contact name w :
  dict_get name (AddressBook.data (w_book w)) = None ->
  (forall old_phone new_phone,
     change_contact [name; old_phone; new_phone] w = (Some no_such_contact, w))
  /\ (forall phone, remove_phone [name; phone] w = (Some no_such_contact, w))
  /\ (forall birthday,
        add_birthday [name; birthday] w = (Some no_such_contact, w))
  /\ (forall tail, show_phone (name :: tail) w = (Some no_such_contact, w))
  /\ (forall tail, show_birthday (name :: tail) w = (Some no_such_contact, w))
  /\ (forall tail,
        delete_contact (name :: tail) w
        = (Some (ErrorText (contact_not_found name)), w)).
Proof.
  intros G. destruct w as [b env]. cbn [w_book] in G.
  assert (C : forall o (t : option py_str),
            input_error (fun _ => on_book (call_on_found name o) ;;; ret t)
              [] (World b env)
            = (Some no_such_contact, World b env)).
  { intros o t. unfold input_error. rewrite on_book_then_ret.
    destruct (call_on_found_missing name o b G) as [m ->]. reflexivity. }
  split; [| split; [| split; [| split; [| split]]]].
  - intros o n. apply (C (EditPhone o n)).
  - intros p. apply (C (RemovePhone p)).
  - intros d. apply (C (SetBirthday d)).
  - intros tail. unfold show_phone, input_error, show_phone_body.
    cbn [bind method_monad]. rewrite find_run, G. reflexivity.
  - intros tail. unfold show_birthday, input_error, show_birthday_body.
    cbn [bind method_monad]. rewrite find_run, G. reflexivity.
  - intros tail. unfold delete_contact, input_error, delete_contact_body.
    rewrite on_book_then_ret, (delete_absent _ _ G). reflexivity.
Qed.

Lemma input_error_snd (f : handler_body) args w :
  snd (input_error f args w) = snd (f args w).
Proof.
  unfold input_error.
  destruct (f args w) as [[[s |] | [m | m | m | m]] w']; reflexivity.
Qed.

Lemma show_handlers_frame (today : date) args w :
  snd (show_phone args w) = w
  /\ snd (show_birthday args w) = w
  /\ w_book (snd (show_all args w)) = w_book w
  /\ w_book (snd (birthdays today args w)) = w_book w.
Proof.
  unfold show_phone, show_birthday, show_all, birthdays.
  rewrite !input_error_snd. destruct w as [b env].
  split; [| split; [| split]].
  - unfold show_phone_body. destruct args as [| name tail]; [reflexivity |].
    cbn [bind method_monad]. rewrite find_run.
    destruct (dict_get name (AddressBook.data b)) as [r |]; [| reflexivity].
    now destruct (Record_.phones r).
  - unfold show_birthday_body. destruct args as [| name tail]; [reflexivity |].
    cbn [bind method_monad]. rewrite find_run.
    destruct (dict_get name (AddressBook.data b)) as [r |]; [| reflexivity].
    now destruct (Record_.birthday r).
  - reflexivity.
  - unfold birthdays_body. cbn.
    now destruct (AddressBook.get_upcoming_birthdays today b).
Qed.

(** X18: the handlers that show something change no contact:
    [show_phone] and [show_birthday] leave the book and the outside as
    they are, whatever the arguments, and [show_all] and [birthdays]
    leave the book. *)
Theorem X18_showing_changes_no_contact (today : date) args w :
  snd (show_phone args w) = w
  /\ snd (show_birthday args w) = w
  /\ w_book (snd (show_all args w)) = w_book w
  /\ w_book (snd (birthdays today args w)) = w_book w.
Proof. apply show_handlers_frame. Qed.

Lemma delete_failure name (b b' : AddressBook.t) (e : exn) :
  AddressBook.delete name b = (Raise e, b') -> b' = b.
Proof.
  destruct (dict_get name (AddressBook.data b)) as [r |] eqn:G.
  - rewrite (delete_present _ _ _ G). discriminate.
  - rewrite (delete_absent _ _ G). congruence.
Qed.

Lemma on_book_then_ret_failure {A B : Type} (m : method AddressBook.t A)
    (x : B) w w' (e : exn) :
  (forall b b', m b = (Raise e, b') -> b' = b) ->
  (on_book m ;;; ret x) w = (Raise e, w') -> w' = w.
Proof.
  intros Hm. destruct w as [b env]. rewrite on_book_then_ret.
  destruct (m b) as [[a | e'] b2] eqn:M; [discriminate |].
  intros [= -> <-]. now rewrite (Hm _ _ M).
Qed.

(** X19: a handler that raises, so that [input_error] answers with an
    error, has changed nothing, with one exception: [add_contact] for a
    name the book did not hold has by then put an empty contact of that
    name at the end of the book. *)
Theorem X19_failed_command_changes_nothing_but_add
    (today : date) args w w' (e : exn) :
  (change_contact_body args w = (Raise e, w') -> w' = w)
  /\ (show_phone_body args w = (Raise e, w') -> w' = w)
  /\ (show_all_body args w = (Raise e, w') -> w' = w)
  /\ (delete_contact_body args w = (Raise e, w') -> w' = w)
  /\ (remove_phone_body args w = (Raise e, w') -> w' = w)
  /\ (add_birthday_body args w = (Raise e, w') -> w' = w)
  /\ (show_birthday_body args w = (Raise e, w') -> w' = w)
  /\ (birthdays_body today args w = (Raise e, w') -> w' = w)
  /\ (add_contact_body args w = (Raise e, w') ->
      w' = w
      \/ exists name phone tail,
           args = name :: phone :: tail
           /\ dict_get name (AddressBook.data (w_book w)) = None
           /\ w' = World (AddressBook.Build
                            (AddressBook.data (w_book w)
                             ++ [(name, Record_.init name)]))
                     (w_env w)).
Proof.
  assert (F : forall name o (t : option py_str),
            (on_book (call_on_found name o) ;;; ret t) w = (Raise e, w') ->
            w' = w).
  { intros name o t. apply on_book_then_ret_failure.
    intros b b'. apply call_on_found_failure. }
  split; [| split; [| split; [| split; [| split; [| split; [| split;
    [| split]]]]]]].
  - unfold change_contact_body.
    destruct args as [| a [| b [| c [| d l]]]]; try (apply F);
      unfold raise; congruence.
  - unfold show_phone_body. destruct args as [| name tail];
      [unfold raise; congruence |].
    destruct w as [b env]. cbn [bind method_monad]. rewrite find_run.
    destruct (dict_get name (AddressBook.data b)) as [r |];
      [| unfold raise; congruence].
    destruct (Record_.phones r); discriminate.
  - discriminate.
  - unfold delete_contact_body. destruct args as [| name tail];
      [unfold raise; congruence |].
    apply on_book_then_ret_failure. intros b b'. apply delete_failure.
  - unfold remove_phone_body.
    destruct args as [| a [| b [| c l]]]; try (apply F);
      unfold raise; congruence.
  - unfold add_birthday_body.
    destruct args as [| a [| b [| c l]]]; try (apply F);
      unfold raise; congruence.
  - unfold show_birthday_body. destruct args as [| name tail];
      [unfold raise; congruence |].
    destruct w as [b env]. cbn [bind method_monad]. rewrite find_run.
    destruct (dict_get name (AddressBook.data b)) as [r |];
      [| unfold raise; congruence].
    destruct (Record_.birthday r); discriminate.
  - unfold birthdays_body. destruct w as [b env]. cbn.
    destruct (AddressBook.get_upcoming_birthdays today b); [discriminate |].
    intros [= -> <-]. reflexivity.
  - destruct args as [| name [| phone tail]];
      try (unfold add_contact_body, raise; left; congruence).
    destruct w as [b env]. rewrite add_contact_body_run. cbv zeta.
    cbn [w_book w_env].
    destruct phone as [| c p]; [discriminate |].
    destruct (dict_get name (AddressBook.data b)) as [r |] eqn:G.
    + destruct (call_on_found name (AddPhone (c :: p)) b)
        as [[a | e'] b2] eqn:C; [discriminate |].
      intros [= -> <-]. left. now rewrite (call_on_found_failure _ _ _ _ _ C).
    + destruct (call_on_found name (AddPhone (c :: p)) _)
        as [[a | e'] b2] eqn:C; [discriminate |].
      intros [= -> <-]. right. exists name, (c :: p), tail.
      split; [reflexivity |]. split; [exact G |].
      rewrite (call_on_found_failure _ _ _ _ _ C), (dict_set_new _ _ _ G).
      reflexivity.
Qed.

Lemma dict_get_In {V : Type} (k : py_str) (v : V) (d : dict V) :
  dict_get k d = Some v -> In (k, v) d.
Proof.
  intros H. destruct (dict_get_split _ _ _ H) as (pre & post & -> & _).
  apply in_or_app. right. now left.
Qed.

Lemma book_wf_add_new name (b : AddressBook.t) :
  book_wf b ->
  book_wf (AddressBook.Build
             (dict_set name (Record_.init name) (AddressBook.data b))).
Proof.
  intros [Hw Hf]. split; cbn [AddressBook.data].
  - now apply dict_set_wf.
  - apply dict_set_forall; [| exact Hf]. cbn. split; [reflexivity |].
    split; [constructor | discriminate].
Qed.

Lemma book_wf_call_on_found name (o : record_op) (b : AddressBook.t) :
  book_wf b -> book_wf (snd (call_on_found name o b)).
Proof.
  intros [Hw Hf].
  destruct (dict_get name (AddressBook.data b)) as [r |] eqn:G.
  - rewrite (call_on_found_present _ _ _ _ G). cbn [snd].
    pose proof (dict_get_In _ _ _ G) as Hin.
    rewrite Forall_forall in Hf. destruct (Hf _ Hin) as [Hk Hr].
    cbn [fst snd] in Hk.
    destruct (record_op_keeps_wf o r Hr) as [Hr' Hn].
    split; cbn [AddressBook.data].
    + now apply dict_set_wf.
    + apply dict_set_forall; [| now apply Forall_forall].
      cbn [fst snd]. split; [| exact Hr'].
      unfold record_name in *. now rewrite Hn.
  - destruct (call_on_found_missing name o b G) as [m ->]. now split.
Qed.

Lemma book_wf_delete name (b : AddressBook.t) :
  book_wf b -> book_wf (snd (AddressBook.delete name b)).
Proof.
  intros [Hw Hf].
  destruct (dict_get name (AddressBook.data b)) as [r |] eqn:G.
  - rewrite (delete_present _ _ _ G). split; cbn [snd AddressBook.data].
    + now apply dict_del_wf.
    + now apply dict_del_forall.
  - rewrite (delete_absent _ _ G). now split.
Qed.

Lemma on_book_then_ret_book {A B : Type} (m : method AddressBook.t A) (x : B) w :
  w_book (snd ((on_book m ;;; ret x) w)) = snd (m (w_book w)).
Proof.
  destruct w as [b env]. rewrite on_book_then_ret. cbn [w_book].
  now destruct (m b) as [[a | e] b2].
Qed.

Lemma handlers_keep_book_wf (today : date) args w :
  book_wf (w_book w) ->
  book_wf (w_book (snd (add_contact args w)))
  /\ book_wf (w_book (snd (change_contact args w)))
  /\ book_wf (w_book (snd (show_phone args w)))
  /\ book_wf (w_book (snd (show_all args w)))
  /\ book_wf (w_book (snd (delete_contact args w)))
  /\ book_wf (w_book (snd (remove_phone args w)))
  /\ book_wf (w_book (snd (add_birthday args w)))
  /\ book_wf (w_book (snd (show_birthday args w)))
  /\ book_wf (w_book (snd (birthdays today args w))).
Proof.
  intros Hw.
  destruct (show_handlers_frame today args w) as (S1 & S2 & S3 & S4).
  rewrite S1, S2, S3, S4.
  unfold add_contact, change_contact, delete_contact, remove_phone,
    add_birthday. rewrite !input_error_snd.
  assert (F : forall name o (t : option py_str),
            book_wf (w_book (snd ((on_book (call_on_found name o) ;;; ret t) w)))).
  { intros name o t. rewrite on_book_then_ret_book.
    now apply book_wf_call_on_found. }
  split; [| split; [| split; [| split; [| split; [| split; [| split;
    [| split]]]]]]]; try exact Hw.
  - destruct args as [| name [| phone tail]]; try exact Hw.
    destruct w as [b env]. rewrite add_contact_body_run. cbv zeta.
    cbn [w_book] in Hw.
    assert (H1 : book_wf
                   match dict_get name (AddressBook.data b) with
                   | Some _ => b
                   | None => AddressBook.Build
                               (dict_set name (Record_.init name)
                                  (AddressBook.data b))
                   end).
    { destruct (dict_get name (AddressBook.data b)); [exact Hw |].
      now apply book_wf_add_new. }
    destruct phone as [| c p]; [exact H1 |].
    pose proof (book_wf_call_on_found name (AddPhone (c :: p)) _ H1) as H2.
    destruct (call_on_found name (AddPhone (c :: p)) _) as [[a | e] b2];
      exact H2.
  - unfold change_contact_body.
    destruct args as [| a [| b [| c [| d l]]]]; try (apply F); exact Hw.
  - unfold delete_contact_body. destruct args as [| name tail]; [exact Hw |].
    rewrite on_book_then_ret_book. now apply book_wf_delete.
  - unfold remove_phone_body.
    destruct args as [| a [| b [| c l]]]; try (apply F); exact Hw.
  - unfold add_birthday_body.
    destruct args as [| a [| b [| c l]]]; try (apply F); exact Hw.
Qed.

Lemma show_result_book (r : option text * world W) :
  w_book (show_result r) = w_book (snd r).
Proof. destruct r as [[[[| c s] | e | e] |] w]; reflexivity. Qed.

Variable str_lower : py_str -> py_str.
Variable save_data : AddressBook.t -> W -> W.

Lemma main_step_keeps_book_wf (today : date) (line : py_str) w :
  book_wf (w_book w) ->
  book_wf (w_book (snd (main_step str_lower save_data today line w))).
Proof.
  intros Hw. unfold main_step.
  destruct (parse_input str_lower line) as [command args].
  destruct (handlers_keep_book_wf today args w Hw)
    as (H1 & H2 & H3 & H4 & H5 & H6 & H7 & H8 & H9).
  repeat match goal with
    | |- context [if ?b then _ else _] => destruct b
    end; cbn [snd w_book]; rewrite ?show_result_book; assumption.
Qed.

Lemma session_keeps_book_wf (lines : list (date * py_str)) w :
  book_wf (w_book w) ->
  book_wf (w_book (session str_lower save_data lines w)).
Proof.
  revert w. induction lines as [| [today line] lines IH]; intros w Hw;
    [exact Hw |].
  cbn [session].
  pose proof (main_step_keeps_book_wf today line w Hw) as H.
  destruct (main_step str_lower save_data today line w) as [[|] w'];
    [now apply IH | exact H].
Qed.

(** X20: whatever lines are typed in a session that starts with the empty
    book, the book never holds a name twice, every key is the name of its
    record, every phone of every contact passes [Phone.validate], and
    every birthday is read by [strptime] as a date of the calendar. *)
Theorem X20_session_keeps_the_book_well_formed
    (lines : list (date * py_str)) (env : W) :
  let book :=
    w_book (session str_lower save_data lines (World AddressBook.empty env)) in
  dict_wf (AddressBook.data book)
  /\ keys_are_names book
  /\ (forall r, In r (records book) ->
        Forall (fun p => Phone.validate (Phone.value p) = true)
          (Record_.phones r)
        /\ (forall b, Record_.birthday r = Some b ->
              exists d, strptime (Birthday.value b) = Ok d /\ valid_date d)).
Proof.
  intros book.
  assert (H0 : book_wf (w_book (World AddressBook.empty env)))
    by (split; constructor).
  destruct (session_keeps_book_wf lines _ H0) as [Hw Hf]. fold book in Hw, Hf.
  split; [exact Hw |]. rewrite Forall_forall in Hf. split.
  - apply Forall_forall. intros kv Hin. now apply Hf.
  - intros r Hin. unfold records, dict_values in Hin. apply in_map_iff in Hin.
    destruct Hin as (kv & <- & Hin). now apply Hf.
Qed.

Lemma is_command_other (c : py_str) (name : string) :
  forallb (fun n => negb (str_eqb c (py n))) command_names = true ->
  In name command_names -> is_command (Some c) name = false.
Proof.
  intros H Hin. rewrite forallb_forall in H. apply H in Hin.
  now apply negb_true_iff in Hin.
Qed.

Lemma parse_input_blank (line : py_str) :
  forallb char_isspace line = true -> parse_input str_lower line = (None, []).
Proof.
  intros H. unfold parse_input. rewrite split_strip. unfold str_split.
  now rewrite (split_from_blank line H).
Qed.

(** X21: the command [birthdays] when the query raises.  The handler
    answers with the text of the error, but the loop of [main] does not
    show what this handler answers: nothing is shown and nothing changes.
    When the query returns, its result is handed to the view. *)
Theorem X21_birthdays_error_is_not_shown (today : date) (line : py_str) w :
  fst (parse_input str_lower line) = Some (py "birthdays") ->
  (forall e,
     AddressBook.get_upcoming_birthdays today (w_book w) = Raise e ->
     (exists t, birthdays today (snd (parse_input str_lower line)) w = (Some t, w))
     /\ main_step str_lower save_data today line w = (true, w))
  /\ (forall out,
        AddressBook.get_upcoming_birthdays today (w_book w) = Ok out ->
        main_step str_lower save_data today line w
        = (true, World (w_book w) (show_birthdays out (w_env w)))).
Proof.
  unfold main_step. destruct (parse_input str_lower line) as [command args].
  cbn [fst snd]. intros ->.
  change (is_command (Some (py "birthdays")) "birthdays") with true.
  cbn [is_command str_eqb py map list_ascii_of_string N_of_ascii N.eqb
       Pos.eqb andb orb N.add N.mul Pos.add Pos.mul Pos.succ N_of_digits].
  destruct w as [b env]. cbn [w_book w_env].
  unfold birthdays, input_error, birthdays_body. cbn.
  split.
  - intros e ->. destruct e as [m | m | m | m]; split; eauto.
  - intros out ->. reflexivity.
Qed.

(** X22: a line of nothing but white space, the empty line among them,
    and a line whose first word is none of the commands are answered
    with the notice of the invalid command; the book stays and the loop
    goes on. *)
Theorem X22_unknown_command_is_answered (today : date) (line : py_str) w :
  (forallb char_isspace line = true ->
   main_step str_lower save_data today line w
   = (true, World (w_book w) (show_message invalid_command (w_env w))))
  /\ (forall c,
        fst (parse_input str_lower line) = Some c ->
        forallb (fun n => negb (str_eqb c (py n))) command_names = true ->
        main_step str_lower save_data today line w
        = (true, World (w_book w) (show_message invalid_command (w_env w)))).
Proof.
  unfold main_step. split.
  - intros H. rewrite (parse_input_blank line H). reflexivity.
  - intros c Hc H. destruct (parse_input str_lower line) as [command args].
    cbn [fst] in Hc. subst command.
    repeat match goal with
      | |- context [is_command (Some c) ?n] =>
          rewrite (is_command_other c n H) by (simpl; tauto)
      end.
    reflexivity.
Qed.

Lemma dict_del_get {V : Type} (k : py_str) (d : dict V) :
  dict_wf d -> dict_get k (dict_del k d) = None.
Proof.
  unfold dict_wf, dict_keys. induction d as [| [k' v] d IH]; simpl;
    [reflexivity |].
  intros H. inversion H as [| ? ? Hn Hd]; subst.
  destruct (str_eqb k' k) eqn:E.
  - apply str_eqb_eq in E. subst k'. now apply dict_get_none.
  - simpl. rewrite E. now apply IH.
Qed.

Lemma match_app_last {A B : Type} (l : list A) (x : A) (u v : B) :
  match l ++ [x] with [] => u | _ :: _ => v end = v.
Proof. now destruct l. Qed.

(** X23: how the handlers compose.  After [add_contact] with a valid
    phone, [show_phone] for the name answers with the phones the contact
    had, in their order, and the new phone last; after [delete_contact]
    of a contact of a book that holds no name twice, [show_phone] for the
    name answers that the contact does not exist. *)
Theorem X23_show_phone_after_add_and_after_delete name phone tail w :
  (Phone.validate phone = true ->
   let w1 := snd (add_contact (name :: phone :: tail) w) in
   let old :=
     match dict_get name (AddressBook.data (w_book w)) with
     | Some r => phone_values r
     | None => []
     end in
   show_phone [name] w1
   = (Some (Plain (py "Contact name: " ++ name ++ py ", phones: "
                   ++ str_join (py "; ") (old ++ [phone]))), w1))
  /\ (dict_wf (AddressBook.data (w_book w)) ->
      dict_get name (AddressBook.data (w_book w)) <> None ->
      let w2 := snd (delete_contact (name :: tail) w) in
      fst (delete_contact (name :: tail) w)
      = Some (Plain (py "Contact " ++ name ++ py " deleted."))
      /\ show_phone [name] w2 = (Some no_such_contact, w2)).
Proof.
  split.
  - intros V w1 old. subst w1 old.
    destruct (add_contact_valid name phone tail w V) as [Hnew Hold].
    destruct (dict_get name (AddressBook.data (w_book w))) as [r |] eqn:G.
    + rewrite (Hold r eq_refl). cbn [snd].
      unfold show_phone, input_error, show_phone_body.
      cbn [bind method_monad]. rewrite find_run. cbn [AddressBook.data].
      rewrite dict_set_get. unfold phone_values.
      cbn [Record_.set_phones Record_.phones].
      rewrite match_app_last, map_app. reflexivity.
    + rewrite (Hnew eq_refl). cbn [snd].
      unfold show_phone, input_error, show_phone_body.
      cbn [bind method_monad]. rewrite find_run. cbn [AddressBook.data].
      rewrite dict_get_at by (now apply dict_get_none). reflexivity.
  - intros Hw Hg w2. subst w2.
    destruct (dict_get name (AddressBook.data (w_book w))) as [r |] eqn:G;
      [| congruence].
    destruct w as [b env]. cbn [w_book] in *.
    unfold delete_contact, input_error, delete_contact_body.
    rewrite on_book_then_ret, (delete_present _ _ _ G). cbn [fst snd].
    split; [reflexivity |].
    unfold show_phone, input_error, show_phone_body.
    cbn [bind method_monad]. rewrite find_run. cbn [AddressBook.data].
    rewrite (dict_del_get _ _ Hw). reflexivity.
Qed.

End HandlerFacts.

(** The statement of X15 at the console: a first and a second phone for
    [ann]. *)
Lemma X15_add_contact_at_the_console :
  Phone.validate (py "0123456789") = true
  /\ add_contact [py "ann"; py "0123456789"] (World AddressBook.empty [])
     = (Some (Plain (py "Contact added.")),
        World (AddressBook.Build
                 ([] ++ [(py "ann",
                          Record_.Build (Name.init (py "ann"))
                            [Phone.Build (py "0123456789")] None)]))
          ([] : console)).
Proof.
  split; [reflexivity |].
  apply (proj1 (X15_add_contact_adds_or_updates (W := console)
                  (py "ann") (py "0123456789") []
                  (World AddressBook.empty []) eq_refl)).
  reflexivity.
Defined.

(** The statement of X16 at the console: [add bob 12]. *)
Lemma X16_add_contact_with_a_short_phone :
  Phone.validate (py "12") = false
  /\ add_contact [py "bob"; py "12"] (World AddressBook.empty [])
     = (Some (ErrorText phone_error),
        World (AddressBook.Build ([] ++ [(py "bob", Record_.init (py "bob"))]))
          ([] : console)).
Proof.
  split; [reflexivity |].
  apply (X16_add_contact_leaves_an_empty_contact (W := console)
           (py "bob") (py "12") [] (World AddressBook.empty []));
    [discriminate | reflexivity | reflexivity].
Defined.

(** The statement of X17 at the console, for a name the book of two
    contacts does not hold. *)
Lemma X17_unknown_contact_at_the_console :
  dict_get (py "eve") (AddressBook.data two_contacts) = None
  /\ change_contact [py "eve"; py "0123456789"; py "1111111111"]
       (World two_contacts ([] : console))
     = (Some no_such_contact, World two_contacts []).
Proof.
  split; [reflexivity |].
  apply (X17_commands_on_an_unknown_contact (W := console)
           (py "eve") (World two_contacts [])).
  reflexivity.
Defined.

(** The statement of X21 at the console: the book with a birthday on the
    29th of February, on 25.02.2023. *)
Lemma X21_birthdays_of_the_leap_day_book :
  fst (parse_input (fun s => s) (py "birthdays")) = Some (py "birthdays")
  /\ main_step (fun s => s) (fun _ out => out) (Date 2023 2 25)
       (py "birthdays") (World leap_day_book ([] : console))
     = (true, World leap_day_book []).
Proof.
  split; [reflexivity |].
  apply (proj1 (X21_birthdays_error_is_not_shown (view := ConsoleView)
                  (fun s => s) (fun _ out => out) (Date 2023 2 25)
                  (py "birthdays") (World leap_day_book []) eq_refl)
           day_out_of_range).
  reflexivity.
Defined.
